(** * neon-wallet: the WalletConnect signing facade and session controller

    A shallow embedding of
      - [src/app/context/WalletConnect/helpers.js] (class [N3Helper]), and
      - the WalletConnect context provider ([WalletConnectContextProvider]),
    followed by the properties of the two that the specification states.

    JavaScript values are modelled by the inductive type [JsValue];
    exceptions by the [Throw] branch of [Result]; the React state of the
    provider by the record [Ctx.State], threaded through a state-and-exception
    monad.  Functions of external libraries (neon-js, the WalletConnect
    client, the key-value storage) are parameters of the sections that use
    them. *)

From Stdlib Require Import List ZArith String Ascii Bool Lia Arith.
From stdpp Require Import gmap strings.
Import ListNotations.

Local Open Scope string_scope.
Local Open Scope list_scope.

(* ===================================================================== *)
(** * JavaScript values *)
(* ===================================================================== *)

(** The values that travel through the code: JSON data received from the
    peer, and objects built by the libraries (which are objects too). *)
#[warnings="-register-all"]
Inductive JsValue : Type :=
| JUndefined
| JNull
| JBool (b : bool)
| JNum (n : Z)
| JStr (s : string)
| JArr (items : list JsValue)
| JObj (fields : list (string * JsValue)).

(** What a [throw] carries. *)
Inductive Exn : Type :=
| TypeError (msg : string)
| Error (msg : string)
| Rejected (reason : JsValue).


Inductive Result (A : Type) : Type :=
| Ok (a : A)
| Throw (e : Exn).
Arguments Ok {A} a.
Arguments Throw {A} e.

Definition rbind {A B} (r : Result A) (k : A -> Result B) : Result B :=
  match r with
  | Ok a => k a
  | Throw e => Throw e
  end.

(** [xs.map(f)] where [f] may throw: the first exception ends the loop. *)
Fixpoint mapR {A B} (f : A -> Result B) (xs : list A) : Result (list B) :=
  match xs with
  | [] => Ok []
  | x :: xs' =>
      match f x with
      | Throw e => Throw e
      | Ok y =>
          match mapR f xs' with
          | Throw e => Throw e
          | Ok ys => Ok (y :: ys)
          end
      end
  end.

(** Own-property lookup in an object literal. *)
Fixpoint lookup_field (k : string) (fs : list (string * JsValue)) : JsValue :=
  match fs with
  | [] => JUndefined
  | (k', v) :: fs' => if String.eqb k' k then v else lookup_field k fs'
  end.

(** [a.k]: a TypeError on [undefined] and [null]; [undefined] on a value
    that has no such property. *)
Definition get_prop (a : JsValue) (k : string) : Result JsValue :=
  match a with
  | JUndefined => Throw (TypeError "Cannot read properties of undefined")
  | JNull => Throw (TypeError "Cannot read properties of null")
  | JObj fs => Ok (lookup_field k fs)
  | _ => Ok JUndefined
  end.

(** [a.k] where [a] is known not to be nullish (or where a nullish [a] was
    excluded by a guard). *)
Definition prop (a : JsValue) (k : string) : JsValue :=
  match a with
  | JObj fs => lookup_field k fs
  | _ => JUndefined
  end.

(** [e.message]; the reason of a rejected promise is taken not to be
    [null] or [undefined]. *)
Definition message (e : Exn) : JsValue :=
  match e with
  | TypeError m => JStr m
  | Error m => JStr m
  | Rejected r => prop r "message"
  end.

(** Truthiness, as [if (v)], [!v] and [&&] read it. *)
Definition truthy (v : JsValue) : bool :=
  match v with
  | JUndefined | JNull => false
  | JBool b => b
  | JNum n => negb (n =? 0)%Z
  | JStr s => negb (String.eqb s "")
  | JArr _ | JObj _ => true
  end.

(** [v === 'lit'] *)
Definition is_str (v : JsValue) (lit : string) : bool :=
  match v with
  | JStr s => String.eqb s lit
  | _ => false
  end.

(** [v === undefined] *)
Definition is_undefined (v : JsValue) : bool :=
  match v with
  | JUndefined => true
  | _ => false
  end.

(* ===================================================================== *)
(** * State and exceptions *)
(* ===================================================================== *)

(** A computation over a state [S] that returns or throws; the state
    reached at a [throw] is kept, as in JavaScript. *)
Definition M (S A : Type) : Type := S -> Result A * S.

Definition ret {S A} (a : A) : M S A := fun s => (Ok a, s).

Definition throw {S A} (e : Exn) : M S A := fun s => (Throw e, s).

Definition bind {S A B} (c : M S A) (k : A -> M S B) : M S B :=
  fun s =>
    match c s with
    | (Ok a, s') => k a s'
    | (Throw e, s') => (Throw e, s')
    end.

(** [try { body } catch (e) { handler }] *)
Definition try_catch {S A} (body : M S A) (handler : Exn -> M S A) : M S A :=
  fun s =>
    match body s with
    | (Ok a, s') => (Ok a, s')
    | (Throw e, s') => handler e s'
    end.

Definition gets {S A} (f : S -> A) : M S A := fun s => (Ok (f s), s).

Definition modify {S} (f : S -> S) : M S unit := fun s => (Ok tt, f s).

(** The outcome of an awaited call of an external library. *)
Definition liftR {S A} (r : Result A) : M S A := fun s => (r, s).

Declare Scope js_scope.
Delimit Scope js_scope with js.
Notation "x <- c ;; k" := (bind c (fun x => k))
  (at level 100, c at next level, right associativity) : js_scope.
Notation "c ;;; k" := (bind c (fun _ => k))
  (at level 100, right associativity) : js_scope.

(* ===================================================================== *)
(** * helpers.js: N3Helper *)
(* ===================================================================== *)

Module N3Helper.

(** ** Data *)

(** [WitnessScope] *)
Definition WitnessScope_None : Z := 0.
Definition CalledByEntry : Z := 1.
Definition CustomContracts : Z := 16.
Definition CustomGroups : Z := 32.
Definition Global : Z := 128.

(** A [Signer] entry of a request: its three fields as they come, whatever
    the Flow type says of them; a missing field is [undefined]. *)
Record Signer : Type := mkSigner {
  scopes : JsValue;
  allowedContracts : JsValue;
  allowedGroups : JsValue;
}.

(** A [tx.Signer] object: the fields the code reads and writes. *)
Record TxSigner : Type := mkTxSigner {
  ts_account : string;
  ts_scopes : JsValue;
  ts_allowedContracts : list string;
  ts_allowedGroups : list string;
}.

(** The fields of a [wallet.Account] that the code reads. *)
Record Account : Type := mkAccount {
  publicKey : string;
  privateKey : string;
  scriptHash : string;
}.

Record SignedMessage : Type := mkSignedMessage {
  sm_publicKey : string;
  sm_data : string;
  sm_salt : string;
  sm_messageHex : string;
}.


Record Witness : Type := mkWitness {
  verificationScript : string;
  invocationScript : string;
}.

(** [ContractInvocation] and [ContractInvocationMulti]; the script hash
    and the operation are handed to the script builder as they come,
    [abortOnFail] is read for its truth, and an absent [signers] is
    [None]. *)
Record ContractInvocation : Type := mkContractInvocation {
  ci_scriptHash : JsValue;
  ci_operation : JsValue;
  ci_args : list JsValue;
  abortOnFail : bool;
}.

Record ContractInvocationMulti : Type := mkContractInvocationMulti {
  signers : option (list Signer);
  invocations : list ContractInvocation;
}.

(** What was asked of the script builder, in order. *)
Inductive ScriptOp : Type :=
| EmitContractCall (scriptHash operation : JsValue) (args : list JsValue)
| Emit (opcode : Z).

(** A [tx.Transaction] object, as the library's constructor and calls
    make it: the code here writes only its [witnesses]. *)
Record Transaction : Type := mkTransaction {
  tx_script : string;
  tx_validUntilBlock : Z;
  tx_signers : list TxSigner;
  tx_witnesses : list Witness;
  tx_fees : option (Z * Z);
  tx_signatures : list string;
}.

(** The signing callback handed to the network facade. *)
Definition SigningFunction : Type := Transaction -> Result string.

(** The functions of neon-js (and of the chain behind it) that the helper
    calls.  An awaited call that rejects, or a call that throws, is a
    [Throw].  [sb_emitContractCall] is what [sb.emitContractCall] does with
    a call: it throws on an argument that it cannot encode.
    [new_Transaction] is [new tx.Transaction({ script, validUntilBlock,
    signers })], which makes signer objects of its own out of the ones it
    is given, and [new_Witness] is [new tx.Witness({ verificationScript,
    invocationScript })]. *)
Record NeonLib : Type := mkNeonLib {
  hash160 : JsValue -> Result JsValue;
  array : list JsValue -> Result JsValue;
  signer_default_scopes : JsValue;
  HexString_fromHex : JsValue -> Result string;
  wallet_sign : string -> string -> string;
  wallet_verify : string -> string -> string -> bool;
  getVerificationScriptFromPublicKey : string -> string;
  getversion_network : string -> Result Z;
  getBlockCount : string -> Result Z;
  sb_emitContractCall : JsValue -> JsValue -> list JsValue -> Result unit;
  sb_build : list ScriptOp -> string;
  new_Transaction : string -> Z -> list TxSigner -> Result Transaction;
  new_Witness : string -> string -> Result Witness;
  addFees : Transaction -> string -> Z -> Account -> Result Transaction;
  NetworkFacade_fromConfig : string -> Result unit;
  facade_sign : Transaction -> option SigningFunction -> Result Transaction;
  trx_sign : Transaction -> Account -> Z -> Result Transaction;
  sendRawTransaction : string -> option Transaction -> Result JsValue;
  invokeScript : string -> string -> list TxSigner -> Result JsValue;
}.

(** What the helper does to the outside, in order. *)
Inductive Effect : Type :=
| ConsoleError (e : Exn)
| ShowInfoNotification (message : string)
| HideNotification (notificationId : JsValue)
| SendRawTransaction (trx : option Transaction)
| InvokeScript (script : string) (sgn : list TxSigner).

Definition effect (ev : Effect) : M (list Effect) unit :=
  modify (fun t => t ++ [ev]).

(** ** convertParams *)

Section ConvertParams.

(** [sc.ContractParam.hash160] and [sc.ContractParam.array]; both validate
    their arguments and may throw. *)
Variable hash160 : JsValue -> Result JsValue.
Variable array : list JsValue -> Result JsValue.

(** The arrow function mapped over [args].  The lookup of [a.value] is
    written as a local loop over the fields so that the nested call on the
    elements of an array value is structural; [convertParam_body] below is
    the same function in the source's own shape. *)
Fixpoint convertParam (a : JsValue) : Result JsValue :=
  match a with
  | JUndefined => Throw (TypeError "Cannot read properties of undefined")
  | JNull => Throw (TypeError "Cannot read properties of null")
  | JObj fields =>
      (fix find (fs : list (string * JsValue)) : Result JsValue :=
         match fs with
         | [] => Ok a
         | (k, v) :: fs' =>
             if String.eqb k "value" then
               if is_undefined v then Ok a
               else if is_str (lookup_field "type" fields) "Address" then hash160 v
               else if is_str (lookup_field "type" fields) "ScriptHash" then hash160 v
               else if is_str (lookup_field "type" fields) "Array" then
                 match v with
                 | JArr items =>
                     rbind
                       ((fix go (l : list JsValue) : Result (list JsValue) :=
                           match l with
                           | [] => Ok []
                           | x :: l' =>
                               match convertParam x with
                               | Throw e => Throw e
                               | Ok y =>
                                   match go l' with
                                   | Throw e => Throw e
                                   | Ok ys => Ok (y :: ys)
                                   end
                               end
                           end) items)
                       array
                 | _ => Throw (TypeError "args.map is not a function")
                 end
               else Ok a
             else find fs'
         end) fields
  | _ => Ok a
  end.

Definition convertParams (args : list JsValue) : Result (list JsValue) :=
  mapR convertParam args.



End ConvertParams.

(** ** buildSigner, buildMultipleSigner *)

Section Signers.

Variable lib : NeonLib.

(** [new tx.Signer({ account })]: the given account, and the library's
    defaults elsewhere. *)
Definition new_Signer (account : string) : TxSigner :=
  {| ts_account := account;
     ts_scopes := signer_default_scopes lib;
     ts_allowedContracts := [];
     ts_allowedGroups := [] |}.

(** [signerEntry && signerEntry.scopes] *)
Definition entry_scopes (signerEntry : option Signer) : JsValue :=
  match signerEntry with
  | None => JUndefined
  | Some e => scopes e
  end.

(** [xs.map(ac => Neon.u.HexString.fromHex(ac))] on a truthy [xs]: only an
    array has [map]. *)
Definition map_fromHex (xs : JsValue) : Result (list string) :=
  match xs with
  | JArr l => mapR (HexString_fromHex lib) l
  | _ => Throw (TypeError "map is not a function")
  end.

Definition buildSigner (account : Account) (signerEntry : option Signer)
  : Result TxSigner :=
  let signer := new_Signer (scriptHash account) in
  let signer :=
    {| ts_account := ts_account signer;
       ts_scopes := entry_scopes signerEntry;
       ts_allowedContracts := ts_allowedContracts signer;
       ts_allowedGroups := ts_allowedGroups signer |} in
  rbind
    (match signerEntry with
     | Some e =>
         if truthy (allowedContracts e) then
           rbind (map_fromHex (allowedContracts e)) (fun hs =>
             Ok {| ts_account := ts_account signer;
                   ts_scopes := ts_scopes signer;
                   ts_allowedContracts := hs;
                   ts_allowedGroups := ts_allowedGroups signer |})
         else Ok signer
     | None => Ok signer
     end)
    (fun signer =>
       match signerEntry with
       | Some e =>
           if truthy (allowedGroups e) then
             rbind (map_fromHex (allowedGroups e)) (fun hs =>
               Ok {| ts_account := ts_account signer;
                     ts_scopes := ts_scopes signer;
                     ts_allowedContracts := ts_allowedContracts signer;
                     ts_allowedGroups := hs |})
           else Ok signer
       | None => Ok signer
       end).

(** [signers] defaults to [[]] when absent. *)
Definition buildMultipleSigner (account : Account)
  (signers : option (list Signer)) : Result (list TxSigner) :=
  let signers := match signers with None => [] | Some l => l end in
  if (length signers =? 0)%nat
  then rbind (buildSigner account None) (fun s => Ok [s])
  else mapR (fun s => buildSigner account (Some s)) signers.

End Signers.

(** ** signMessage, verifyMessage *)

(** One hexadecimal digit, lower case. *)
Definition hex_digit (n : N) : ascii :=
  match n with
  | 0%N => "0" | 1%N => "1" | 2%N => "2" | 3%N => "3"
  | 4%N => "4" | 5%N => "5" | 6%N => "6" | 7%N => "7"
  | 8%N => "8" | 9%N => "9" | 10%N => "a" | 11%N => "b"
  | 12%N => "c" | 13%N => "d" | 14%N => "e" | _ => "f"
  end%char.

Definition is_hex_digit (c : ascii) : bool :=
  let n := N_of_ascii c in
  ((48 <=? n) && (n <=? 57) || (97 <=? n) && (n <=? 102))%N.

(** Two digits for one byte. *)
Definition byte_hex (n : N) : string :=
  String (hex_digit ((n / 16) mod 16)) (String (hex_digit (n mod 16)) EmptyString).

(** [crypto.randomBytes(n)]: [n] bytes of the entropy source. *)
Definition randomBytes (entropy : nat -> Byte.byte) (n : nat) : list Byte.byte :=
  map entropy (seq 0 n).

(** [buffer.toString('hex')] *)
Fixpoint toString_hex (bs : list Byte.byte) : string :=
  match bs with
  | [] => EmptyString
  | b :: bs' => byte_hex (Byte.to_N b) +:+ toString_hex bs'
  end.

(** [u.str2hexstring]: the code of every character as one byte.  A
    character is one of the 256 of [ascii] here. *)
Fixpoint str2hexstring (s : string) : string :=
  match s with
  | EmptyString => EmptyString
  | String c s' => byte_hex (N_of_ascii c) +:+ str2hexstring s'
  end.

(** [u.num2hexstring(num, size, true)]: [size] bytes, little endian. *)
Fixpoint num2hexstring_le (num : N) (size : nat) : string :=
  match size with
  | O => EmptyString
  | S k => byte_hex (num mod 256) +:+ num2hexstring_le (num / 256) k
  end.

(** [u.num2VarInt] *)
Definition num2VarInt (num : N) : string :=
  if (num <? 253)%N then byte_hex num
  else if (num <=? 65535)%N then "fd" +:+ num2hexstring_le num 2
  else if (num <=? 4294967295)%N then "fe" +:+ num2hexstring_le num 4
  else "ff" +:+ num2hexstring_le num 8.

Section Messages.

Variable lib : NeonLib.

Definition signMessage (entropy : nat -> Byte.byte) (account : Account)
  (message : string) : SignedMessage :=
  let salt := toString_hex (randomBytes entropy 16) in
  let parameterHexString := str2hexstring (salt +:+ message) in
  let lengthHex := num2VarInt (N.of_nat (String.length parameterHexString) / 2) in
  let messageHex := "010001f0" +:+ lengthHex +:+ parameterHexString +:+ "0000" in
  {| sm_publicKey := publicKey account;
     sm_data := wallet_sign lib messageHex (privateKey account);
     sm_salt := salt;
     sm_messageHex := messageHex |}.

Definition verifyMessage (verifyArgs : SignedMessage) : bool :=
  wallet_verify lib (sm_messageHex verifyArgs) (sm_data verifyArgs)
    (sm_publicKey verifyArgs).

End Messages.

(** ** multiTestInvoke, multiInvoke *)

Section Invoke.

Variable lib : NeonLib.
Variable rpcAddress : string.

(** The [forEach] over [cim.invocations], on the list of the calls that
    the builder took. *)
Fixpoint emit_invocations (sb : list ScriptOp) (cs : list ContractInvocation)
  : Result (list ScriptOp) :=
  match cs with
  | [] => Ok sb
  | c :: cs' =>
      rbind (convertParams (hash160 lib) (array lib) (ci_args c)) (fun args =>
      rbind (sb_emitContractCall lib (ci_scriptHash c) (ci_operation c) args)
        (fun _ =>
        let sb := sb ++ [EmitContractCall (ci_scriptHash c) (ci_operation c) args] in
        let sb := if abortOnFail c then sb ++ [Emit 57] else sb in
        emit_invocations sb cs'))
  end.

Definition multiTestInvoke (account : Account) (cim : ContractInvocationMulti)
  : M (list Effect) JsValue :=
  (sb <- liftR (emit_invocations [] (invocations cim)) ;;
   let script := sb_build lib sb in
   hex <- liftR (HexString_fromHex lib (JStr script)) ;;
   sgn <- liftR (buildMultipleSigner lib account (signers cim)) ;;
   effect (InvokeScript hex sgn) ;;;
   liftR (invokeScript lib rpcAddress hex sgn))%js.

(** [trx.witnesses = ws] *)
Definition set_witnesses (ws : list Witness) (trx : Transaction) : Transaction :=
  {| tx_script := tx_script trx;
     tx_validUntilBlock := tx_validUntilBlock trx;
     tx_signers := tx_signers trx;
     tx_witnesses := ws;
     tx_fees := tx_fees trx;
     tx_signatures := tx_signatures trx |}.

(** [multiInvoke] up to and including the fee call: the network magic and
    the transaction that goes to the signing step. *)
Definition prepareTransaction (account : Account) (cim : ContractInvocationMulti)
  : Result (Z * Transaction) :=
  rbind (getversion_network lib rpcAddress) (fun networkMagic =>
  rbind (emit_invocations [] (invocations cim)) (fun sb =>
  let script := sb_build lib sb in
  rbind (getBlockCount lib rpcAddress) (fun currentHeight =>
  rbind (HexString_fromHex lib (JStr script)) (fun hex =>
  rbind (buildMultipleSigner lib account (signers cim)) (fun sgn =>
  rbind (new_Transaction lib hex (currentHeight + 100) sgn) (fun trx =>
  rbind (new_Witness lib
           (getVerificationScriptFromPublicKey lib (publicKey account)) "")
    (fun witness =>
  let trx := set_witnesses [witness] trx in
  rbind (addFees lib trx rpcAddress networkMagic account) (fun trx =>
  Ok (networkMagic, trx))))))))).

(** The hardware branch: [showInfoNotification] and [hideNotification] are
    optional callbacks; the first returns the notification's id. *)
Definition sign_with_hardware (trx : Transaction)
  (signingFunction : option SigningFunction)
  (showInfoNotification : option (string -> JsValue))
  (hideNotification : bool) : M (list Effect) (option Transaction) :=
  (liftR (NetworkFacade_fromConfig lib rpcAddress) ;;;
   notificationId <-
     match showInfoNotification with
     | Some show =>
         let msg := "Please sign the transaction on your hardware device" in
         effect (ShowInfoNotification msg) ;;; ret (show msg)
     | None => ret JUndefined
     end ;;
   trx' <-
     match facade_sign lib trx signingFunction with
     | Ok t => ret (Some t)
     | Throw e => effect (ConsoleError e) ;;; ret None
     end ;;
   (if hideNotification && truthy notificationId
    then effect (HideNotification notificationId)
    else ret tt) ;;;
   ret trx')%js.

Definition multiInvoke (account : Account) (cim : ContractInvocationMulti)
  (isHardwareLogin : bool) (signingFunction : option SigningFunction)
  (showInfoNotification : option (string -> JsValue))
  (hideNotification : bool) : M (list Effect) JsValue :=
  (prepared <- liftR (prepareTransaction account cim) ;;
   let '(networkMagic, trx) := prepared in
   trx' <-
     (if isHardwareLogin
      then sign_with_hardware trx signingFunction showInfoNotification
             hideNotification
      else t <- liftR (trx_sign lib trx account networkMagic) ;; ret (Some t)) ;;
   effect (SendRawTransaction trx') ;;;
   liftR (sendRawTransaction lib rpcAddress trx'))%js.

End Invoke.

End N3Helper.

(* ===================================================================== *)
(** * The WalletConnect context provider *)
(* ===================================================================== *)

(** The functions of the provider are closures over the state of one
    render.  Here each of them runs to completion on the current state:
    two asynchronous calls are not interleaved, a render follows every
    call, and a function reads the state cells as they are when it runs.
    The one function whose closure can be older than the current render is
    the memoised [makeRequest], whose dependency list leaves out a cell
    that it reads; what it reads for that cell is kept in the state. *)

Module Ctx.

(** ** Data *)

Record JsonRpcRequest : Type := mkJsonRpcRequest {
  id : Z;
  jsonrpc : string;
  method : string;
  params : JsValue;
}.

(** [SessionTypes.RequestEvent] *)
Record RequestEvent : Type := mkRequestEvent {
  topic : string;
  request : JsonRpcRequest;
}.

(** [SessionTypes.Proposal]: its topic, and the two permission lists,
    [permissions.blockchain.chains] and [permissions.jsonrpc.methods]. *)
Record Proposal : Type := mkProposal {
  proposal_topic : string;
  permissions_chains : list string;
  permissions_methods : list string;
}.

Record Session : Type := mkSession {
  session_topic : string;
}.

(** The WalletConnect client object: [session.values] and
    [session.history.pending]. *)
Record Client : Type := mkClient {
  session_values : list Session;
  history_pending : list RequestEvent;
}.

Record CtxOptions : Type := mkCtxOptions {
  appMetadata : JsValue;
  chainIds : list string;
  methods : list string;
  relayServer : string;
}.

(** [makeRequest] is called with a request by the event handler and with
    the whole request event by [approveAndMakeRequest]. *)
Inductive RequestArg : Type :=
| OfRequest (r : JsonRpcRequest)
| OfEvent (ev : RequestEvent).

(** [request.method] inside [makeRequest] *)
Definition arg_method (a : RequestArg) : JsValue :=
  match a with
  | OfRequest r => JStr (method r)
  | OfEvent _ => JUndefined
  end.

(** The listeners the application registers.  A [Throw] of the first is a
    rejected promise, of the second an exception. *)
Definition OnRequestCallback : Type :=
  JsValue -> string -> RequestArg -> Result JsValue.
Definition AutoAcceptCallback : Type :=
  JsValue -> JsValue -> JsonRpcRequest -> Result JsValue.

(** What the provider does to the outside, in order.  [Respond] is a
    response that the client accepted for delivery. *)
Inductive Event : Type :=
| Respond (tp : string) (response : JsValue)
| RejectProposal (p : Proposal)
| Disconnect (tp : string) (reason : JsValue)
| ConsoleError (e : Exn)
| OnRequest (address : JsValue) (chainId : string) (r : RequestArg)
| AutoAccept (address chainId : JsValue) (r : JsonRpcRequest).

(** The functions of the WalletConnect client and of the JSON-RPC tools
    that the provider calls. *)
Record WcLib : Type := mkWcLib {
  wc_respond : Client -> string -> JsValue -> Result Client;
  wc_disconnect : Client -> string -> JsValue -> Result Client;
  formatJsonRpcError : Z -> JsValue -> JsValue;
  JSON_stringify : JsonRpcRequest -> string;
  USER_DISCONNECTED : JsValue;
}.

(** The [useState] cells of the provider, the browser's [localStorage], and
    the trace of what was done to the outside.  [makeRequest] is memoised
    with [useCallback(..., [accounts])]: it is made anew only in a render
    in which [accounts] has changed, and it closes over the
    [onRequestCallback] of that render.  [captured_onRequestCallback] is
    that value: what the [makeRequest] of the current render reads as
    [onRequestCallback]. *)
Record State : Type := mkState {
  wcClient : option Client;
  storage : option (gmap string JsValue);
  sessionProposals : list Proposal;
  initialized : bool;
  chains : list string;
  accounts : list string;
  sessions : list Session;
  requests : list RequestEvent;
  results : list JsValue;
  onRequestCallback : option OnRequestCallback;
  autoAcceptCallback : option AutoAcceptCallback;
  captured_onRequestCallback : option OnRequestCallback;
  txHash : JsValue;
  messageVerification : JsValue;
  error : JsValue;
  localStorage : list (string * string);
  trace : list Event;
}.

Definition set_wcClient (v : option Client) (s : State) : State :=
  {| wcClient := v;
     storage := storage s;
     sessionProposals := sessionProposals s;
     initialized := initialized s;
     chains := chains s;
     accounts := accounts s;
     sessions := sessions s;
     requests := requests s;
     results := results s;
     onRequestCallback := onRequestCallback s;
     autoAcceptCallback := autoAcceptCallback s;
     captured_onRequestCallback := captured_onRequestCallback s;
     txHash := txHash s;
     messageVerification := messageVerification s;
     error := error s;
     localStorage := localStorage s;
     trace := trace s |}.

Definition set_storage (v : option (gmap string JsValue)) (s : State) : State :=
  {| wcClient := wcClient s;
     storage := v;
     sessionProposals := sessionProposals s;
     initialized := initialized s;
     chains := chains s;
     accounts := accounts s;
     sessions := sessions s;
     requests := requests s;
     results := results s;
     onRequestCallback := onRequestCallback s;
     autoAcceptCallback := autoAcceptCallback s;
     captured_onRequestCallback := captured_onRequestCallback s;
     txHash := txHash s;
     messageVerification := messageVerification s;
     error := error s;
     localStorage := localStorage s;
     trace := trace s |}.

Definition set_sessionProposals (v : list Proposal) (s : State) : State :=
  {| wcClient := wcClient s;
     storage := storage s;
     sessionProposals := v;
     initialized := initialized s;
     chains := chains s;
     accounts := accounts s;
     sessions := sessions s;
     requests := requests s;
     results := results s;
     onRequestCallback := onRequestCallback s;
     autoAcceptCallback := autoAcceptCallback s;
     captured_onRequestCallback := captured_onRequestCallback s;
     txHash := txHash s;
     messageVerification := messageVerification s;
     error := error s;
     localStorage := localStorage s;
     trace := trace s |}.

Definition set_initialized (v : bool) (s : State) : State :=
  {| wcClient := wcClient s;
     storage := storage s;
     sessionProposals := sessionProposals s;
     initialized := v;
     chains := chains s;
     accounts := accounts s;
     sessions := sessions s;
     requests := requests s;
     results := results s;
     onRequestCallback := onRequestCallback s;
     autoAcceptCallback := autoAcceptCallback s;
     captured_onRequestCallback := captured_onRequestCallback s;
     txHash := txHash s;
     messageVerification := messageVerification s;
     error := error s;
     localStorage := localStorage s;
     trace := trace s |}.

Definition set_chains (v : list string) (s : State) : State :=
  {| wcClient := wcClient s;
     storage := storage s;
     sessionProposals := sessionProposals s;
     initialized := initialized s;
     chains := v;
     accounts := accounts s;
     sessions := sessions s;
     requests := requests s;
     results := results s;
     onRequestCallback := onRequestCallback s;
     autoAcceptCallback := autoAcceptCallback s;
     captured_onRequestCallback := captured_onRequestCallback s;
     txHash := txHash s;
     messageVerification := messageVerification s;
     error := error s;
     localStorage := localStorage s;
     trace := trace s |}.

Definition set_accounts (v : list string) (s : State) : State :=
  {| wcClient := wcClient s;
     storage := storage s;
     sessionProposals := sessionProposals s;
     initialized := initialized s;
     chains := chains s;
     accounts := v;
     sessions := sessions s;
     requests := requests s;
     results := results s;
     onRequestCallback := onRequestCallback s;
     autoAcceptCallback := autoAcceptCallback s;
     captured_onRequestCallback := captured_onRequestCallback s;
     txHash := txHash s;
     messageVerification := messageVerification s;
     error := error s;
     localStorage := localStorage s;
     trace := trace s |}.

Definition set_sessions (v : list Session) (s : State) : State :=
  {| wcClient := wcClient s;
     storage := storage s;
     sessionProposals := sessionProposals s;
     initialized := initialized s;
     chains := chains s;
     accounts := accounts s;
     sessions := v;
     requests := requests s;
     results := results s;
     onRequestCallback := onRequestCallback s;
     autoAcceptCallback := autoAcceptCallback s;
     captured_onRequestCallback := captured_onRequestCallback s;
     txHash := txHash s;
     messageVerification := messageVerification s;
     error := error s;
     localStorage := localStorage s;
     trace := trace s |}.

Definition set_requests (v : list RequestEvent) (s : State) : State :=
  {| wcClient := wcClient s;
     storage := storage s;
     sessionProposals := sessionProposals s;
     initialized := initialized s;
     chains := chains s;
     accounts := accounts s;
     sessions := sessions s;
     requests := v;
     results := results s;
     onRequestCallback := onRequestCallback s;
     autoAcceptCallback := autoAcceptCallback s;
     captured_onRequestCallback := captured_onRequestCallback s;
     txHash := txHash s;
     messageVerification := messageVerification s;
     error := error s;
     localStorage := localStorage s;
     trace := trace s |}.

Definition set_results (v : list JsValue) (s : State) : State :=
  {| wcClient := wcClient s;
     storage := storage s;
     sessionProposals := sessionProposals s;
     initialized := initialized s;
     chains := chains s;
     accounts := accounts s;
     sessions := sessions s;
     requests := requests s;
     results := v;
     onRequestCallback := onRequestCallback s;
     autoAcceptCallback := autoAcceptCallback s;
     captured_onRequestCallback := captured_onRequestCallback s;
     txHash := txHash s;
     messageVerification := messageVerification s;
     error := error s;
     localStorage := localStorage s;
     trace := trace s |}.

Definition set_onRequestCallback (v : option OnRequestCallback) (s : State) : State :=
  {| wcClient := wcClient s;
     storage := storage s;
     sessionProposals := sessionProposals s;
     initialized := initialized s;
     chains := chains s;
     accounts := accounts s;
     sessions := sessions s;
     requests := requests s;
     results := results s;
     onRequestCallback := v;
     autoAcceptCallback := autoAcceptCallback s;
     captured_onRequestCallback := captured_onRequestCallback s;
     txHash := txHash s;
     messageVerification := messageVerification s;
     error := error s;
     localStorage := localStorage s;
     trace := trace s |}.

Definition set_autoAcceptCallback (v : option AutoAcceptCallback) (s : State) : State :=
  {| wcClient := wcClient s;
     storage := storage s;
     sessionProposals := sessionProposals s;
     initialized := initialized s;
     chains := chains s;
     accounts := accounts s;
     sessions := sessions s;
     requests := requests s;
     results := results s;
     onRequestCallback := onRequestCallback s;
     autoAcceptCallback := v;
     captured_onRequestCallback := captured_onRequestCallback s;
     txHash := txHash s;
     messageVerification := messageVerification s;
     error := error s;
     localStorage := localStorage s;
     trace := trace s |}.

Definition set_captured_onRequestCallback (v : option OnRequestCallback) (s : State) : State :=
  {| wcClient := wcClient s;
     storage := storage s;
     sessionProposals := sessionProposals s;
     initialized := initialized s;
     chains := chains s;
     accounts := accounts s;
     sessions := sessions s;
     requests := requests s;
     results := results s;
     onRequestCallback := onRequestCallback s;
     autoAcceptCallback := autoAcceptCallback s;
     captured_onRequestCallback := v;
     txHash := txHash s;
     messageVerification := messageVerification s;
     error := error s;
     localStorage := localStorage s;
     trace := trace s |}.

Definition set_txHash (v : JsValue) (s : State) : State :=
  {| wcClient := wcClient s;
     storage := storage s;
     sessionProposals := sessionProposals s;
     initialized := initialized s;
     chains := chains s;
     accounts := accounts s;
     sessions := sessions s;
     requests := requests s;
     results := results s;
     onRequestCallback := onRequestCallback s;
     autoAcceptCallback := autoAcceptCallback s;
     captured_onRequestCallback := captured_onRequestCallback s;
     txHash := v;
     messageVerification := messageVerification s;
     error := error s;
     localStorage := localStorage s;
     trace := trace s |}.

Definition set_messageVerification (v : JsValue) (s : State) : State :=
  {| wcClient := wcClient s;
     storage := storage s;
     sessionProposals := sessionProposals s;
     initialized := initialized s;
     chains := chains s;
     accounts := accounts s;
     sessions := sessions s;
     requests := requests s;
     results := results s;
     onRequestCallback := onRequestCallback s;
     autoAcceptCallback := autoAcceptCallback s;
     captured_onRequestCallback := captured_onRequestCallback s;
     txHash := txHash s;
     messageVerification := v;
     error := error s;
     localStorage := localStorage s;
     trace := trace s |}.

Definition set_error (v : JsValue) (s : State) : State :=
  {| wcClient := wcClient s;
     storage := storage s;
     sessionProposals := sessionProposals s;
     initialized := initialized s;
     chains := chains s;
     accounts := accounts s;
     sessions := sessions s;
     requests := requests s;
     results := results s;
     onRequestCallback := onRequestCallback s;
     autoAcceptCallback := autoAcceptCallback s;
     captured_onRequestCallback := captured_onRequestCallback s;
     txHash := txHash s;
     messageVerification := messageVerification s;
     error := v;
     localStorage := localStorage s;
     trace := trace s |}.

Definition set_localStorage (v : list (string * string)) (s : State) : State :=
  {| wcClient := wcClient s;
     storage := storage s;
     sessionProposals := sessionProposals s;
     initialized := initialized s;
     chains := chains s;
     accounts := accounts s;
     sessions := sessions s;
     requests := requests s;
     results := results s;
     onRequestCallback := onRequestCallback s;
     autoAcceptCallback := autoAcceptCallback s;
     captured_onRequestCallback := captured_onRequestCallback s;
     txHash := txHash s;
     messageVerification := messageVerification s;
     error := error s;
     localStorage := v;
     trace := trace s |}.

Definition set_trace (v : list Event) (s : State) : State :=
  {| wcClient := wcClient s;
     storage := storage s;
     sessionProposals := sessionProposals s;
     initialized := initialized s;
     chains := chains s;
     accounts := accounts s;
     sessions := sessions s;
     requests := requests s;
     results := results s;
     onRequestCallback := onRequestCallback s;
     autoAcceptCallback := autoAcceptCallback s;
     captured_onRequestCallback := captured_onRequestCallback s;
     txHash := txHash s;
     messageVerification := messageVerification s;
     error := error s;
     localStorage := localStorage s;
     trace := v |}.

(** The state a freshly mounted provider starts from. *)
Definition initial_state (options : CtxOptions) : State :=
  {| wcClient := None;
     storage := None;
     sessionProposals := [];
     initialized := false;
     chains := chainIds options;
     accounts := [];
     sessions := [];
     requests := [];
     results := [];
     onRequestCallback := None;
     autoAcceptCallback := None;
     captured_onRequestCallback := None;
     txHash := JStr "";
     messageVerification := JObj [];
     error := JBool false;
     localStorage := [];
     trace := [] |}.

(** [setAccounts(v)] with a new array, which every call in the provider
    passes: in the render that follows, [accounts] has changed, so that
    [makeRequest] is made anew and closes over the [onRequestCallback] of
    that render.  A render follows every call here. *)
Definition setAccounts (v : list string) (s : State) : State :=
  set_captured_onRequestCallback (onRequestCallback s) (set_accounts v s).

Definition log (ev : Event) : M State unit :=
  modify (fun s => set_trace (trace s ++ [ev]) s).

(** ** Strings *)

(** [s.split(':')] *)
Fixpoint split_colon (s : string) : list string :=
  match s with
  | EmptyString => [EmptyString]
  | String c s' =>
      if Ascii.eqb c ":"%char then EmptyString :: split_colon s'
      else
        match split_colon s' with
        | [] => [String c EmptyString]
        | p :: ps => String c p :: ps
        end
  end.

(** An element of a destructured array: [undefined] past its end. *)
Definition element (parts : list string) (i : nat) : JsValue :=
  match parts !! i with
  | Some p => JStr p
  | None => JUndefined
  end.

(** A value inside a template literal; only strings and [undefined] occur. *)
Definition template (v : JsValue) : string :=
  match v with
  | JStr p => p
  | _ => "undefined"
  end.

(** [const [namespace, reference, address] = account.split(':')] and
    [`${namespace}:${reference}`]: the address and the chain id. *)
Definition address_and_chain (account : string) : JsValue * string :=
  let parts := split_colon account in
  let namespace := element parts 0 in
  let reference := element parts 1 in
  let address := element parts 2 in
  (address, template namespace +:+ ":" +:+ template reference).

(** [{ ...results, method }] on the fields of an object *)
Fixpoint set_field (k : string) (v : JsValue) (fs : list (string * JsValue))
  : list (string * JsValue) :=
  match fs with
  | [] => [(k, v)]
  | (k', v') :: fs' =>
      if String.eqb k' k then (k, v) :: fs' else (k', v') :: set_field k v fs'
  end.

Definition spread_with (o : JsValue) (k : string) (v : JsValue) : JsValue :=
  match o with
  | JObj fs => JObj (set_field k v fs)
  | _ => JObj [(k, v)]
  end.

(** [xs.includes(x)] on strings *)
Definition includes (xs : list string) (x : string) : bool :=
  existsb (String.eqb x) xs.

(** ** clearStorage *)

(** [localStorage.removeItem(k)] *)
Definition removeItem (k : string) (ls : list (string * string))
  : list (string * string) :=
  List.filter (fun kv => negb (String.eqb (fst kv) k)) ls.

Definition clearStorage_keys (ls : list (string * string)) : list string :=
  List.filter (fun k => String.eqb (substring 0 2 k) "wc") (map fst ls).

Definition clearStorage : M State unit :=
  modify (fun s =>
    set_localStorage
      (fold_left (fun ls k => removeItem k ls)
         (clearStorage_keys (localStorage s)) (localStorage s)) s).

Section Provider.

Variable lib : WcLib.
Variable options : CtxOptions.

(** ** The client's calls *)

(** [await wcClient.respond({ topic, response })] on the client the state
    holds; the callers have checked that there is one. *)
Definition client_respond (tp : string) (response : JsValue) : M State unit :=
  fun s =>
    match wcClient s with
    | None => (Throw (TypeError "Cannot read properties of undefined"), s)
    | Some c =>
        match wc_respond lib c tp response with
        | Ok c' =>
            (Ok tt, set_trace (trace s ++ [Respond tp response])
                      (set_wcClient (Some c') s))
        | Throw e => (Throw e, s)
        end
    end.

(** One [wcClient && wcClient.disconnect(...)] of a [map]: the calls of the
    other sessions go on when one fails, and the first failure is what
    [Promise.all] rejects with. *)
Fixpoint disconnect_each (ss : list Session) (failed : option Exn)
  : M State (option Exn) :=
  match ss with
  | [] => ret failed
  | x :: ss' =>
      fun s =>
        match wcClient s with
        | None => disconnect_each ss' failed s
        | Some c =>
            match wc_disconnect lib c (session_topic x) (USER_DISCONNECTED lib) with
            | Ok c' =>
                disconnect_each ss' failed
                  (set_trace
                     (trace s ++ [Disconnect (session_topic x) (USER_DISCONNECTED lib)])
                     (set_wcClient (Some c') s))
            | Throw e =>
                disconnect_each ss'
                  (match failed with None => Some e | Some _ => failed end) s
            end
        end
  end.

(** [await Promise.all(ss.map(...))] *)
Definition disconnect_all (ss : list Session) : M State unit :=
  (failed <- disconnect_each ss None ;;
   match failed with
   | None => ret tt
   | Some e => throw e
   end)%js.

(** ** resetApp *)

Definition resetApp : M State unit :=
  try_catch
    (ss <- gets sessions ;;
     (if negb (length ss =? 0)%nat then disconnect_all ss else ret tt) ;;;
     c <- gets wcClient ;;
     match c with
     | Some cl =>
         if negb (length (session_values cl) =? 0)%nat
         then disconnect_all (session_values cl)
         else ret tt
     | None => ret tt
     end ;;;
     clearStorage ;;;
     modify (set_wcClient None) ;;;
     modify (set_sessionProposals []) ;;;
     modify (set_initialized false) ;;;
     modify (setAccounts []) ;;;
     modify (set_sessions []) ;;;
     modify (set_requests []) ;;;
     modify (set_results []))%js
    (fun e => log (ConsoleError e)).

Definition checkPersistedState : M State unit :=
  (c <- gets wcClient ;;
   match c with
   | None => throw (Error "Client is not initialized")
   | Some cl =>
       modify (set_sessions (session_values cl)) ;;;
       modify (set_requests (history_pending cl)) ;;;
       modify (set_initialized true)
   end)%js.

(** ** makeRequest and the approval cache *)

Definition unknown_error : JsValue :=
  JStr "An unkown error occurred please try again.".

(** [results && results.result && !results.result.error &&
    !results.result.isTest], the part the two tests of [makeRequest]
    share. *)
Definition is_plain_result (results : JsValue) : bool :=
  truthy results && truthy (prop results "result")
  && negb (truthy (prop (prop results "result") "error"))
  && negb (truthy (prop (prop results "result") "isTest")).

(** The memoised [makeRequest]: [accounts] is among its dependencies and
    is the current one; [onRequestCallback] is not, and is the captured
    one. *)
Definition makeRequest (request : RequestArg) : M State JsValue :=
  (accs <- gets accounts ;;
   match accs with
   | [] => throw (TypeError "Cannot read properties of undefined (reading 'split')")
   | account0 :: _ =>
       let '(address, chainId) := address_and_chain account0 in
       cb <- gets captured_onRequestCallback ;;
       match cb with
       | None => throw (Error "There is no onRequestCallback")
       | Some onRequest =>
           log (OnRequest address chainId request) ;;;
           results <-
             match onRequest address chainId request with
             | Ok r => ret r
             | Throw e =>
                 log (ConsoleError e) ;;;
                 modify (set_error unknown_error) ;;;
                 ret JUndefined
             end ;;
           (if is_plain_result results && negb (truthy (prop results "isMessage"))
            then modify (set_txHash (prop results "result"))
            else if is_plain_result results && truthy (prop results "isMessage")
            then modify (set_messageVerification
                           (spread_with results "method" (arg_method request)))
            else
              result <- liftR (get_prop results "result") ;;
              modify (set_error
                        (if truthy result then prop result "error"
                         else unknown_error))) ;;;
           ret results
       end
   end)%js.

(** The key of a request in the approval cache *)
Definition cache_key (r : JsonRpcRequest) : string :=
  "request-" +:+ JSON_stringify lib r.

Definition approveAndMakeRequest (requestEvent : RequestEvent) : M State JsValue :=
  (st <- gets storage ;;
   match st with
   | None => throw (TypeError "Cannot read properties of undefined (reading 'setItem')")
   | Some m =>
       modify (set_storage (Some (<[cache_key (request requestEvent) := JBool true]> m))) ;;;
       makeRequest (OfEvent requestEvent)
   end)%js.

Definition checkApprovedRequest (r : JsonRpcRequest) : M State JsValue :=
  (st <- gets storage ;;
   match st with
   | None => throw (TypeError "Cannot read properties of undefined (reading 'getItem')")
   | Some m =>
       ret (match m !! cache_key r with Some v => v | None => JUndefined end)
   end)%js.

Definition respondRequest (tp : string) (response : JsValue) : M State unit :=
  (c <- gets wcClient ;;
   match c with
   | None => throw (Error "Client is not initialized")
   | Some _ => client_respond tp response
   end)%js.

(** ** subscribeToEvents: the session.proposal handler *)

(** The namespaces of the configured chains; the handler computes the list
    and does not read it. *)
Definition supportedNamespaces (chs : list string) : list string :=
  fold_left
    (fun acc chainId =>
       let namespace := template (element (split_colon chainId) 0) in
       if includes acc namespace then acc else acc ++ [namespace])
    chs [].

(** What the handler returns: the promise of [wcClient.reject], or [null]. *)
Inductive ProposalReturn : Type :=
| RejectPromise
| ReturnNull.

Definition onSessionProposal (proposal : Proposal) : M State ProposalReturn :=
  (c <- gets wcClient ;;
   match c with
   | None => throw (Error "Client is not initialized")
   | Some _ =>
       chs <- gets chains ;;
       let _ := supportedNamespaces chs in
       let unsupportedChains :=
         List.filter (fun chainId => negb (includes chs chainId))
           (permissions_chains proposal) in
       if negb (length unsupportedChains =? 0)%nat
       then log (RejectProposal proposal) ;;; ret RejectPromise
       else
         let unsupportedMethods :=
           List.filter (fun m => negb (includes (methods options) m))
             (permissions_methods proposal) in
         if negb (length unsupportedMethods =? 0)%nat
         then log (RejectProposal proposal) ;;; ret RejectPromise
         else
           modify (fun s => set_sessionProposals (sessionProposals s ++ [proposal]) s) ;;;
           ret ReturnNull
   end)%js.

(** ** subscribeToEvents: the session.request handler *)

Definition askApproval (requestEvent : RequestEvent) : M State unit :=
  modify (fun s =>
    set_requests
      (List.filter (fun i => negb (id (request i) =? id (request requestEvent))%Z)
         (requests s) ++ [requestEvent]) s).

Definition approve (requestEvent : RequestEvent) : M State unit :=
  (response <- makeRequest (OfRequest (request requestEvent)) ;;
   respondRequest (topic requestEvent) response)%js.

Definition reject (requestEvent : RequestEvent) (msg : JsValue) : M State unit :=
  respondRequest (topic requestEvent)
    (formatJsonRpcError lib (id (request requestEvent)) msg).

Definition onSessionRequest (requestEvent : RequestEvent) : M State unit :=
  try_catch
    (alreadyApproved <- checkApprovedRequest (request requestEvent) ;;
     if truthy alreadyApproved then approve requestEvent
     else
       cb <- gets autoAcceptCallback ;;
       match cb with
       | Some autoAccept =>
           accs <- gets accounts ;;
           let '(address, chainId) :=
             match accs with
             | [] => (JUndefined, JUndefined)
             | account0 :: _ =>
                 let '(addr, ch) := address_and_chain account0 in (addr, JStr ch)
             end in
           log (AutoAccept address chainId (request requestEvent)) ;;;
           autoAccepted <- liftR (autoAccept address chainId (request requestEvent)) ;;
           if truthy autoAccepted then approve requestEvent
           else askApproval requestEvent
       | None => askApproval requestEvent
       end)%js
    (fun e => reject requestEvent (message e)).

(** ** Manual approval and rejection *)

(** [requests] is the cell as the function's render saw it, which is the
    current one here. *)
Definition removeFromPending (requestEvent : RequestEvent) : M State unit :=
  modify (fun s =>
    set_requests
      (List.filter (fun x => negb (id (request x) =? id (request requestEvent))%Z)
         (requests s)) s).

Definition failed_or_rejected (requestEvent : RequestEvent) : JsValue :=
  formatJsonRpcError lib (id (request requestEvent))
    (JStr "Failed or Rejected Request").

Definition approveRequest (requestEvent : RequestEvent) : M State unit :=
  (c <- gets wcClient ;;
   match c with
   | None => throw (Error "Client is not initialized")
   | Some _ =>
       try_catch
         (response <- approveAndMakeRequest requestEvent ;;
          client_respond (topic requestEvent) response)
         (fun e =>
            log (ConsoleError e) ;;;
            client_respond (topic requestEvent) (failed_or_rejected requestEvent)) ;;;
       removeFromPending requestEvent
   end)%js.

Definition rejectRequest (requestEvent : RequestEvent) : M State unit :=
  (c <- gets wcClient ;;
   match c with
   | None => throw (Error "Client is not initialized")
   | Some _ =>
       client_respond (topic requestEvent) (failed_or_rejected requestEvent) ;;;
       removeFromPending requestEvent
   end)%js.

(** ** Accounts *)

Definition addAccountAndChain (address chain : string) : M State unit :=
  modify (fun s => setAccounts (accounts s ++ [chain +:+ ":" +:+ address]) s).


Definition clearAccountAndChain : M State unit :=
  modify (setAccounts []).

End Provider.

(** ** Readings of the state and of the trace *)

(** The number of pending entries that carry a request id. *)
Definition pending_with (i : Z) (rs : list RequestEvent) : nat :=
  length (List.filter (fun x => (id (request x) =? i)%Z) rs).

Definition is_AutoAccept (ev : Event) : bool :=
  match ev with
  | AutoAccept _ _ _ => true
  | _ => false
  end.

Definition is_OnRequest (ev : Event) : bool :=
  match ev with
  | OnRequest _ _ _ => true
  | _ => false
  end.


End Ctx.

(* ===================================================================== *)
(** * Vocabulary of the statements *)
(* ===================================================================== *)

Module Props.

Import N3Helper.

(** An argument that [convertParams] can take apart: not [null] or
    [undefined], and, where it carries a value and the type Array (and is
    not taken for a hash first), the value is an array of such arguments.
    The shape of the definition is the one of [convertParam]. *)
Fixpoint well_formed (a : JsValue) : bool :=
  match a with
  | JUndefined => false
  | JNull => false
  | JObj fields =>
      (fix find (fs : list (string * JsValue)) : bool :=
         match fs with
         | [] => true
         | (k, v) :: fs' =>
             if String.eqb k "value" then
               if is_undefined v then true
               else if is_str (lookup_field "type" fields) "Address" then true
               else if is_str (lookup_field "type" fields) "ScriptHash" then true
               else if is_str (lookup_field "type" fields) "Array" then
                 match v with
                 | JArr items =>
                     (fix all (l : list JsValue) : bool :=
                        match l with
                        | [] => true
                        | x :: l' => well_formed x && all l'
                        end) items
                 | _ => false
                 end
               else true
             else find fs'
         end) fields
  | _ => true
  end.






(** The signer that [buildSigner] makes of an account alone. *)
Definition bare_signer (account : Account) : TxSigner :=
  {| ts_account := scriptHash account;
     ts_scopes := JUndefined;
     ts_allowedContracts := [];
     ts_allowedGroups := [] |}.

(** All delivered responses of a trace, with their topics, in order. *)
Definition responses (t : list Ctx.Event) : list (string * JsValue) :=
  flat_map
    (fun ev =>
       match ev with
       | Ctx.Respond tp r => [(tp, r)]
       | _ => []
       end) t.

(** The auto-accept callback's calls in a trace. *)
Definition auto_accept_calls (t : list Ctx.Event) : list Ctx.Event :=
  List.filter Ctx.is_AutoAccept t.

(** The pending collection after a history of enqueues and removals. *)
Inductive QueueOp : Type :=
| Enqueue (ev : Ctx.RequestEvent)
| Dequeue (ev : Ctx.RequestEvent).

Definition run_op (s : Ctx.State) (op : QueueOp) : Ctx.State :=
  match op with
  | Enqueue ev => snd (Ctx.askApproval ev s)
  | Dequeue ev => snd (Ctx.removeFromPending ev s)
  end.

(** The notification events around the hardware signing step. *)
Definition shown (showInfoNotification : option (string -> JsValue))
  : list Effect :=
  match showInfoNotification with
  | Some _ => [ShowInfoNotification "Please sign the transaction on your hardware device"]
  | None => []
  end.

Definition hidden (showInfoNotification : option (string -> JsValue))
  (hideNotification : bool) : list Effect :=
  match showInfoNotification with
  | Some show =>
      let i := show "Please sign the transaction on your hardware device" in
      if hideNotification && truthy i then [HideNotification i] else []
  | None => []
  end.

(** ** Frames and resets *)

(** Whether a proposal asks for a chain or a method that is not
    configured. *)
Definition asks_unsupported (options : Ctx.CtxOptions) (s : Ctx.State)
  (p : Ctx.Proposal) : bool :=
  existsb (fun chainId => negb (Ctx.includes (Ctx.chains s) chainId))
    (Ctx.permissions_chains p)
  || existsb (fun m => negb (Ctx.includes (Ctx.methods options) m))
       (Ctx.permissions_methods p).

(** [c] relates every state it starts from to the state it ends in,
    whether it returns or throws. *)
Definition preserves {A} (R : Ctx.State -> Ctx.State -> Prop)
  (c : M Ctx.State A) : Prop :=
  forall s r s', c s = (r, s') -> R s s'.

(** The state that [makeRequest] leaves alone: everything but the
    transaction hash, the message verification, the error and the log of
    callback calls. *)
Definition silent (s s' : Ctx.State) : Prop :=
  Ctx.wcClient s' = Ctx.wcClient s
  /\ Ctx.storage s' = Ctx.storage s
  /\ Ctx.requests s' = Ctx.requests s
  /\ Ctx.accounts s' = Ctx.accounts s
  /\ Ctx.onRequestCallback s' = Ctx.onRequestCallback s
  /\ Ctx.autoAcceptCallback s' = Ctx.autoAcceptCallback s
  /\ responses (Ctx.trace s') = responses (Ctx.trace s)
  /\ auto_accept_calls (Ctx.trace s') = auto_accept_calls (Ctx.trace s).

Definition client_present (s : Ctx.State) : bool :=
  match Ctx.wcClient s with
  | Some _ => true
  | None => false
  end.

(** The state that answering a request leaves alone. *)
Definition quiet (s s' : Ctx.State) : Prop :=
  client_present s' = client_present s
  /\ Ctx.storage s' = Ctx.storage s
  /\ Ctx.requests s' = Ctx.requests s
  /\ Ctx.accounts s' = Ctx.accounts s
  /\ Ctx.onRequestCallback s' = Ctx.onRequestCallback s
  /\ Ctx.autoAcceptCallback s' = Ctx.autoAcceptCallback s
  /\ auto_accept_calls (Ctx.trace s') = auto_accept_calls (Ctx.trace s).

(** An event that is no call of a callback. *)
Definition plain (ev : Ctx.Event) : bool :=
  negb (Ctx.is_OnRequest ev || Ctx.is_AutoAccept ev).

(** The trace grew by plain events only. *)
Definition appends (s s' : Ctx.State) : Prop :=
  exists evs, Ctx.trace s' = Ctx.trace s ++ evs /\ forallb plain evs = true.

(** The browser storage after [clearStorage]. *)
Definition cleared_storage (ls : list (string * string)) : list (string * string) :=
  fold_left (fun ls k => Ctx.removeItem k ls) (Ctx.clearStorage_keys ls) ls.


(** What the disconnecting of sessions leaves alone: everything but the
    client object and the trace. *)
Definition ui_kept (s s' : Ctx.State) : Prop :=
  Ctx.sessions s' = Ctx.sessions s
  /\ Ctx.sessionProposals s' = Ctx.sessionProposals s
  /\ Ctx.requests s' = Ctx.requests s
  /\ Ctx.results s' = Ctx.results s
  /\ Ctx.accounts s' = Ctx.accounts s
  /\ Ctx.localStorage s' = Ctx.localStorage s
  /\ client_present s' = client_present s.



(** [key.substring(0, 2) === 'wc'] *)
Definition is_wc (k : string) : bool := String.eqb (substring 0 2 k) "wc".

(** ** A sample environment, to run the definitions on concrete inputs *)

Definition sample_hash160 (v : JsValue) : Result JsValue :=
  Ok (JObj [("type", JStr "Hash160"); ("value", v)]).


Definition sample_array (l : list JsValue) : Result JsValue :=
  Ok (JObj [("type", JStr "Array"); ("value", JArr l)]).

Definition sample_account : Account :=
  {| publicKey := "02aa"; privateKey := "11"; scriptHash := "c0ffee" |}.

Definition sample_transaction (rpc : string) (trx : option Transaction)
  : Result JsValue :=
  match trx with
  | Some _ => Ok (JStr "0xtxid")
  | None => Throw (Error "Cannot serialize undefined")
  end.

(** [HexString.fromHex] on a string; it takes nothing else. *)
Definition sample_fromHex (v : JsValue) : Result string :=
  match v with
  | JStr h => Ok h
  | _ => Throw (Error "Expected a hex string")
  end.

(** A constructor that makes its own signers: a scope that is not given
    becomes the scope None. *)
Definition sample_new_Transaction (script : string) (validUntilBlock : Z)
  (sgn : list TxSigner) : Result Transaction :=
  Ok {| tx_script := script;
        tx_validUntilBlock := validUntilBlock;
        tx_signers :=
          map (fun s =>
                 {| ts_account := ts_account s;
                    ts_scopes :=
                      if is_undefined (ts_scopes s) then JNum WitnessScope_None
                      else ts_scopes s;
                    ts_allowedContracts := ts_allowedContracts s;
                    ts_allowedGroups := ts_allowedGroups s |}) sgn;
        tx_witnesses := [];
        tx_fees := None;
        tx_signatures := [] |}.

(** A library whose hardware signing fails when [hw_fails] is set. *)
Definition sample_neon (hw_fails : bool) : NeonLib :=
  {| hash160 := sample_hash160;
     array := sample_array;
     signer_default_scopes := JNum CalledByEntry;
     HexString_fromHex := sample_fromHex;
     wallet_sign := fun m k => k +:+ m;
     wallet_verify := fun m d k => true;
     getVerificationScriptFromPublicKey := fun k => "0c21" +:+ k;
     getversion_network := fun _ => Ok 860833102%Z;
     getBlockCount := fun _ => Ok 1000%Z;
     sb_emitContractCall := fun _ _ _ => Ok tt;
     sb_build := fun ops => "c1";
     new_Transaction := sample_new_Transaction;
     new_Witness := fun v i =>
       Ok {| verificationScript := v; invocationScript := i |};
     addFees := fun t _ _ _ =>
       Ok {| tx_script := tx_script t;
             tx_validUntilBlock := tx_validUntilBlock t;
             tx_signers := tx_signers t;
             tx_witnesses := tx_witnesses t;
             tx_fees := Some (1, 2)%Z;
             tx_signatures := tx_signatures t |};
     NetworkFacade_fromConfig := fun _ => Ok tt;
     facade_sign := fun t _ =>
       if hw_fails then Throw (Rejected (JStr "Ledger: user rejected"))
       else Ok t;
     trx_sign := fun t _ _ => Ok t;
     sendRawTransaction := sample_transaction;
     invokeScript := fun _ _ _ => Ok (JObj [("state", JStr "HALT")]) |}.

(** A client library that delivers every response; its [disconnect]
    removes the session, or rejects when the relay is not [online]. *)
Definition sample_wc (online : bool) : Ctx.WcLib :=
  {| Ctx.wc_respond := fun c _ _ => Ok c;
     Ctx.wc_disconnect := fun c tp _ =>
       if online
       then Ok {| Ctx.session_values :=
                    List.filter (fun x => negb (String.eqb (Ctx.session_topic x) tp))
                      (Ctx.session_values c);
                  Ctx.history_pending := Ctx.history_pending c |}
       else Throw (Error "Relay is unreachable");
     Ctx.formatJsonRpcError := fun i m =>
       JObj [("id", JNum i); ("jsonrpc", JStr "2.0");
             ("error", JObj [("code", JNum (-32000)); ("message", m)])];
     Ctx.JSON_stringify := fun r =>
       Ctx.method r +:+ "#" +:+ Ctx.jsonrpc r;
     Ctx.USER_DISCONNECTED := JObj [("code", JNum 5900)] |}.

(** A client library whose [respond] rejects: the session of the topic is
    gone. *)
Definition sample_wc_gone : Ctx.WcLib :=
  {| Ctx.wc_respond := fun _ _ _ => Throw (Error "No matching session");
     Ctx.wc_disconnect := Ctx.wc_disconnect (sample_wc true);
     Ctx.formatJsonRpcError := Ctx.formatJsonRpcError (sample_wc true);
     Ctx.JSON_stringify := Ctx.JSON_stringify (sample_wc true);
     Ctx.USER_DISCONNECTED := Ctx.USER_DISCONNECTED (sample_wc true) |}.

Definition sample_options : Ctx.CtxOptions :=
  {| Ctx.appMetadata := JObj [];
     Ctx.chainIds := ["neo3:testnet"];
     Ctx.methods := ["invokeFunction"; "testInvoke"];
     Ctx.relayServer := "wss://relay" |}.

Definition sample_request : Ctx.JsonRpcRequest :=
  {| Ctx.id := 7; Ctx.jsonrpc := "2.0"; Ctx.method := "invokeFunction";
     Ctx.params := JArr [] |}.

Definition sample_event : Ctx.RequestEvent :=
  {| Ctx.topic := "t1"; Ctx.request := sample_request |}.

(** A connected provider: a client with one session [t1], one account, a
    request callback that answers with a transaction id and was registered
    before the account was added, an empty cache. *)
Definition sample_state : Ctx.State :=
  {| Ctx.wcClient :=
       Some {| Ctx.session_values := [ {| Ctx.session_topic := "t1" |} ];
               Ctx.history_pending := [] |};
     Ctx.storage := Some ∅;
     Ctx.sessionProposals := [];
     Ctx.initialized := true;
     Ctx.chains := ["neo3:testnet"];
     Ctx.accounts := ["neo3:testnet:NX8Gre"];
     Ctx.sessions := [ {| Ctx.session_topic := "t1" |} ];
     Ctx.requests := [sample_event];
     Ctx.results := [];
     Ctx.onRequestCallback :=
       Some (fun _ _ _ => Ok (JObj [("result", JStr "0xtxid")]));
     Ctx.autoAcceptCallback := Some (fun _ _ _ => Ok (JBool false));
     Ctx.captured_onRequestCallback :=
       Some (fun _ _ _ => Ok (JObj [("result", JStr "0xtxid")]));
     Ctx.txHash := JStr "";
     Ctx.messageVerification := JObj [];
     Ctx.error := JBool false;
     Ctx.localStorage := [("wc@2:client", "x"); ("theme", "dark")];
     Ctx.trace := [] |}.

(** The same provider with a request callback whose signing fails. *)
Definition sample_state_failing : Ctx.State :=
  Ctx.set_captured_onRequestCallback
    (Some (fun _ _ _ => Throw (Error "Signing failed")))
    (Ctx.set_onRequestCallback
       (Some (fun _ _ _ => Throw (Error "Signing failed"))) sample_state).

(** Arguments of a call: an address, a raw number, and a nested array. *)
Definition sample_args : list JsValue :=
  [ JObj [("type", JStr "Address"); ("value", JStr "NX8GreRFGFK5wpGMWetpX93HmtrezGogzk")];
    JNum 5;
    JObj [("type", JStr "Array");
          ("value", JArr [ JObj [("type", JStr "ScriptHash"); ("value", JStr "c0ffee")];
                           JObj [("type", JStr "Array"); ("value", JArr [JNum 1; JNum 2])] ])] ].

Definition sample_cim : ContractInvocationMulti :=
  {| signers := None;
     invocations :=
       [ {| ci_scriptHash := JStr "d2a4"; ci_operation := JStr "transfer";
            ci_args := sample_args; abortOnFail := true |} ] |}.

End Props.

(* ===================================================================== *)
(** * helpers.js: rpcCall *)
(* ===================================================================== *)

Module Rpc.

Import N3Helper.

(** The two calls of the RPC client that only [rpcCall] makes:
    [getApplicationLog], and [execute] of the query made of the request's
    id, method and params. *)
Record RpcLib : Type := mkRpcLib {
  getApplicationLog : string -> JsValue -> Result JsValue;
  execute : string -> Z -> string -> JsValue -> Result JsValue;
}.

(** [request.params] is handed to the callee as it is.  What the callee
    reads of it, it reads below; these two are the readings the library
    makes of arguments that may not be the strings the Flow type says:
    [as_message] is the string that [salt + message] appends, which never
    throws, and [read_signed] is the signed message that [wallet.verify]
    takes the params for, which can throw. *)
Record Casts : Type := mkCasts {
  as_message : JsValue -> string;
  read_signed : JsValue -> Result SignedMessage;
}.

(** [params.k] on [null] and [undefined] *)
Definition not_nullish (params : JsValue) : Result unit :=
  match params with
  | JUndefined => Throw (TypeError "Cannot read properties of undefined")
  | JNull => Throw (TypeError "Cannot read properties of null")
  | _ => Ok tt
  end.

(** [cim.invocations.forEach]: the property read throws on [null] and
    [undefined], and only an array has [forEach]. *)
Definition elements_of (params : JsValue) : Result (list JsValue) :=
  rbind (get_prop params "invocations") (fun invocations =>
    match invocations with
    | JArr cs => Ok cs
    | _ => Throw (TypeError "cim.invocations.forEach is not a function")
    end).

(** What one turn of the [forEach] reads of its element before anything is
    converted or emitted: [c.scriptHash], [c.operation], and [c.args],
    whose [map] [convertParams] calls and only an array has; and
    [c.abortOnFail], read for its truth after the call is emitted. *)
Definition invocation_of (c : JsValue) : Result ContractInvocation :=
  rbind (get_prop c "scriptHash") (fun scriptHash =>
  rbind (get_prop c "operation") (fun operation =>
  rbind (get_prop c "args") (fun args =>
    match args with
    | JArr l =>
        Ok {| ci_scriptHash := scriptHash; ci_operation := operation;
              ci_args := l; abortOnFail := truthy (prop c "abortOnFail") |}
    | _ => Throw (TypeError "args.map is not a function")
    end))).

(** The batch that a request carries, when every element can be read. *)
Definition batch_of (params : JsValue) : Result (list ContractInvocation) :=
  rbind (elements_of params) (mapR invocation_of).

(** A signer entry as [buildSigner] reads it:
    [signerEntry && signerEntry.scopes] is the entry itself when it is
    falsy, and the two lists are read of a truthy entry only. *)
Definition signer_of (e : JsValue) : Signer :=
  if truthy e
  then {| scopes := prop e "scopes";
          allowedContracts := prop e "allowedContracts";
          allowedGroups := prop e "allowedGroups" |}
  else {| scopes := e; allowedContracts := JUndefined;
          allowedGroups := JUndefined |}.

(** [cim.signers] as [buildMultipleSigner] takes it: [undefined] is the
    default [[]]; [signers.length] throws on [null]; a value with no
    [length] or a falsy one gives the one bare signer; any other is mapped,
    and only an array has [map]. *)
Definition signers_of (params : JsValue) : Result (option (list Signer)) :=
  rbind (get_prop params "signers") (fun signers =>
    match signers with
    | JUndefined => Ok None
    | JNull => Throw (TypeError "Cannot read properties of null")
    | JArr l => Ok (Some (map signer_of l))
    | JStr s =>
        if String.eqb s "" then Ok (Some [])
        else Throw (TypeError "signers.map is not a function")
    | JObj fs =>
        if truthy (lookup_field "length" fs)
        then Throw (TypeError "signers.map is not a function")
        else Ok (Some [])
    | JBool _ | JNum _ => Ok (Some [])
    end).

(** A [SignedMessage] as the object it is. *)
Definition of_signed (m : SignedMessage) : JsValue :=
  JObj [("publicKey", JStr (sm_publicKey m));
        ("data", JStr (sm_data m));
        ("salt", JStr (sm_salt m));
        ("messageHex", JStr (sm_messageHex m))].

(** What [rpcCall] does to the outside: what the invokes do, and its own
    two calls of the RPC client. *)
Inductive RpcEffect : Type :=
| FacadeEffect (e : Effect)
| Execute (i : Z) (method : string) (params : JsValue)
| GetApplicationLog (arg : JsValue).

Definition rpc_effect (ev : RpcEffect) : M (list RpcEffect) unit :=
  modify (fun t => t ++ [ev]).

(** An invoke inside [rpcCall]: its effects, appended. *)
Definition in_facade {A} (c : M (list Effect) A) : M (list RpcEffect) A :=
  fun t => let '(r, es) := c [] in (r, t ++ map FacadeEffect es).

(** [result.isTest = true], in the strict code of a class body: a
    TypeError on [undefined], [null] and on a primitive.  [JsValue] keeps
    no named property of an array, which is left as it is. *)
Definition set_isTest (result : JsValue) : Result JsValue :=
  match result with
  | JUndefined => Throw (TypeError "Cannot set properties of undefined")
  | JNull => Throw (TypeError "Cannot set properties of null")
  | JObj fs => Ok (JObj (Ctx.set_field "isTest" (JBool true) fs))
  | JArr l => Ok (JArr l)
  | _ => Throw (TypeError "Cannot create property 'isTest'")
  end.

(** [request.params[0]] *)
Definition params_0 (params : JsValue) : Result JsValue :=
  match params with
  | JUndefined => Throw (TypeError "Cannot read properties of undefined")
  | JNull => Throw (TypeError "Cannot read properties of null")
  | JArr l => Ok (match l with x :: _ => x | [] => JUndefined end)
  | JStr (String c _) => Ok (JStr (String c EmptyString))
  | JObj fs => Ok (lookup_field "0" fs)
  | _ => Ok JUndefined
  end.

Section RpcCall.

Variable lib : NeonLib.
Variable rlib : RpcLib.
Variable casts : Casts.
Variable rpcAddress : string.

Definition no_account : Exn :=
  TypeError "Cannot read properties of undefined (reading 'scriptHash')".

(** The [forEach] over the elements of [cim.invocations]: each turn reads
    its element, converts the arguments and emits the call, before the
    next element is looked at. *)
Fixpoint emit_elements (sb : list ScriptOp) (cs : list JsValue)
  : Result (list ScriptOp) :=
  match cs with
  | [] => Ok sb
  | c :: cs' =>
      rbind (invocation_of c) (fun ci =>
      rbind (emit_invocations lib sb [ci]) (fun sb =>
      emit_elements sb cs'))
  end.

(** [verifyArgs.messageHex], [verifyArgs.data], [verifyArgs.publicKey] *)
Definition signed_of (params : JsValue) : Result SignedMessage :=
  rbind (not_nullish params) (fun _ => read_signed casts params).

(** [multiInvoke] on the params of a request and an account that may be
    [undefined], in the order of the source: the network magic, the
    [forEach] that assembles the script, the block height, the script as a
    hex string, the reading of the signers, and [account.scriptHash], which
    throws without an account.  With an account and params that can be
    read, it is [multiInvoke] on the batch read. *)
Definition multiInvoke_any (account : option Account) (params : JsValue)
  (isHardwareLogin : bool) (signingFunction : option SigningFunction)
  (showInfoNotification : option (string -> JsValue))
  (hideNotification : bool) : M (list Effect) JsValue :=
  (liftR (getversion_network lib rpcAddress) ;;;
   cs <- liftR (elements_of params) ;;
   liftR (rbind (emit_elements [] cs) (fun sb =>
          rbind (getBlockCount lib rpcAddress) (fun _ =>
          HexString_fromHex lib (JStr (sb_build lib sb))))) ;;;
   sgs <- liftR (signers_of params) ;;
   match account with
   | None => throw no_account
   | Some a =>
       invs <- liftR (mapR invocation_of cs) ;;
       multiInvoke lib rpcAddress a {| signers := sgs; invocations := invs |}
         isHardwareLogin signingFunction showInfoNotification hideNotification
   end)%js.

(** [multiTestInvoke] on the params of a request and an account that may
    be [undefined] *)
Definition multiTestInvoke_any (account : option Account) (params : JsValue)
  : M (list Effect) JsValue :=
  (cs <- liftR (elements_of params) ;;
   liftR (rbind (emit_elements [] cs) (fun sb =>
          HexString_fromHex lib (JStr (sb_build lib sb)))) ;;;
   sgs <- liftR (signers_of params) ;;
   match account with
   | None => throw no_account
   | Some a =>
       invs <- liftR (mapR invocation_of cs) ;;
       multiTestInvoke lib rpcAddress a {| signers := sgs; invocations := invs |}
   end)%js.

Definition method_is (request : Ctx.JsonRpcRequest) (m : string) : bool :=
  String.eqb (Ctx.method request) m.

(** The object that [rpcCall] returns *)
Definition response (request : Ctx.JsonRpcRequest) (result : JsValue) : JsValue :=
  JObj [("id", JNum (Ctx.id request));
        ("jsonrpc", JStr "2.0");
        ("result", result);
        ("isMessage",
         JBool (method_is request "signMessage"
                || method_is request "verifyMessage"))].

Definition rpcCall (entropy : nat -> Byte.byte) (account : option Account)
  (request : Ctx.JsonRpcRequest) (isHardwareLogin : bool)
  (signingFunction : option SigningFunction)
  (showInfoNotification : option (string -> JsValue))
  (hideNotification : bool) : M (list RpcEffect) JsValue :=
  (result <-
     (if method_is request "multiInvoke" || method_is request "invokeFunction"
      then in_facade
             (multiInvoke_any account (Ctx.params request)
                isHardwareLogin signingFunction showInfoNotification
                hideNotification)
      else ret JUndefined) ;;
   result <-
     (if method_is request "multiTestInvoke" || method_is request "testInvoke"
      then
        r <- in_facade (multiTestInvoke_any account (Ctx.params request)) ;;
        liftR (set_isTest r)
      else ret result) ;;
   result <-
     (if method_is request "signMessage"
      then
        match account with
        | None => throw (Error "No account")
        | Some a =>
            ret (of_signed
                   (signMessage lib entropy a
                      (as_message casts (Ctx.params request))))
        end
      else ret result) ;;
   result <-
     (if method_is request "verifyMessage"
      then
        verifyArgs <- liftR (signed_of (Ctx.params request)) ;;
        ret (JBool (verifyMessage lib verifyArgs))
      else ret result) ;;
   result <-
     (if method_is request "getapplicationlog"
      then
        arg <- liftR (params_0 (Ctx.params request)) ;;
        rpc_effect (GetApplicationLog arg) ;;;
        liftR (getApplicationLog rlib rpcAddress arg)
      else if negb (truthy result)
      then
        rpc_effect (Execute (Ctx.id request) (Ctx.method request)
                      (Ctx.params request)) ;;;
        liftR (execute rlib rpcAddress (Ctx.id request) (Ctx.method request)
                 (Ctx.params request))
      else ret result) ;;
   ret (response request result))%js.

End RpcCall.

End Rpc.

(* ===================================================================== *)
(** * The context provider: pairing, sessions, listeners *)
(* ===================================================================== *)

Module Pairing.

Import Ctx.

(** The calls of the WalletConnect client (and of the key-value storage)
    that the functions below make.  [same_proposal] is [===] on two
    proposal objects.  The client keeps records of its own in the storage
    it is given; the storage cell of the state holds the entries of the
    approval cache. *)
Record PairLib : Type := mkPairLib {
  KeyValueStorage_new : gmap string JsValue;
  Client_init : string -> gmap string JsValue -> Result Client;
  wc_pair : Client -> string -> Result Client;
  wc_approve : Client -> Proposal -> list string -> JsValue
               -> Result (Client * Session);
  wc_reject : Client -> Proposal -> Result Client;
  wc_session_get : Client -> string -> Result JsValue;
  same_proposal : Proposal -> Proposal -> bool;
}.

Definition not_initialized : Exn := Error "Client is not initialized".

Section Functions.

Variable lib : WcLib.
Variable plib : PairLib.
Variable options : CtxOptions.

Definition init : M State unit :=
  (c <- gets wcClient ;;
   match c with
   | Some _ => ret tt
   | None =>
       let st := KeyValueStorage_new plib in
       modify (set_storage (Some st)) ;;;
       cl <- liftR (Client_init plib (relayServer options) st) ;;
       modify (set_wcClient (Some cl))
   end)%js.

(** [setOnRequestCallback(() => listener)], [setAutoAcceptCallback(...)] *)
Definition onRequestListener (listener : option OnRequestCallback)
  : M State unit :=
  modify (set_onRequestCallback listener).

Definition autoAcceptIntercept (listener : option AutoAcceptCallback)
  : M State unit :=
  modify (set_autoAcceptCallback listener).

(** The session.created and session.deleted handlers *)
Definition onSessionsChanged : M State unit :=
  (c <- gets wcClient ;;
   match c with
   | None => throw not_initialized
   | Some cl => modify (set_sessions (session_values cl))
   end)%js.

(** [typeof data === 'string' ? data : ''] *)
Definition uri_of (data : JsValue) : string :=
  match data with
  | JStr u => u
  | _ => ""
  end.

Definition onURI (data : JsValue) : M State unit :=
  let uri := uri_of data in
  if String.eqb uri "" then ret tt
  else
    (c <- gets wcClient ;;
     match c with
     | None => throw not_initialized
     | Some cl =>
         cl' <- liftR (wc_pair plib cl uri) ;;
         modify (set_wcClient (Some cl'))
     end)%js.

Definition getPeerOfRequest (requestEvent : RequestEvent) : M State JsValue :=
  (c <- gets wcClient ;;
   match c with
   | None => throw not_initialized
   | Some cl =>
       session <- liftR (wc_session_get plib cl (topic requestEvent)) ;;
       liftR (get_prop session "peer")
   end)%js.

(** The accounts whose chain a proposal asks for *)
Definition accounts_of_proposal (accs : list string) (proposal : Proposal)
  : list string :=
  List.filter
    (fun account =>
       includes (permissions_chains proposal) (snd (address_and_chain account)))
    accs.

Definition approveSession (proposal : Proposal) : M State unit :=
  (c <- gets wcClient ;;
   match c with
   | None => throw not_initialized
   | Some cl =>
       accs0 <- gets accounts ;;
       let accs := accounts_of_proposal accs0 proposal in
       approved <- liftR (wc_approve plib cl proposal accs (appMetadata options)) ;;
       let '(cl', session) := approved in
       modify (set_wcClient (Some cl')) ;;;
       modify (fun s =>
         set_sessionProposals
           (List.filter (fun i => negb (same_proposal plib i proposal))
              (sessionProposals s)) s) ;;;
       modify (set_sessions [session])
   end)%js.

Definition rejectSession (proposal : Proposal) : M State unit :=
  (c <- gets wcClient ;;
   match c with
   | None => throw not_initialized
   | Some cl =>
       cl' <- liftR (wc_reject plib cl proposal) ;;
       modify (set_wcClient (Some cl')) ;;;
       log (RejectProposal proposal) ;;;
       modify (fun s =>
         set_sessionProposals
           (List.filter (fun i => negb (same_proposal plib i proposal))
              (sessionProposals s)) s)
   end)%js.

Definition disconnect (tp : string) : M State unit :=
  (c <- gets wcClient ;;
   match c with
   | None => throw not_initialized
   | Some cl =>
       cl' <- liftR (wc_disconnect lib cl tp (USER_DISCONNECTED lib)) ;;
       modify (set_wcClient (Some cl')) ;;;
       log (Disconnect tp (USER_DISCONNECTED lib))
   end)%js.

End Functions.

End Pairing.

(* ===================================================================== *)
(** * Vocabulary of the further statements *)
(* ===================================================================== *)

Module More.

Import N3Helper Props.

(** What one invocation adds to the script, its arguments converted. *)
Definition invocation_ops (c : ContractInvocation) (args : list JsValue)
  : list ScriptOp :=
  EmitContractCall (ci_scriptHash c) (ci_operation c) args
  :: (if abortOnFail c then [Emit 57] else []).

(** What one invocation adds to the script: its converted arguments, when
    they convert and the builder takes the call. *)
Definition taken (lib : NeonLib) (c : ContractInvocation)
  : Result (list JsValue) :=
  rbind (convertParams (hash160 lib) (array lib) (ci_args c)) (fun args =>
  rbind (sb_emitContractCall lib (ci_scriptHash c) (ci_operation c) args)
    (fun _ => Ok args)).

Definition is_contract_call (op : ScriptOp) : bool :=
  match op with
  | EmitContractCall _ _ _ => true
  | Emit _ => false
  end.

(** The transactions handed to [sendRawTransaction], in order. *)
Definition sent (es : list Effect) : list (option Transaction) :=
  flat_map
    (fun e =>
       match e with
       | SendRawTransaction trx => [trx]
       | _ => []
       end) es.

Definition hex_string (s : string) : Prop :=
  Forall (fun c => is_hex_digit c = true) (list_ascii_of_string s).

(** A string without a colon *)
Definition no_colon (s : string) : bool :=
  forallb (fun c => negb (Ascii.eqb c ":"%char)) (list_ascii_of_string s).

(** The effects of [rpcCall] that reach the chain's node *)
Definition is_broadcast (e : Rpc.RpcEffect) : bool :=
  match e with
  | Rpc.FacadeEffect (SendRawTransaction _) => true
  | _ => false
  end.

Definition is_array (v : JsValue) : bool :=
  match v with
  | JArr _ => true
  | _ => false
  end.

Definition is_nullish (v : JsValue) : bool :=
  match v with
  | JUndefined | JNull => true
  | _ => false
  end.

(** The methods that [rpcCall] serves itself *)
Definition served_methods : list string :=
  ["multiInvoke"; "invokeFunction"; "multiTestInvoke"; "testInvoke";
   "signMessage"; "verifyMessage"; "getapplicationlog"].

(** The raw query of a request through the generic executor, and the
    response made of its result. *)
Definition raw_query (rlib : Rpc.RpcLib) (rpc : string)
  (request : Ctx.JsonRpcRequest) (t : list Rpc.RpcEffect)
  : Result JsValue * list Rpc.RpcEffect :=
  (rbind (Rpc.execute rlib rpc (Ctx.id request) (Ctx.method request)
            (Ctx.params request))
     (fun r => Ok (Rpc.response request r)),
   t ++ [Rpc.Execute (Ctx.id request) (Ctx.method request) (Ctx.params request)]).

(** The address and the chain id that the handler gives the auto-accept
    callback. *)
Definition policy_args (s : Ctx.State) : JsValue * JsValue :=
  match Ctx.accounts s with
  | [] => (JUndefined, JUndefined)
  | account0 :: _ =>
      (fst (Ctx.address_and_chain account0),
       JStr (snd (Ctx.address_and_chain account0)))
  end.

Definition enqueued (ev : Ctx.RequestEvent) (rs : list Ctx.RequestEvent)
  : list Ctx.RequestEvent :=
  List.filter
    (fun i => negb (Ctx.id (Ctx.request i) =? Ctx.id (Ctx.request ev))%Z) rs
  ++ [ev].

(** What [resetApp] leaves alone whether it completes or not: the cache
    cell, the chains, the callbacks, the cells that [makeRequest] reports
    in, and the entries of the browser storage whose key does not start
    with wc. *)
Definition config_kept (s s' : Ctx.State) : Prop :=
  Ctx.storage s' = Ctx.storage s
  /\ Ctx.chains s' = Ctx.chains s
  /\ Ctx.onRequestCallback s' = Ctx.onRequestCallback s
  /\ Ctx.autoAcceptCallback s' = Ctx.autoAcceptCallback s
  /\ Ctx.txHash s' = Ctx.txHash s
  /\ Ctx.messageVerification s' = Ctx.messageVerification s
  /\ Ctx.error s' = Ctx.error s
  /\ List.filter (fun kv => negb (is_wc (fst kv))) (Ctx.localStorage s')
     = List.filter (fun kv => negb (is_wc (fst kv))) (Ctx.localStorage s).

(** What a function that starts with the test of the client does when
    there is none. *)
Definition refused {A} (s : Ctx.State) : Result A * Ctx.State :=
  (Throw (Error "Client is not initialized"), s).

(** ** Samples *)

Definition sample_signers : list Signer :=
  [ {| scopes := JNum CustomContracts;
       allowedContracts := JArr [JStr "d2a4"];
       allowedGroups := JUndefined |};
    {| scopes := JNum Global; allowedContracts := JUndefined;
       allowedGroups := JUndefined |} ].

Definition sample_rpc : Rpc.RpcLib :=
  {| Rpc.getApplicationLog := fun _ tx => Ok (JObj [("txid", tx)]);
     Rpc.execute := fun _ i m p => Ok (JObj [("raw", JStr m)]) |}.

(** A library that takes strings and nothing else. *)
Definition sample_string (v : JsValue) : Result string :=
  match v with
  | JStr s => Ok s
  | _ => Throw (TypeError "Expected a string")
  end.

Definition sample_casts : Rpc.Casts :=
  {| Rpc.as_message := fun v =>
       match v with
       | JStr s => s
       | JNull => "null"
       | JUndefined => "undefined"
       | JBool true => "true"
       | JBool false => "false"
       | _ => "[object Object]"
       end;
     Rpc.read_signed := fun params =>
       rbind (sample_string (prop params "messageHex")) (fun m =>
       rbind (sample_string (prop params "data")) (fun d =>
       rbind (sample_string (prop params "publicKey")) (fun k =>
       Ok {| sm_publicKey := k; sm_data := d; sm_salt := "";
             sm_messageHex := m |}))) |}.

(** The params of an invoke of one contract call, and of a verification. *)
Definition sample_params : JsValue :=
  JObj [("invocations",
         JArr [JObj [("scriptHash", JStr "d2a4");
                     ("operation", JStr "transfer");
                     ("args", JArr sample_args);
                     ("abortOnFail", JBool true)]])].

Definition sample_signed_params (data : string) : JsValue :=
  JObj [("publicKey", JStr "02aa"); ("data", JStr data);
        ("salt", JStr "00"); ("messageHex", JStr "010001f0")].

(** A library whose verification accepts the signature [good] alone. *)
Definition sample_neon_verifying : NeonLib :=
  {| hash160 := sample_hash160;
     array := sample_array;
     signer_default_scopes := JNum CalledByEntry;
     HexString_fromHex := sample_fromHex;
     wallet_sign := fun m k => "good";
     wallet_verify := fun m d k => String.eqb d "good";
     getVerificationScriptFromPublicKey := fun k => "0c21" +:+ k;
     getversion_network := fun _ => Ok 860833102%Z;
     getBlockCount := fun _ => Ok 1000%Z;
     sb_emitContractCall := fun _ _ _ => Ok tt;
     sb_build := fun ops => "c1";
     new_Transaction := sample_new_Transaction;
     new_Witness := fun v i =>
       Ok {| verificationScript := v; invocationScript := i |};
     addFees := fun t _ _ _ => Ok t;
     NetworkFacade_fromConfig := fun _ => Ok tt;
     facade_sign := fun t _ => Ok t;
     trx_sign := fun t _ _ => Ok t;
     sendRawTransaction := sample_transaction;
     invokeScript := fun _ _ _ => Ok (JObj [("state", JStr "HALT")]) |}.

(** A request with id 4 for a method *)
Definition sample_method_request (m : string) (params : JsValue)
  : Ctx.JsonRpcRequest :=
  {| Ctx.id := 4; Ctx.jsonrpc := "2.0"; Ctx.method := m; Ctx.params := params |}.

Definition sample_pair : Pairing.PairLib :=
  {| Pairing.KeyValueStorage_new := ∅;
     Pairing.Client_init := fun _ _ =>
       Ok {| Ctx.session_values := []; Ctx.history_pending := [] |};
     Pairing.wc_pair := fun c _ => Ok c;
     Pairing.wc_approve := fun c p accs _ =>
       let session := {| Ctx.session_topic := Ctx.proposal_topic p |} in
       Ok ({| Ctx.session_values := Ctx.session_values c ++ [session];
              Ctx.history_pending := Ctx.history_pending c |}, session);
     Pairing.wc_reject := fun c _ => Ok c;
     Pairing.wc_session_get := fun c tp =>
       if existsb (fun x => String.eqb (Ctx.session_topic x) tp)
            (Ctx.session_values c)
       then Ok (JObj [("peer", JObj [("name", JStr "dapp")])])
       else Throw (Error "No matching session");
     Pairing.same_proposal := fun p q =>
       String.eqb (Ctx.proposal_topic p) (Ctx.proposal_topic q) |}.

Definition sample_proposal : Ctx.Proposal :=
  {| Ctx.proposal_topic := "p1";
     Ctx.permissions_chains := ["neo3:testnet"];
     Ctx.permissions_methods := ["invokeFunction"] |}.

(** The connected provider before any listener was registered. *)
Definition sample_state_unheard : Ctx.State :=
  Ctx.set_captured_onRequestCallback None
    (Ctx.set_onRequestCallback None sample_state).

(** A second request event, with another id. *)
Definition sample_event_8 : Ctx.RequestEvent :=
  {| Ctx.topic := "t1";
     Ctx.request :=
       {| Ctx.id := 8; Ctx.jsonrpc := "2.0"; Ctx.method := "testInvoke";
          Ctx.params := JArr [] |} |}.

End More.

(* ===================================================================== *)
(** * Properties *)
(* ===================================================================== *)

Import N3Helper Props.

(** ** Lists and results *)


Lemma mapR_length {A B} (f : A -> Result B) xs ys :
  mapR f xs = Ok ys -> length ys = length xs.
Proof.
  revert ys. induction xs as [|x xs IH]; intros ys H; simpl in H.
  - injection H as <-. reflexivity.
  - destruct (f x); [|discriminate].
    destruct (mapR f xs) as [zs|]; [|discriminate].
    injection H as <-. simpl. f_equal. apply IH. reflexivity.
Qed.

Lemma mapR_lookup {A B} (f : A -> Result B) xs ys i x :
  mapR f xs = Ok ys -> xs !! i = Some x ->
  exists y, ys !! i = Some y /\ f x = Ok y.
Proof.
  revert ys i. induction xs as [|x0 xs IH]; intros ys i H Hi; simpl in H.
  - discriminate.
  - destruct (f x0) as [y0|] eqn:E0; [|discriminate].
    destruct (mapR f xs) as [zs|] eqn:E; [|discriminate].
    injection H as <-.
    destruct i as [|i]; simpl in *.
    + injection Hi as <-. exists y0. split; [reflexivity | exact E0].
    + eapply IH; [reflexivity | exact Hi].
Qed.

Lemma mapR_total {A B} (f : A -> Result B) xs :
  Forall (fun x => exists y, f x = Ok y) xs -> exists ys, mapR f xs = Ok ys.
Proof.
  induction 1 as [|x xs [y Hy] _ [ys Hys]]; simpl.
  - eexists; reflexivity.
  - rewrite Hy, Hys. eexists; reflexivity.
Qed.

(** ** convertParams *)

Section ConvertParamsFacts.

Variable hash160 : JsValue -> Result JsValue.
Variable array : list JsValue -> Result JsValue.



Lemma well_formed_all (items : list JsValue) :
  (fix all (l : list JsValue) : bool :=
     match l with
     | [] => true
     | x :: l' => well_formed x && all l'
     end) items = forallb well_formed items.
Proof. induction items as [|x l IH]; simpl; [reflexivity | now rewrite IH]. Qed.








End ConvertParamsFacts.






(** ** buildSigner, buildMultipleSigner *)

Lemma buildSigner_bare (lib : NeonLib) (account : Account) :
  buildSigner lib account None = Ok (bare_signer account).
Proof. reflexivity. Qed.

(** C2, as the specification has it, fails: the signer built for a request
    without signers has no scope at all, also with a library whose signers
    start as CalledByEntry, because [buildSigner] overwrites the scope by
    [signerEntry && signerEntry.scopes], which is [undefined] there. *)
Lemma default_signer_scope_is_undefined :
  buildMultipleSigner (sample_neon false) sample_account None
    = Ok [ {| ts_account := "c0ffee"; ts_scopes := JUndefined;
              ts_allowedContracts := []; ts_allowedGroups := [] |} ]
  /\ ~ (exists s,
          buildMultipleSigner (sample_neon false) sample_account None = Ok [s]
          /\ ts_scopes s = JNum CalledByEntry).
Proof.
  split; [reflexivity|].
  intros [s [Hs Hscope]]. injection Hs as <-. discriminate Hscope.
Qed.

(** C2 (amended): for an absent or empty signer list the signer set is
    exactly one signer, for the invoking account's script hash, whose scope
    field is [undefined] and whose allow-lists are the empty ones; this is
    the set that a test-invoke hands to the script invocation and that an
    invoke hands to the constructor of the transaction it prepares.  What
    the constructor makes of a signer without a scope is the library's
    matter; the code here gives none. *)
Theorem buildMultipleSigner_default (lib : NeonLib) (account : Account) :
  buildMultipleSigner lib account None = Ok [bare_signer account]
  /\ buildMultipleSigner lib account (Some []) = Ok [bare_signer account]
  /\ ts_account (bare_signer account) = scriptHash account
  /\ ts_scopes (bare_signer account) = JUndefined
  /\ (forall rpc cim sb hex t,
        signers cim = None \/ signers cim = Some [] ->
        emit_invocations lib [] (invocations cim) = Ok sb ->
        HexString_fromHex lib (JStr (sb_build lib sb)) = Ok hex ->
        multiTestInvoke lib rpc account cim t
        = (invokeScript lib rpc hex [bare_signer account],
           t ++ [InvokeScript hex [bare_signer account]]))
  /\ (forall rpc cim magic trx,
        signers cim = None \/ signers cim = Some [] ->
        prepareTransaction lib rpc account cim = Ok (magic, trx) ->
        exists hex height made witness,
          new_Transaction lib hex (height + 100) [bare_signer account] = Ok made
          /\ addFees lib (set_witnesses [witness] made) rpc magic account
             = Ok trx).
Proof.
  repeat split.
  - intros rpc cim sb hex t Hs Hsb Hhex.
    unfold multiTestInvoke, bind, liftR, effect, modify.
    rewrite Hsb, Hhex.
    destruct Hs as [-> | ->]; reflexivity.
  - intros rpc cim magic trx Hs.
    unfold prepareTransaction, rbind.
    destruct (getversion_network lib rpc) as [m|]; [|discriminate].
    destruct (emit_invocations lib [] (invocations cim)) as [sb|]; [|discriminate].
    destruct (getBlockCount lib rpc) as [h|]; [|discriminate].
    destruct (HexString_fromHex lib (JStr (sb_build lib sb))) as [hex|];
      [|discriminate].
    assert (Hb : buildMultipleSigner lib account (signers cim)
                 = Ok [bare_signer account])
      by (destruct Hs as [-> | ->]; reflexivity).
    rewrite Hb.
    destruct (new_Transaction lib hex (h + 100) [bare_signer account])
      as [made|] eqn:Emade; [|discriminate].
    destruct (new_Witness lib _ _) as [witness|]; [|discriminate].
    destruct (addFees lib (set_witnesses [witness] made) rpc m account)
      as [t'|] eqn:E; [|discriminate].
    intros [= <- <-]. exists hex, h, made, witness.
    split; [exact Emade | exact E].
Qed.

Lemma buildMultipleSigner_default_witness :
  multiTestInvoke (sample_neon false) "http://seed1t4.neo.org:20332"
    sample_account sample_cim []
  = (Ok (JObj [("state", JStr "HALT")]),
     [InvokeScript "c1" [bare_signer sample_account]]).
Proof.
  destruct (buildMultipleSigner_default (sample_neon false) sample_account)
    as (_ & _ & _ & _ & Htest & _).
  exact (Htest "http://seed1t4.neo.org:20332" sample_cim _ "c1" []
           (or_introl eq_refl) eq_refl eq_refl).
Defined.

(** ** signMessage *)

Lemma string_length_app (a b : string) :
  String.length (a +:+ b) = String.length a + String.length b.
Proof. induction a as [|c a IH]; simpl; [reflexivity | now rewrite IH]. Qed.

Lemma byte_hex_length (n : N) : String.length (byte_hex n) = 2.
Proof. reflexivity. Qed.

Lemma toString_hex_length (bs : list Byte.byte) :
  String.length (toString_hex bs) = 2 * length bs.
Proof.
  induction bs as [|b bs IH]; [reflexivity|].
  cbn [toString_hex]. rewrite string_length_app, IH, byte_hex_length.
  simpl length. lia.
Qed.

Lemma str2hexstring_length (s : string) :
  String.length (str2hexstring s) = 2 * String.length s.
Proof.
  induction s as [|c s IH]; [reflexivity|].
  cbn [str2hexstring]. rewrite string_length_app, IH, byte_hex_length.
  simpl String.length. lia.
Qed.

Lemma randomBytes_length (entropy : nat -> Byte.byte) (n : nat) :
  length (randomBytes entropy n) = n.
Proof. unfold randomBytes. now rewrite length_map, length_seq. Qed.

Lemma hex_digit_is_hex (n : N) : is_hex_digit (hex_digit n) = true.
Proof.
  destruct n as [|p]; [reflexivity|].
  destruct p as [p|p|]; try reflexivity;
    destruct p as [p|p|]; try reflexivity;
    destruct p as [p|p|]; try reflexivity;
    destruct p as [p|p|]; reflexivity.
Qed.

Lemma toString_hex_digits (bs : list Byte.byte) :
  Forall (fun c => is_hex_digit c = true)
    (list_ascii_of_string (toString_hex bs)).
Proof.
  induction bs as [|b bs IH]; simpl; [constructor|].
  repeat constructor; try apply hex_digit_is_hex. exact IH.
Qed.

(** C6: the record that [signMessage] returns has a salt of 32 hexadecimal
    digits (16 random bytes), the account's public key, and a message hex
    made of 010001f0, the varint of the byte length of the hex-encoded
    salt-and-message (32 plus the length of the message), that hex
    encoding, and 0000. *)
Theorem signMessage_envelope (lib : NeonLib) (entropy : nat -> Byte.byte)
  (account : Account) (message : string) :
  let r := signMessage lib entropy account message in
  let payload := str2hexstring (sm_salt r +:+ message) in
  sm_salt r = toString_hex (randomBytes entropy 16)
  /\ String.length (sm_salt r) = 32
  /\ Forall (fun c => is_hex_digit c = true) (list_ascii_of_string (sm_salt r))
  /\ sm_publicKey r = publicKey account
  /\ sm_messageHex r
     = "010001f0" +:+ num2VarInt (N.of_nat (String.length payload) / 2)
         +:+ payload +:+ "0000"
  /\ (N.of_nat (String.length payload) / 2)%N
     = N.of_nat (32 + String.length message)
  /\ sm_data r = wallet_sign lib (sm_messageHex r) (privateKey account).
Proof.
  cbv zeta. unfold signMessage. cbn [sm_salt sm_publicKey sm_messageHex sm_data].
  split; [reflexivity|].
  split; [now rewrite toString_hex_length, randomBytes_length|].
  split; [apply toString_hex_digits|].
  repeat split.
  rewrite str2hexstring_length, string_length_app, toString_hex_length,
    randomBytes_length.
    replace (N.of_nat (2 * (2 * 16 + String.length message)))
      with (N.of_nat (32 + String.length message) * 2)%N by lia.
    apply N.div_mul. discriminate.
Qed.

(** [verifyMessage] is the library's verification of the three fields. *)
Remark verifyMessage_signMessage (lib : NeonLib) (entropy : nat -> Byte.byte)
  (account : Account) (message : string) :
  let r := signMessage lib entropy account message in
  verifyMessage lib r
  = wallet_verify lib (sm_messageHex r)
      (wallet_sign lib (sm_messageHex r) (privateKey account))
      (publicKey account).
Proof. reflexivity. Qed.

Example str2hexstring_hello : str2hexstring "hello" = "68656c6c6f".
Proof. reflexivity. Qed.

Example num2VarInt_values :
  num2VarInt 37 = "25" /\ num2VarInt 252 = "fc"
  /\ num2VarInt 253 = "fdfd00" /\ num2VarInt 65536 = "fe00000100".
Proof. repeat split. Qed.

Example signMessage_hello :
  let r := signMessage (sample_neon false) (fun _ => Byte.x0a)
             sample_account "hello" in
  sm_salt r = "0a0a0a0a0a0a0a0a0a0a0a0a0a0a0a0a"
  /\ sm_messageHex r
     = "010001f025"
       +:+ "3061306130613061306130613061306130613061306130613061306130613061"
       +:+ "68656c6c6f" +:+ "0000".
Proof. split; reflexivity. Qed.

Example convertParams_sample :
  convertParams sample_hash160 sample_array sample_args
  = Ok [ JObj [("type", JStr "Hash160");
               ("value", JStr "NX8GreRFGFK5wpGMWetpX93HmtrezGogzk")];
         JNum 5;
         JObj [("type", JStr "Array");
               ("value",
                JArr [ JObj [("type", JStr "Hash160"); ("value", JStr "c0ffee")];
                       JObj [("type", JStr "Array");
                             ("value", JArr [JNum 1; JNum 2])] ])] ].
Proof. reflexivity. Qed.

(** ** multiInvoke *)

(** C9: in a hardware-backed invoke that has reached the signing step, a
    failure of the facade's signing is logged with [console.error] and
    nothing is thrown there; the call goes on to [sendRawTransaction],
    with the [undefined] that the failed signing left as the transaction,
    and ends as that submission ends. *)
Theorem multiInvoke_hardware_sign_failure (lib : NeonLib) (rpc : string)
  (account : Account) (cim : ContractInvocationMulti)
  (signingFunction : option SigningFunction)
  (showInfoNotification : option (string -> JsValue))
  (hideNotification : bool) (t : list Effect)
  (magic : Z) (trx : Transaction) (e : Exn) :
  prepareTransaction lib rpc account cim = Ok (magic, trx) ->
  NetworkFacade_fromConfig lib rpc = Ok tt ->
  facade_sign lib trx signingFunction = Throw e ->
  multiInvoke lib rpc account cim true signingFunction showInfoNotification
    hideNotification t
  = (sendRawTransaction lib rpc None,
     t ++ shown showInfoNotification ++ [ConsoleError e]
       ++ hidden showInfoNotification hideNotification
       ++ [SendRawTransaction None]).
Proof.
  intros Hprep Hfacade Hsign.
  unfold multiInvoke, sign_with_hardware, bind, liftR, effect, modify, ret.
  rewrite Hprep, Hfacade, Hsign.
  unfold shown, hidden.
  destruct showInfoNotification as [show|]; simpl.
  - destruct (hideNotification && truthy _); simpl;
      repeat rewrite <- app_assoc; reflexivity.
  - rewrite andb_false_r. repeat rewrite <- app_assoc. reflexivity.
Qed.

Lemma multiInvoke_hardware_sign_failure_witness :
  multiInvoke (sample_neon true) "http://seed1t4.neo.org:20332" sample_account
    sample_cim true None (Some (fun _ => JNum 3)) true []
  = (Throw (Error "Cannot serialize undefined"),
     [ShowInfoNotification "Please sign the transaction on your hardware device";
      ConsoleError (Rejected (JStr "Ledger: user rejected"));
      HideNotification (JNum 3);
      SendRawTransaction None]).
Proof.
  destruct (prepareTransaction (sample_neon true) "http://seed1t4.neo.org:20332"
              sample_account sample_cim) as [[magic trx]|] eqn:Hprep;
    [|discriminate Hprep].
  exact (multiInvoke_hardware_sign_failure (sample_neon true)
           "http://seed1t4.neo.org:20332" sample_account sample_cim None
           (Some (fun _ => JNum 3)) true [] magic trx
           (Rejected (JStr "Ledger: user rejected")) Hprep eq_refl eq_refl).
Defined.

(** For comparison, a failure of the local signing is not caught: nothing
    is submitted. *)
Lemma multiInvoke_local_sign_failure (lib : NeonLib) (rpc : string)
  (account : Account) (cim : ContractInvocationMulti) (t : list Effect)
  (magic : Z) (trx : Transaction) (e : Exn) :
  prepareTransaction lib rpc account cim = Ok (magic, trx) ->
  trx_sign lib trx account magic = Throw e ->
  multiInvoke lib rpc account cim false None None false t = (Throw e, t).
Proof.
  intros Hprep Hsign.
  unfold multiInvoke, bind, liftR. rewrite Hprep, Hsign. reflexivity.
Qed.

(* ===================================================================== *)
(** * The pending collection *)
(* ===================================================================== *)

Lemma pending_with_app (i : Z) (l1 l2 : list Ctx.RequestEvent) :
  Ctx.pending_with i (l1 ++ l2) = Ctx.pending_with i l1 + Ctx.pending_with i l2.
Proof. unfold Ctx.pending_with. now rewrite List.filter_app, length_app. Qed.

(** Removing the entries of one id leaves none of that id and all of the
    other ids. *)
Lemma pending_with_remove (i j : Z) (l : list Ctx.RequestEvent) :
  Ctx.pending_with i
    (List.filter (fun x => negb (Ctx.id (Ctx.request x) =? j)%Z) l)
  = if (i =? j)%Z then 0 else Ctx.pending_with i l.
Proof.
  unfold Ctx.pending_with.
  induction l as [|x l IH]; simpl.
  - destruct (i =? j)%Z; reflexivity.
  - destruct (Z.eqb_spec (Ctx.id (Ctx.request x)) j) as [Hj|Hj]; simpl.
    + destruct (Z.eqb_spec i j) as [Hij|Hij]; [exact IH|].
      destruct (Z.eqb_spec (Ctx.id (Ctx.request x)) i) as [Hi|Hi]; [congruence|].
      exact IH.
    + destruct (Z.eqb_spec (Ctx.id (Ctx.request x)) i) as [Hi|Hi]; simpl.
      * destruct (Z.eqb_spec i j) as [Hij|Hij]; [congruence|].
        now rewrite IH.
      * exact IH.
Qed.

Lemma run_op_invariant (s : Ctx.State) (op : QueueOp) :
  (forall i, Ctx.pending_with i (Ctx.requests s) <= 1) ->
  forall i, Ctx.pending_with i (Ctx.requests (run_op s op)) <= 1.
Proof.
  intros Hs i. destruct op as [ev|ev]; simpl.
  - rewrite pending_with_app, pending_with_remove.
    unfold Ctx.pending_with at 2. simpl.
    destruct (Z.eqb_spec i (Ctx.id (Ctx.request ev))) as [->|Hne].
    + rewrite Z.eqb_refl. simpl. lia.
    + destruct (Z.eqb_spec (Ctx.id (Ctx.request ev)) i) as [Heq|_];
        [congruence|]. simpl. specialize (Hs i). lia.
  - rewrite pending_with_remove.
    destruct (i =? Ctx.id (Ctx.request ev))%Z; [lia | apply Hs].
Qed.

(** C10: [askApproval] drops the queued entries that carry the id of the
    new request event and appends the event, so that afterwards the id of
    the event is carried by exactly one entry and every other id by as
    many entries as before; in a pending collection that started empty and
    went through any sequence of enqueues and removals, no id is carried by
    more than one entry. *)
Theorem askApproval_one_entry_per_id (ev : Ctx.RequestEvent) (s : Ctx.State) :
  let j := Ctx.id (Ctx.request ev) in
  let s' := snd (Ctx.askApproval ev s) in
  fst (Ctx.askApproval ev s) = Ok tt
  /\ Ctx.requests s'
     = List.filter (fun x => negb (Ctx.id (Ctx.request x) =? j)%Z)
         (Ctx.requests s) ++ [ev]
  /\ (forall i,
        Ctx.pending_with i (Ctx.requests s')
        = if (i =? j)%Z then 1 else Ctx.pending_with i (Ctx.requests s))
  /\ (forall options ops i,
        Ctx.pending_with i
          (Ctx.requests
             (fold_left run_op (ops ++ [Enqueue ev]) (Ctx.initial_state options)))
        <= 1).
Proof.
  cbv zeta. split; [reflexivity|]. split; [reflexivity|]. split.
  - intros i. simpl.
    rewrite pending_with_app, pending_with_remove.
    unfold Ctx.pending_with at 1 2. simpl.
    destruct (Z.eqb_spec i (Ctx.id (Ctx.request ev))) as [->|Hne].
    + rewrite Z.eqb_refl. reflexivity.
    + destruct (Z.eqb_spec (Ctx.id (Ctx.request ev)) i) as [Heq|_];
        [congruence|]. simpl. unfold Ctx.pending_with. lia.
  - intros options ops.
    assert (Hinv : forall ops s0,
              (forall i, Ctx.pending_with i (Ctx.requests s0) <= 1) ->
              forall i, Ctx.pending_with i
                          (Ctx.requests (fold_left run_op ops s0)) <= 1).
    { clear. induction ops as [|op ops IH]; intros s0 H0; simpl; [exact H0|].
      apply IH. apply run_op_invariant. exact H0. }
    apply Hinv. intros i. simpl. unfold Ctx.pending_with. simpl. lia.
Qed.

(* ===================================================================== *)
(** * Session proposals *)
(* ===================================================================== *)

Example address_and_chain_sample :
  Ctx.address_and_chain "neo3:testnet:NX8Gre" = (JStr "NX8Gre", "neo3:testnet")
  /\ Ctx.address_and_chain "neo3" = (JUndefined, "neo3:undefined").
Proof. split; reflexivity. Qed.

Lemma filter_nil_existsb {A} (f : A -> bool) (l : list A) :
  (length (List.filter f l) =? 0)%nat = negb (existsb f l).
Proof.
  induction l as [|x l IH]; simpl; [reflexivity|].
  destruct (f x); simpl; [reflexivity | exact IH].
Qed.

(** C4: on a session proposal the handler does exactly one of two things:
    it rejects, adding nothing to the pending proposals, when a requested
    chain is not among the configured chains or a requested method is not
    among the configured methods, and otherwise it appends the proposal to
    the pending proposals and rejects nothing. *)
Theorem onSessionProposal_accept_or_decline (options : Ctx.CtxOptions)
  (p : Ctx.Proposal) (s : Ctx.State) (c : Ctx.Client) :
  Ctx.wcClient s = Some c ->
  Ctx.onSessionProposal options p s
  = if asks_unsupported options s p
    then (Ok Ctx.RejectPromise,
          Ctx.set_trace (Ctx.trace s ++ [Ctx.RejectProposal p]) s)
    else (Ok Ctx.ReturnNull,
          Ctx.set_sessionProposals (Ctx.sessionProposals s ++ [p]) s).
Proof.
  intros Hc.
  unfold Ctx.onSessionProposal, asks_unsupported, bind, gets, Ctx.log, modify, ret.
  rewrite Hc. rewrite !filter_nil_existsb, !negb_involutive.
  destruct (existsb _ (Ctx.permissions_chains p)); [reflexivity|].
  destruct (existsb _ (Ctx.permissions_methods p)); reflexivity.
Qed.

Lemma onSessionProposal_accept_or_decline_witness :
  Ctx.onSessionProposal sample_options
    {| Ctx.proposal_topic := "p1";
       Ctx.permissions_chains := ["neo3:testnet"];
       Ctx.permissions_methods := ["invokeFunction"] |} sample_state
  = (Ok Ctx.ReturnNull,
     Ctx.set_sessionProposals
       [ {| Ctx.proposal_topic := "p1";
            Ctx.permissions_chains := ["neo3:testnet"];
            Ctx.permissions_methods := ["invokeFunction"] |} ] sample_state)
  /\ fst (Ctx.onSessionProposal sample_options
            {| Ctx.proposal_topic := "p2";
               Ctx.permissions_chains := ["neo3:testnet"; "eip155:1"];
               Ctx.permissions_methods := ["invokeFunction"] |} sample_state)
     = Ok Ctx.RejectPromise.
Proof.
  split.
  - exact (onSessionProposal_accept_or_decline sample_options _ sample_state _
             eq_refl).
  - rewrite (onSessionProposal_accept_or_decline sample_options _ sample_state _
               eq_refl).
    reflexivity.
Defined.

(* ===================================================================== *)
(** * Frames: what a computation leaves alone *)
(* ===================================================================== *)

Lemma preserves_ret {A} R (HR : PreOrder R) (a : A) : preserves R (ret a).
Proof. intros s r s' [= <- <-]. reflexivity. Qed.

Lemma preserves_throw {A} R (HR : PreOrder R) (e : Exn) :
  preserves R (@throw Ctx.State A e).
Proof. intros s r s' [= <- <-]. reflexivity. Qed.

Lemma preserves_gets {A} R (HR : PreOrder R) (f : Ctx.State -> A) :
  preserves R (gets f).
Proof. intros s r s' [= <- <-]. reflexivity. Qed.

Lemma preserves_liftR {A} R (HR : PreOrder R) (x : Result A) :
  preserves R (@liftR Ctx.State A x).
Proof. intros s r s' [= <- <-]. reflexivity. Qed.

Lemma preserves_modify R (f : Ctx.State -> Ctx.State) :
  (forall s, R s (f s)) -> preserves R (modify f).
Proof. intros Hf s r s' [= <- <-]. apply Hf. Qed.

Lemma preserves_bind {A B} R (HR : PreOrder R) (c : M Ctx.State A)
  (k : A -> M Ctx.State B) :
  preserves R c -> (forall a, preserves R (k a)) -> preserves R (bind c k).
Proof.
  intros Hc Hk s r s'. unfold bind.
  destruct (c s) as [[a|e] s1] eqn:E; intros H.
  - transitivity s1; [eapply Hc; exact E | eapply Hk; exact H].
  - injection H as <- <-. eapply Hc; exact E.
Qed.

Lemma preserves_try_catch {A} R (HR : PreOrder R) (c : M Ctx.State A)
  (h : Exn -> M Ctx.State A) :
  preserves R c -> (forall e, preserves R (h e)) -> preserves R (try_catch c h).
Proof.
  intros Hc Hh s r s'. unfold try_catch.
  destruct (c s) as [[a|e] s1] eqn:E; intros H.
  - injection H as <- <-. eapply Hc; exact E.
  - transitivity s1; [eapply Hc; exact E | eapply Hh; exact H].
Qed.

#[local] Instance silent_preorder : PreOrder silent.
Proof.
  split.
  - intros s. repeat split.
  - intros s1 s2 s3 H12 H23. unfold silent in *.
    destruct H12 as (?&?&?&?&?&?&?&?), H23 as (?&?&?&?&?&?&?&?).
    repeat split; congruence.
Qed.

#[local] Instance quiet_preorder : PreOrder quiet.
Proof.
  split.
  - intros s. repeat split.
  - intros s1 s2 s3 H12 H23. unfold quiet in *.
    destruct H12 as (?&?&?&?&?&?&?), H23 as (?&?&?&?&?&?&?).
    repeat split; congruence.
Qed.

#[local] Instance appends_preorder : PreOrder appends.
Proof.
  split.
  - intros s. exists []. split; [now rewrite app_nil_r | reflexivity].
  - intros s1 s2 s3 [e1 [H1 P1]] [e2 [H2 P2]]. exists (e1 ++ e2). split.
    + rewrite H2, H1. now rewrite <- app_assoc.
    + rewrite forallb_app, P1, P2. reflexivity.
Qed.


Lemma responses_snoc (t : list Ctx.Event) (ev : Ctx.Event) :
  responses (t ++ [ev])
  = responses t ++ match ev with Ctx.Respond tp r => [(tp, r)] | _ => [] end.
Proof.
  unfold responses. rewrite flat_map_app. simpl. now rewrite app_nil_r.
Qed.

Lemma auto_accept_calls_snoc (t : list Ctx.Event) (ev : Ctx.Event) :
  auto_accept_calls (t ++ [ev])
  = auto_accept_calls t ++ (if Ctx.is_AutoAccept ev then [ev] else []).
Proof. unfold auto_accept_calls. now rewrite List.filter_app. Qed.

(** Running the monad's plumbing in a hypothesis or in the goal. *)
Ltac run_in H :=
  unfold bind, gets, modify, ret, throw, liftR, try_catch, Ctx.log in H;
  simpl in H.

Ltac run :=
  unfold bind, gets, modify, ret, throw, liftR, try_catch, Ctx.log; simpl.

(** Case analysis on every test that a run in [H] goes through. *)
Ltac crunch H :=
  repeat match type of H with
         | context [match ?x with _ => _ end] =>
             lazymatch x with
             | context [match _ with _ => _ end] => fail
             | _ => destruct x eqn:?; simpl in H
             end
         end.

Ltac frame_done :=
  unfold silent, quiet; simpl;
  rewrite ?responses_snoc, ?auto_accept_calls_snoc; simpl;
  rewrite ?app_nil_r; repeat split; reflexivity.

Lemma makeRequest_silent (arg : Ctx.RequestArg) :
  preserves silent (Ctx.makeRequest arg).
Proof.
  intros s r s' H. unfold Ctx.makeRequest in H. run_in H.
  crunch H; injection H as <- <-; frame_done.
Qed.

(* ===================================================================== *)
(** * Manual approval and rejection *)
(* ===================================================================== *)

Section Manual.

Variable lib : Ctx.WcLib.

(** [approveAndMakeRequest] writes the cache entry and otherwise leaves
    alone what [makeRequest] leaves alone. *)
Lemma approveAndMakeRequest_frame (ev : Ctx.RequestEvent) (s s1 : Ctx.State)
  (r : Result JsValue) :
  Ctx.approveAndMakeRequest lib ev s = (r, s1) ->
  Ctx.wcClient s1 = Ctx.wcClient s
  /\ Ctx.requests s1 = Ctx.requests s
  /\ responses (Ctx.trace s1) = responses (Ctx.trace s)
  /\ auto_accept_calls (Ctx.trace s1) = auto_accept_calls (Ctx.trace s)
  /\ Ctx.storage s1
     = match Ctx.storage s with
       | Some m => Some (<[Ctx.cache_key lib (Ctx.request ev) := JBool true]> m)
       | None => None
       end.
Proof.
  unfold Ctx.approveAndMakeRequest. intros H. run_in H.
  destruct (Ctx.storage s) as [m|] eqn:Hst.
  - apply makeRequest_silent in H.
    destruct H as (Hc & Hs & Hr & _ & _ & _ & Hresp & Hauto).
    simpl in *. rewrite Hc, Hs, Hr, Hresp, Hauto. repeat split.
  - injection H as <- <-. rewrite Hst. repeat split.
Qed.

Lemma client_respond_ok (tp : string) (r : JsValue) (s : Ctx.State)
  (c c' : Ctx.Client) :
  Ctx.wcClient s = Some c -> Ctx.wc_respond lib c tp r = Ok c' ->
  Ctx.client_respond lib tp r s
  = (Ok tt, Ctx.set_trace (Ctx.trace s ++ [Ctx.Respond tp r])
              (Ctx.set_wcClient (Some c') s)).
Proof. intros Hc Hr. unfold Ctx.client_respond. now rewrite Hc, Hr. Qed.

Lemma client_respond_throw (tp : string) (r : JsValue) (s : Ctx.State)
  (c : Ctx.Client) (e : Exn) :
  Ctx.wcClient s = Some c -> Ctx.wc_respond lib c tp r = Throw e ->
  Ctx.client_respond lib tp r s = (Throw e, s).
Proof. intros Hc Hr. unfold Ctx.client_respond. now rewrite Hc, Hr. Qed.

(** What a run of [client_respond] can be. *)
Lemma client_respond_cases (tp : string) (r : JsValue) (s s' : Ctx.State)
  (res : Result unit) :
  Ctx.client_respond lib tp r s = (res, s') ->
  (exists c', res = Ok tt
     /\ s' = Ctx.set_trace (Ctx.trace s ++ [Ctx.Respond tp r])
               (Ctx.set_wcClient (Some c') s))
  \/ (exists e, res = Throw e /\ s' = s).
Proof.
  unfold Ctx.client_respond. intros H.
  destruct (Ctx.wcClient s) as [c|].
  - destruct (Ctx.wc_respond lib c tp r) as [c'|e]; injection H as <- <-.
    + left. exists c'. split; reflexivity.
    + right. exists e. split; reflexivity.
  - injection H as <- <-. right. eexists. split; reflexivity.
Qed.

Lemma removed_none (ev : Ctx.RequestEvent) (l : list Ctx.RequestEvent) :
  Ctx.pending_with (Ctx.id (Ctx.request ev))
    (List.filter
       (fun x => negb (Ctx.id (Ctx.request x) =? Ctx.id (Ctx.request ev))%Z) l)
  = 0.
Proof. rewrite pending_with_remove. now rewrite Z.eqb_refl. Qed.

(** C1 (amended): with an initialised client, a manual rejection hands
    the client the Failed or Rejected Request error for the topic of the
    request event; a manual approval hands it the result of the request
    and, when making the request threw or the client did not take the
    result, logs that and hands it the Failed or Rejected Request error
    instead.  When the client takes what it is handed, exactly one
    response has been delivered, on that topic, and the entries of the
    request's id are removed from the pending collection, which then holds
    none.  When the client does not take the error response, the call
    throws what the client threw, no response has been delivered, and the
    pending collection is as it was: the request stays pending. *)
Theorem manual_resolution_responds_once (ev : Ctx.RequestEvent)
  (s : Ctx.State) (c : Ctx.Client) :
  Ctx.wcClient s = Some c ->
  let remaining :=
    List.filter
      (fun x => negb (Ctx.id (Ctx.request x) =? Ctx.id (Ctx.request ev))%Z)
      (Ctx.requests s) in
  let failed :=
    Ctx.formatJsonRpcError lib (Ctx.id (Ctx.request ev))
      (JStr "Failed or Rejected Request") in
  let delivered (r : JsValue) (s' : Ctx.State) :=
    responses (Ctx.trace s') = responses (Ctx.trace s) ++ [(Ctx.topic ev, r)]
    /\ Ctx.requests s' = remaining
    /\ Ctx.pending_with (Ctx.id (Ctx.request ev)) (Ctx.requests s') = 0 in
  let nothing (s' : Ctx.State) :=
    responses (Ctx.trace s') = responses (Ctx.trace s)
    /\ Ctx.requests s' = Ctx.requests s in
  match Ctx.wc_respond lib c (Ctx.topic ev) failed with
  | Ok _ =>
      exists s', Ctx.rejectRequest lib ev s = (Ok tt, s') /\ delivered failed s'
  | Throw e => Ctx.rejectRequest lib ev s = (Throw e, s)
  end
  /\ (forall r1 s1,
        Ctx.approveAndMakeRequest lib ev s = (r1, s1) ->
        let second :=
          match Ctx.wc_respond lib c (Ctx.topic ev) failed with
          | Ok _ =>
              exists s',
                Ctx.approveRequest lib ev s = (Ok tt, s') /\ delivered failed s'
          | Throw e =>
              exists s',
                Ctx.approveRequest lib ev s = (Throw e, s') /\ nothing s'
          end in
        match r1 with
        | Ok resp =>
            match Ctx.wc_respond lib c (Ctx.topic ev) resp with
            | Ok _ =>
                exists s',
                  Ctx.approveRequest lib ev s = (Ok tt, s')
                  /\ delivered resp s'
            | Throw _ => second
            end
        | Throw _ => second
        end).
Proof.
  intros Hc. cbv zeta. split.
  - (* rejection *)
    unfold Ctx.rejectRequest, Ctx.failed_or_rejected, bind, gets.
    rewrite Hc.
    destruct (Ctx.wc_respond lib c (Ctx.topic ev) _) as [c'|e] eqn:Er.
    + rewrite (client_respond_ok _ _ _ _ _ Hc Er).
      unfold Ctx.removeFromPending, modify. eexists. split; [reflexivity|].
      simpl. rewrite responses_snoc.
      split; [reflexivity|]. split; [reflexivity | apply removed_none].
    + now rewrite (client_respond_throw _ _ _ _ _ Hc Er).
  - (* approval *)
    intros r1 s1 E.
    pose proof (approveAndMakeRequest_frame _ _ _ _ E) as (Hc1 & Hq1 & Hr1 & _).
    rewrite Hc in Hc1.
    assert (Hsecond : forall e0,
      Ctx.approveRequest lib ev s
      = bind (bind (Ctx.log (Ctx.ConsoleError e0)) (fun _ =>
                Ctx.client_respond lib (Ctx.topic ev)
                  (Ctx.failed_or_rejected lib ev)))
          (fun _ => Ctx.removeFromPending ev) s1 ->
      match Ctx.wc_respond lib c (Ctx.topic ev)
              (Ctx.formatJsonRpcError lib (Ctx.id (Ctx.request ev))
                 (JStr "Failed or Rejected Request")) with
      | Ok _ =>
          exists s',
            Ctx.approveRequest lib ev s = (Ok tt, s')
            /\ responses (Ctx.trace s')
               = responses (Ctx.trace s)
                   ++ [(Ctx.topic ev,
                        Ctx.formatJsonRpcError lib (Ctx.id (Ctx.request ev))
                          (JStr "Failed or Rejected Request"))]
            /\ Ctx.requests s'
               = List.filter
                   (fun x =>
                      negb (Ctx.id (Ctx.request x) =? Ctx.id (Ctx.request ev))%Z)
                   (Ctx.requests s)
            /\ Ctx.pending_with (Ctx.id (Ctx.request ev)) (Ctx.requests s') = 0
      | Throw e =>
          exists s',
            Ctx.approveRequest lib ev s = (Throw e, s')
            /\ responses (Ctx.trace s') = responses (Ctx.trace s)
            /\ Ctx.requests s' = Ctx.requests s
      end).
    { intros e0 ->. unfold bind, Ctx.log, modify, Ctx.failed_or_rejected.
      set (s2 := Ctx.set_trace (Ctx.trace s1 ++ [Ctx.ConsoleError e0]) s1).
      assert (Hc2 : Ctx.wcClient s2 = Some c) by exact Hc1.
      destruct (Ctx.wc_respond lib c (Ctx.topic ev) _) as [c'|e] eqn:Er.
      - rewrite (client_respond_ok _ _ _ _ _ Hc2 Er).
        unfold Ctx.removeFromPending, modify. eexists. split; [reflexivity|].
        subst s2. simpl. rewrite !responses_snoc, Hr1, Hq1. simpl.
        rewrite app_nil_r.
        split; [reflexivity|]. split; [reflexivity | apply removed_none].
      - rewrite (client_respond_throw _ _ _ _ _ Hc2 Er).
        eexists. split; [reflexivity|].
        subst s2. simpl. rewrite responses_snoc, Hr1, Hq1. simpl.
        now rewrite app_nil_r. }
    assert (Hrun : Ctx.approveRequest lib ev s
              = bind (try_catch
                        (fun s0 =>
                           match r1 with
                           | Ok resp =>
                               Ctx.client_respond lib (Ctx.topic ev) resp s0
                           | Throw e => (Throw e, s0)
                           end)
                        (fun e =>
                           bind (Ctx.log (Ctx.ConsoleError e)) (fun _ =>
                             Ctx.client_respond lib (Ctx.topic ev)
                               (Ctx.failed_or_rejected lib ev))))
                  (fun _ => Ctx.removeFromPending ev) s1).
    { unfold Ctx.approveRequest, bind at 1, gets. rewrite Hc.
      unfold bind, try_catch. rewrite E. destruct r1; reflexivity. }
    destruct r1 as [resp|e1].
    + destruct (Ctx.wc_respond lib c (Ctx.topic ev) resp) as [c'|e] eqn:Er.
      * rewrite Hrun. unfold bind at 1, try_catch.
        rewrite (client_respond_ok _ _ _ _ _ Hc1 Er).
        unfold Ctx.removeFromPending, modify. eexists. split; [reflexivity|].
        simpl. rewrite responses_snoc, Hr1, Hq1.
        split; [reflexivity|]. split; [reflexivity | apply removed_none].
      * apply (Hsecond e). rewrite Hrun. unfold bind at 1, try_catch.
        rewrite (client_respond_throw _ _ _ _ _ Hc1 Er). reflexivity.
    + apply (Hsecond e1). rewrite Hrun. reflexivity.
Qed.

End Manual.

(** C1, as the specification has it, fails: when the client does not take
    the response (here the session of the topic is gone), a manual
    rejection and a manual approval throw, no response is delivered, and
    the request is still in the pending collection. *)
Lemma manual_resolution_leaves_request_pending :
  Ctx.rejectRequest sample_wc_gone sample_event sample_state
  = (Throw (Error "No matching session"), sample_state)
  /\ fst (Ctx.approveRequest sample_wc_gone sample_event sample_state)
     = Throw (Error "No matching session")
  /\ responses
       (Ctx.trace
          (snd (Ctx.approveRequest sample_wc_gone sample_event sample_state)))
     = []
  /\ Ctx.requests
       (snd (Ctx.approveRequest sample_wc_gone sample_event sample_state))
     = [sample_event]
  /\ Ctx.pending_with 7 (Ctx.requests sample_state) = 1
  /\ ~ (forall lib ev s c,
          Ctx.wcClient s = Some c ->
          exists s' r,
            Ctx.rejectRequest lib ev s = (Ok tt, s')
            /\ responses (Ctx.trace s')
               = responses (Ctx.trace s) ++ [(Ctx.topic ev, r)]
            /\ Ctx.pending_with (Ctx.id (Ctx.request ev)) (Ctx.requests s') = 0).
Proof.
  split; [reflexivity|]. split; [vm_compute; reflexivity|].
  split; [vm_compute; reflexivity|]. split; [vm_compute; reflexivity|].
  split; [reflexivity|].
  intros H.
  destruct (H sample_wc_gone sample_event sample_state _ eq_refl)
    as (s' & r & Hrun & _).
  discriminate Hrun.
Qed.

Lemma manual_resolution_responds_once_witness :
  (exists s',
     Ctx.rejectRequest (sample_wc true) sample_event sample_state = (Ok tt, s')
     /\ responses (Ctx.trace s')
        = [("t1", Ctx.formatJsonRpcError (sample_wc true) 7
                    (JStr "Failed or Rejected Request"))]
     /\ Ctx.requests s' = [])
  /\ (exists s',
        Ctx.approveRequest (sample_wc true) sample_event sample_state
        = (Ok tt, s')
        /\ responses (Ctx.trace s') = [("t1", JObj [("result", JStr "0xtxid")])]
        /\ Ctx.requests s' = [])
  /\ (exists s',
        Ctx.approveRequest (sample_wc true) sample_event sample_state_failing
        = (Ok tt, s')
        /\ responses (Ctx.trace s')
           = [("t1", Ctx.formatJsonRpcError (sample_wc true) 7
                       (JStr "Failed or Rejected Request"))]
        /\ Ctx.requests s' = []).
Proof.
  destruct (manual_resolution_responds_once (sample_wc true) sample_event
              sample_state _ eq_refl) as [Hrej Happ].
  destruct (manual_resolution_responds_once (sample_wc true) sample_event
              sample_state_failing _ eq_refl) as [_ Happ'].
  split; [|split].
  - destruct Hrej as (s' & Hrun & Hresp & Hq & _).
    exists s'. repeat split; assumption.
  - specialize (Happ _ _ (surjective_pairing _)).
    assert (E : fst (Ctx.approveAndMakeRequest (sample_wc true) sample_event
                       sample_state)
                = Ok (JObj [("result", JStr "0xtxid")]))
      by (vm_compute; reflexivity).
    rewrite E in Happ.
    destruct Happ as (s' & Hrun & Hresp & Hq & _).
    exists s'. repeat split; assumption.
  - specialize (Happ' _ _ (surjective_pairing _)).
    assert (E : fst (Ctx.approveAndMakeRequest (sample_wc true) sample_event
                       sample_state_failing)
                = Throw (TypeError "Cannot read properties of undefined"))
      by (vm_compute; reflexivity).
    rewrite E in Happ'.
    destruct Happ' as (s' & Hrun & Hresp & Hq & _).
    exists s'. repeat split; assumption.
Defined.

(* ===================================================================== *)
(** * The approval cache *)
(* ===================================================================== *)

Section Cache.

Variable lib : Ctx.WcLib.


Lemma client_respond_appends (tp : string) (r : JsValue) :
  preserves appends (Ctx.client_respond lib tp r).
Proof.
  intros s res s' H.
  destruct (client_respond_cases lib _ _ _ _ _ H) as [[c' [-> ->]]|[e [-> ->]]];
    [|reflexivity].
  exists [Ctx.Respond tp r]. split; reflexivity.
Qed.










End Cache.



(* ===================================================================== *)
(** * resetApp *)
(* ===================================================================== *)

#[local] Instance ui_kept_preorder : PreOrder ui_kept.
Proof.
  split.
  - intros s. repeat split.
  - intros s1 s2 s3 H12 H23. unfold ui_kept in *.
    destruct H12 as (?&?&?&?&?&?&?), H23 as (?&?&?&?&?&?&?).
    repeat split; congruence.
Qed.

Section Reset.

Variable lib : Ctx.WcLib.








End Reset.

(** *** The browser storage *)

Lemma filter_all {A} (l : list A) : List.filter (fun _ => true) l = l.
Proof. induction l as [|x l IH]; simpl; [reflexivity | now rewrite IH]. Qed.

Lemma filter_filter {A} (f g : A -> bool) (l : list A) :
  List.filter f (List.filter g l) = List.filter (fun x => g x && f x) l.
Proof.
  induction l as [|x l IH]; simpl; [reflexivity|].
  destruct (g x); simpl; [destruct (f x); now rewrite IH | exact IH].
Qed.

Lemma fold_removeItem (ks : list string) (ls : list (string * string)) :
  fold_left (fun ls k => Ctx.removeItem k ls) ks ls
  = List.filter (fun kv => negb (existsb (String.eqb (fst kv)) ks)) ls.
Proof.
  revert ls. induction ks as [|k ks IH]; intros ls; simpl.
  - symmetry. apply filter_all.
  - rewrite IH. unfold Ctx.removeItem. rewrite filter_filter.
    apply List.filter_ext. intros kv. now rewrite negb_orb.
Qed.

Lemma existsb_keys (ls : list (string * string)) (k : string) :
  In k (map fst ls) ->
  existsb (String.eqb k) (Ctx.clearStorage_keys ls) = is_wc k.
Proof.
  unfold Ctx.clearStorage_keys. fold is_wc. intros Hin.
  destruct (is_wc k) eqn:Hk.
  - apply existsb_exists. exists k. split; [|apply String.eqb_refl].
    apply List.filter_In. split; assumption.
  - apply not_true_is_false. intros H.
    apply existsb_exists in H. destruct H as [k' [Hk' Heq]].
    apply String.eqb_eq in Heq. subst k'.
    apply List.filter_In in Hk'. destruct Hk' as [_ Hk'].
    unfold is_wc in *. cbv beta in Hk'. congruence.
Qed.

(** [clearStorage] removes the keys that begin with wc, and no other. *)
Lemma cleared_storage_eq (ls : list (string * string)) :
  cleared_storage ls = List.filter (fun kv => negb (is_wc (fst kv))) ls.
Proof.
  unfold cleared_storage. rewrite fold_removeItem.
  apply List.filter_ext_in. intros kv Hin.
  rewrite existsb_keys; [reflexivity|].
  apply in_map. exact Hin.
Qed.







(* ===================================================================== *)
(** * Further properties of the signing facade *)
(* ===================================================================== *)

Import More.

(** ** Signers *)

Lemma buildSigner_fields (lib : NeonLib) (account : Account)
  (entry : option Signer) (s : TxSigner) :
  buildSigner lib account entry = Ok s ->
  ts_account s = scriptHash account /\ ts_scopes s = entry_scopes entry.
Proof.
  unfold buildSigner, rbind.
  destruct entry as [e|]; simpl;
    repeat match goal with
           | |- context [truthy ?x] => destruct (truthy x)
           | |- context [map_fromHex ?l ?x] => destruct (map_fromHex l x)
           end;
    simpl; try discriminate; intros [= <-]; split; reflexivity.
Qed.

(** X1: every signer that [buildMultipleSigner] returns is a signer for the
    invoking account's script hash, whatever the request's signer entries
    say; for a non-empty list of entries there is one signer per entry, in
    order, with the scope of its entry. *)
Theorem buildMultipleSigner_own_account (lib : NeonLib) (account : Account)
  (signers : option (list Signer)) (l : list TxSigner) :
  buildMultipleSigner lib account signers = Ok l ->
  Forall (fun s => ts_account s = scriptHash account) l
  /\ (forall es, signers = Some es -> es <> [] ->
        length l = length es
        /\ forall i e, es !! i = Some e ->
             exists s, l !! i = Some s /\ ts_scopes s = scopes e).
Proof.
  unfold buildMultipleSigner. intros H.
  destruct (length (match signers with Some l0 => l0 | None => [] end) =? 0)%nat
    eqn:Hlen.
  - simpl in H. injection H as <-. split.
    + repeat constructor.
    + intros es -> Hne. destruct es; [congruence | discriminate Hlen].
  - split.
    + apply Forall_forall. intros s Hs.
      apply list_elem_of_lookup in Hs. destruct Hs as [i Hi].
      assert (Hlen' : length l
                      = length (match signers with Some l0 => l0 | None => [] end))
        by (eapply mapR_length; exact H).
      destruct (lookup_lt_is_Some_2
                  (match signers with Some l0 => l0 | None => [] end) i)
        as [e He].
      { rewrite <- Hlen'. eapply lookup_lt_Some. exact Hi. }
      destruct (mapR_lookup _ _ _ _ _ H He) as [s' [Hs' Hb]].
      rewrite Hi in Hs'. injection Hs' as <-.
      apply (buildSigner_fields _ _ _ _ Hb).
    + intros es -> _. split; [eapply mapR_length; exact H|].
      intros i e He.
      destruct (mapR_lookup _ _ _ _ _ H He) as [s [Hs Hb]].
      exists s. split; [exact Hs|].
      apply (buildSigner_fields _ _ _ _ Hb).
Qed.

Lemma buildMultipleSigner_own_account_witness :
  exists l,
    buildMultipleSigner (sample_neon false) sample_account (Some sample_signers)
    = Ok l
    /\ Forall (fun s => ts_account s = "c0ffee") l
    /\ length l = 2.
Proof.
  eexists. split; [reflexivity|].
  destruct (buildMultipleSigner_own_account (sample_neon false) sample_account
              (Some sample_signers) _ eq_refl) as [Hacc Hlen].
  split; [exact Hacc|].
  apply (Hlen sample_signers eq_refl). discriminate.
Defined.

(** ** Script assembly *)

Lemma emit_invocations_eq (lib : NeonLib) (cs : list ContractInvocation)
  (sb : list ScriptOp) :
  emit_invocations lib sb cs
  = rbind (mapR (taken lib) cs)
      (fun argss => Ok (sb ++ concat (zip_with invocation_ops cs argss))).
Proof.
  revert sb. induction cs as [|c cs IH]; intros sb; simpl.
  - now rewrite app_nil_r.
  - unfold taken at 1.
    destruct (convertParams (hash160 lib) (array lib) (ci_args c)) as [args|e];
      simpl; [|reflexivity].
    destruct (sb_emitContractCall lib (ci_scriptHash c) (ci_operation c) args)
      as [[]|e]; simpl; [|reflexivity].
    rewrite IH.
    destruct (mapR _ cs) as [argss|e]; simpl; [|reflexivity].
    unfold invocation_ops. destruct (abortOnFail c); simpl;
      now rewrite <- ?app_assoc.
Qed.

Lemma contract_calls_count (cs : list ContractInvocation)
  (argss : list (list JsValue)) :
  length argss = length cs ->
  length (List.filter is_contract_call (concat (zip_with invocation_ops cs argss)))
  = length cs.
Proof.
  revert argss. induction cs as [|c cs IH]; intros [|a argss] Hlen;
    simpl in *; try discriminate; [reflexivity|].
  rewrite List.filter_app, length_app, IH by lia.
  destruct (abortOnFail c); reflexivity.
Qed.

(** X2: the script is assembled all or nothing and in order.  An
    invocation adds to the script when its arguments convert and the
    builder takes the call; when every invocation of the batch does, the
    builder holds, after what it held, one contract call per invocation,
    in the order of the batch, each followed by the abort opcode 0x39
    exactly when the invocation asks for it; at the first invocation that
    does not, the assembly throws what the conversion or the builder
    threw. *)
Theorem emit_invocations_in_order (lib : NeonLib)
  (cs : list ContractInvocation) (sb : list ScriptOp) :
  emit_invocations lib sb cs
  = rbind (mapR (taken lib) cs)
      (fun argss => Ok (sb ++ concat (zip_with invocation_ops cs argss)))
  /\ (forall sb', emit_invocations lib sb cs = Ok sb' ->
        exists ops,
          sb' = sb ++ ops
          /\ length (List.filter is_contract_call ops) = length cs)
  /\ (forall before c rest e,
        cs = before ++ c :: rest ->
        (exists argss, mapR (taken lib) before = Ok argss) ->
        taken lib c = Throw e ->
        emit_invocations lib sb cs = Throw e).
Proof.
  split; [apply emit_invocations_eq|]. split.
  - intros sb'. rewrite emit_invocations_eq.
    destruct (mapR _ cs) as [argss|e] eqn:E; simpl; [|discriminate].
    intros [= <-]. eexists. split; [reflexivity|].
    apply contract_calls_count. eapply mapR_length. exact E.
  - intros before c rest e -> [argss Hb] Hc. rewrite emit_invocations_eq.
    assert (Hm : mapR (taken lib) (before ++ c :: rest) = Throw e).
    { clear -Hb Hc. revert argss Hb.
      induction before as [|x before IH]; intros argss Hb; simpl.
      - now rewrite Hc.
      - simpl in Hb. destruct (taken lib x) as [a|]; [|discriminate].
        destruct (mapR (taken lib) before) as [l|] eqn:El; [|discriminate].
        now rewrite (IH l eq_refl). }
    now rewrite Hm.
Qed.

Lemma emit_invocations_in_order_witness :
  exists ops,
    emit_invocations (sample_neon false) [] (invocations sample_cim) = Ok ops
    /\ length (List.filter is_contract_call ops) = 1.
Proof.
  destruct (emit_invocations_in_order (sample_neon false)
              (invocations sample_cim) []) as (_ & H & _).
  destruct (H _ eq_refl) as [ops [Hops Hn]].
  exists ops. split; [|exact Hn].
  simpl in Hops. rewrite <- Hops. reflexivity.
Defined.

(** ** Invokes *)

Lemma sent_app (a b : list Effect) : sent (a ++ b) = sent a ++ sent b.
Proof. unfold sent. apply flat_map_app. Qed.

(** X3: a test invoke never hands a transaction to [sendRawTransaction]:
    it leaves the trace as it is, when the script or the signers cannot be
    built, or adds the one [invokeScript] call, whose outcome is its
    own. *)
Theorem multiTestInvoke_never_broadcasts (lib : NeonLib) (rpc : string)
  (account : Account) (cim : ContractInvocationMulti) (t : list Effect) :
  let run := multiTestInvoke lib rpc account cim t in
  sent (snd run) = sent t
  /\ ((exists e, fst run = Throw e /\ snd run = t)
      \/ (exists hex sgn,
            snd run = t ++ [InvokeScript hex sgn]
            /\ fst run = invokeScript lib rpc hex sgn
            /\ buildMultipleSigner lib account (signers cim) = Ok sgn)).
Proof.
  cbv zeta. unfold multiTestInvoke, bind, liftR, effect, modify.
  destruct (emit_invocations lib [] (invocations cim)) as [sb|e]; simpl;
    [|split; [reflexivity | left; eexists; split; reflexivity]].
  destruct (HexString_fromHex lib (JStr (sb_build lib sb))) as [hex|e]; simpl;
    [|split; [reflexivity | left; eexists; split; reflexivity]].
  destruct (buildMultipleSigner lib account (signers cim)) as [sgn|e]; simpl;
    [|split; [reflexivity | left; eexists; split; reflexivity]].
  split.
  - rewrite sent_app. simpl. now rewrite app_nil_r.
  - right. exists hex, sgn. repeat split.
Qed.

Lemma sent_shown (show : option (string -> JsValue)) : sent (shown show) = [].
Proof. destruct show; reflexivity. Qed.

Lemma sent_hidden (show : option (string -> JsValue)) (hide : bool) :
  sent (hidden show hide) = [].
Proof.
  unfold hidden. destruct show as [f|]; [|reflexivity].
  simpl. destruct (hide && truthy _); reflexivity.
Qed.

(** [multiInvoke] after a preparation that succeeded, case by case. *)
Lemma multiInvoke_after_prepare (lib : NeonLib) (rpc : string)
  (account : Account) (cim : ContractInvocationMulti) (hw : bool)
  (sf : option SigningFunction) (show : option (string -> JsValue))
  (hide : bool) (t : list Effect) (magic : Z) (trx : Transaction) :
  prepareTransaction lib rpc account cim = Ok (magic, trx) ->
  multiInvoke lib rpc account cim hw sf show hide t
  = if hw then
      match NetworkFacade_fromConfig lib rpc with
      | Throw e => (Throw e, t)
      | Ok _ =>
          match facade_sign lib trx sf with
          | Ok signed =>
              (sendRawTransaction lib rpc (Some signed),
               t ++ shown show ++ hidden show hide
                 ++ [SendRawTransaction (Some signed)])
          | Throw e =>
              (sendRawTransaction lib rpc None,
               t ++ shown show ++ [ConsoleError e] ++ hidden show hide
                 ++ [SendRawTransaction None])
          end
      end
    else
      match trx_sign lib trx account magic with
      | Ok signed =>
          (sendRawTransaction lib rpc (Some signed),
           t ++ [SendRawTransaction (Some signed)])
      | Throw e => (Throw e, t)
      end.
Proof.
  intros Hprep.
  unfold multiInvoke, sign_with_hardware, bind, liftR, effect, modify, ret.
  rewrite Hprep. destruct hw.
  - destruct (NetworkFacade_fromConfig lib rpc) as [[]|e]; [|reflexivity].
    unfold shown, hidden.
    destruct (facade_sign lib trx sf) as [signed|e];
      destruct show as [f|]; simpl;
      try destruct (hide && truthy _); simpl;
      rewrite ?andb_false_r; repeat rewrite <- app_assoc; reflexivity.
  - destruct (trx_sign lib trx account magic) as [signed|e]; reflexivity.
Qed.

(** X5: an invoke hands at most one transaction to [sendRawTransaction],
    as the last thing it does, and its outcome is then the outcome of that
    submission; when the transaction cannot be prepared (the network
    magic, the conversion of an argument, the builder, the block height,
    the script, the signers, a constructor or the fees fail), the invoke
    throws that error and has done nothing: nothing is shown, signed or
    sent. *)
Theorem multiInvoke_sends_at_most_once (lib : NeonLib) (rpc : string)
  (account : Account) (cim : ContractInvocationMulti) (hw : bool)
  (sf : option SigningFunction) (show : option (string -> JsValue))
  (hide : bool) (t : list Effect) :
  let run := multiInvoke lib rpc account cim hw sf show hide t in
  ((sent (snd run) = sent t /\ exists e, fst run = Throw e)
   \/ (exists es trx',
         snd run = t ++ es ++ [SendRawTransaction trx'] /\ sent es = []
         /\ fst run = sendRawTransaction lib rpc trx'))
  /\ (forall e, prepareTransaction lib rpc account cim = Throw e ->
        run = (Throw e, t)).
Proof.
  cbv zeta. split.
  - destruct (prepareTransaction lib rpc account cim) as [[magic trx]|e]
      eqn:Hprep.
    + rewrite (multiInvoke_after_prepare _ _ _ _ _ _ _ _ _ _ _ Hprep).
      destruct hw.
      * destruct (NetworkFacade_fromConfig lib rpc) as [[]|e];
          [|left; split; [reflexivity | eexists; reflexivity]].
        destruct (facade_sign lib trx sf) as [signed|e]; right.
        -- exists (shown show ++ hidden show hide), (Some signed).
           split; [simpl; now rewrite <- app_assoc|].
           split; [now rewrite sent_app, sent_shown, sent_hidden | reflexivity].
        -- exists (shown show ++ [ConsoleError e] ++ hidden show hide), None.
           split; [simpl; now rewrite <- !app_assoc|].
           split; [|reflexivity].
           now rewrite !sent_app, sent_shown, sent_hidden.
      * destruct (trx_sign lib trx account magic) as [signed|e].
        -- right. exists [], (Some signed). repeat split.
        -- left. split; [reflexivity | eexists; reflexivity].
    + left. unfold multiInvoke, bind, liftR. rewrite Hprep.
      split; [reflexivity | eexists; reflexivity].
  - intros e Hprep. unfold multiInvoke, bind, liftR. now rewrite Hprep.
Qed.

Lemma multiInvoke_sends_at_most_once_witness :
  multiInvoke (sample_neon false) "http://seed1t4.neo.org:20332" sample_account
    {| signers := None;
       invocations :=
         [ {| ci_scriptHash := JStr "d2a4"; ci_operation := JStr "transfer";
              ci_args := [JNull]; abortOnFail := false |} ] |}
    true None (Some (fun _ => JNum 3)) true []
  = (Throw (TypeError "Cannot read properties of null"), []).
Proof.
  apply (multiInvoke_sends_at_most_once (sample_neon false)).
  reflexivity.
Defined.

(** X6: without a hardware login the transaction is signed with the
    account: no notification is shown, a failure of that signing is not
    caught (the invoke throws it and nothing is submitted), and otherwise
    the signed transaction is the one submitted. *)
Theorem multiInvoke_local_signing (lib : NeonLib) (rpc : string)
  (account : Account) (cim : ContractInvocationMulti)
  (sf : option SigningFunction) (show : option (string -> JsValue))
  (hide : bool) (t : list Effect) (magic : Z) (trx : Transaction) :
  prepareTransaction lib rpc account cim = Ok (magic, trx) ->
  multiInvoke lib rpc account cim false sf show hide t
  = match trx_sign lib trx account magic with
    | Ok signed =>
        (sendRawTransaction lib rpc (Some signed),
         t ++ [SendRawTransaction (Some signed)])
    | Throw e => (Throw e, t)
    end.
Proof.
  intros Hprep.
  exact (multiInvoke_after_prepare lib rpc account cim false sf show hide t
           magic trx Hprep).
Qed.

Lemma multiInvoke_local_signing_witness :
  exists trx,
    multiInvoke (sample_neon false) "http://seed1t4.neo.org:20332"
      sample_account sample_cim false None None false []
    = (Ok (JStr "0xtxid"), [SendRawTransaction (Some trx)]).
Proof.
  destruct (prepareTransaction (sample_neon false) "http://seed1t4.neo.org:20332"
              sample_account sample_cim) as [[magic trx]|] eqn:Hprep;
    [|discriminate Hprep].
  exists trx.
  exact (multiInvoke_local_signing (sample_neon false)
           "http://seed1t4.neo.org:20332" sample_account sample_cim None None
           false [] magic trx Hprep).
Defined.

(** X7: with a hardware login, a facade that cannot be made ends the
    invoke before any notification is shown; a signing that succeeds is
    followed by the submission of the signed transaction; and the
    notification is hidden exactly when one was shown, its id is truthy
    and a hide callback was given. *)
Theorem multiInvoke_hardware_signing (lib : NeonLib) (rpc : string)
  (account : Account) (cim : ContractInvocationMulti)
  (sf : option SigningFunction) (show : option (string -> JsValue))
  (hide : bool) (t : list Effect) (magic : Z) (trx : Transaction) :
  prepareTransaction lib rpc account cim = Ok (magic, trx) ->
  (forall e, NetworkFacade_fromConfig lib rpc = Throw e ->
     multiInvoke lib rpc account cim true sf show hide t = (Throw e, t))
  /\ (forall signed,
        NetworkFacade_fromConfig lib rpc = Ok tt ->
        facade_sign lib trx sf = Ok signed ->
        multiInvoke lib rpc account cim true sf show hide t
        = (sendRawTransaction lib rpc (Some signed),
           t ++ shown show ++ hidden show hide
             ++ [SendRawTransaction (Some signed)]))
  /\ (hidden show hide <> [] <->
      exists f, show = Some f /\ hide = true
                /\ truthy (f "Please sign the transaction on your hardware device")
                   = true).
Proof.
  intros Hprep. split; [|split].
  - intros e He.
    rewrite (multiInvoke_after_prepare _ _ _ _ _ _ _ _ _ _ _ Hprep).
    now rewrite He.
  - intros signed Hf Hs.
    rewrite (multiInvoke_after_prepare _ _ _ _ _ _ _ _ _ _ _ Hprep).
    now rewrite Hf, Hs.
  - unfold hidden. destruct show as [f|]; simpl.
    + destruct hide; simpl.
      * destruct (truthy (f _)) eqn:Ht; split.
        -- intros _. exists f. repeat split. exact Ht.
        -- discriminate.
        -- congruence.
        -- intros [g [[= <-] [_ Hg]]]. congruence.
      * split; [congruence|]. intros [g [_ [Hh _]]]. discriminate.
    + split; [congruence|]. intros [g [Hg _]]. discriminate.
Qed.

Lemma multiInvoke_hardware_signing_witness :
  exists trx,
    multiInvoke (sample_neon false) "http://seed1t4.neo.org:20332"
      sample_account sample_cim true None (Some (fun _ => JNum 3)) true []
    = (Ok (JStr "0xtxid"),
       [ShowInfoNotification "Please sign the transaction on your hardware device";
        HideNotification (JNum 3);
        SendRawTransaction (Some trx)]).
Proof.
  destruct (prepareTransaction (sample_neon false) "http://seed1t4.neo.org:20332"
              sample_account sample_cim) as [[magic trx]|] eqn:Hprep;
    [|discriminate Hprep].
  exists trx.
  exact (proj1 (proj2 (multiInvoke_hardware_signing (sample_neon false)
                         "http://seed1t4.neo.org:20332" sample_account
                         sample_cim None (Some (fun _ => JNum 3)) true []
                         magic trx Hprep))
           trx eq_refl eq_refl).
Defined.

(** ** The message envelope *)

Lemma list_ascii_of_string_app (a b : string) :
  list_ascii_of_string (a +:+ b)
  = list_ascii_of_string a ++ list_ascii_of_string b.
Proof. induction a as [|c a IH]; simpl; [reflexivity | now rewrite IH]. Qed.

Lemma hex_string_app (a b : string) :
  hex_string a -> hex_string b -> hex_string (a +:+ b).
Proof.
  unfold hex_string. rewrite list_ascii_of_string_app.
  intros Ha Hb. apply Forall_app. split; assumption.
Qed.

Lemma byte_hex_hex (n : N) : hex_string (byte_hex n).
Proof. repeat constructor; apply hex_digit_is_hex. Qed.

Lemma str2hexstring_hex (s : string) : hex_string (str2hexstring s).
Proof.
  induction s as [|c s IH]; [constructor|].
  cbn [str2hexstring]. apply hex_string_app; [apply byte_hex_hex | exact IH].
Qed.

Lemma num2hexstring_le_hex (size : nat) (num : N) :
  hex_string (num2hexstring_le num size)
  /\ String.length (num2hexstring_le num size) = 2 * size.
Proof.
  revert num. induction size as [|k IH]; intros num.
  - split; [constructor | reflexivity].
  - cbn [num2hexstring_le]. destruct (IH (num / 256)%N) as [Hh Hl]. split.
    + apply hex_string_app; [apply byte_hex_hex | exact Hh].
    + rewrite string_length_app, Hl, byte_hex_length. lia.
Qed.

Lemma hex_literals :
  hex_string "fd" /\ hex_string "fe" /\ hex_string "ff"
  /\ hex_string "010001f0" /\ hex_string "0000".
Proof. unfold hex_string. repeat split; repeat constructor. Qed.

Lemma num2VarInt_hex (num : N) :
  hex_string (num2VarInt num)
  /\ exists k, String.length (num2VarInt num) = 2 * k.
Proof.
  destruct hex_literals as (Hfd & Hfe & Hff & _).
  unfold num2VarInt.
  destruct (num <? 253)%N; [split; [apply byte_hex_hex | exists 1; reflexivity]|].
  destruct (num <=? 65535)%N; [|destruct (num <=? 4294967295)%N].
  - destruct (num2hexstring_le_hex 2 num) as [Hh Hl]. split.
    + apply (hex_string_app "fd"); assumption.
    + exists 3. change (String.length ("fd" +:+ num2hexstring_le num 2))
        with (S (S (String.length (num2hexstring_le num 2)))).
      rewrite Hl. reflexivity.
  - destruct (num2hexstring_le_hex 4 num) as [Hh Hl]. split.
    + apply (hex_string_app "fe"); assumption.
    + exists 5. change (String.length ("fe" +:+ num2hexstring_le num 4))
        with (S (S (String.length (num2hexstring_le num 4)))).
      rewrite Hl. reflexivity.
  - destruct (num2hexstring_le_hex 8 num) as [Hh Hl]. split.
    + apply (hex_string_app "ff"); assumption.
    + exists 9. change (String.length ("ff" +:+ num2hexstring_le num 8))
        with (S (S (String.length (num2hexstring_le num 8)))).
      rewrite Hl. reflexivity.
Qed.

(** X8: the message hex that [signMessage] signs is a string of
    hexadecimal digits of even length, whatever the message: the envelope
    is a sequence of whole bytes. *)
Theorem signMessage_messageHex_is_hex (lib : NeonLib)
  (entropy : nat -> Byte.byte) (account : Account) (message : string) :
  let r := signMessage lib entropy account message in
  hex_string (sm_messageHex r)
  /\ exists k, String.length (sm_messageHex r) = 2 * k.
Proof.
  destruct hex_literals as (_ & _ & _ & Hprefix & Hsuffix).
  cbv zeta. unfold signMessage. cbn [sm_messageHex].
  set (payload := str2hexstring (toString_hex (randomBytes entropy 16) +:+ message)).
  destruct (num2VarInt_hex (N.of_nat (String.length payload) / 2))
    as [Hv [k Hk]].
  split.
  - apply (hex_string_app "010001f0"); [exact Hprefix|].
    apply hex_string_app; [exact Hv|].
    apply hex_string_app; [apply str2hexstring_hex | exact Hsuffix].
  - exists (4 + k + String.length
                      (toString_hex (randomBytes entropy 16) +:+ message) + 2).
    rewrite (string_length_app "010001f0"), !string_length_app, Hk.
    unfold payload. rewrite str2hexstring_length, !string_length_app.
    change (String.length "010001f0") with 8.
    change (String.length "0000") with 4. lia.
Qed.

(* ===================================================================== *)
(** * rpcCall *)
(* ===================================================================== *)

Lemma bind_ok_inv {S A B} (c : M S A) (k : A -> M S B) (s s' : S) (v : B) :
  bind c k s = (Ok v, s') ->
  exists a s1, c s = (Ok a, s1) /\ k a s1 = (Ok v, s').
Proof.
  unfold bind. destruct (c s) as [[a|e] s1]; [|discriminate].
  intros H. exists a, s1. split; [reflexivity | exact H].
Qed.

Lemma method_is_eq (request : Ctx.JsonRpcRequest) (m : string) :
  Ctx.method request = m ->
  forall m', Rpc.method_is request m' = String.eqb m m'.
Proof. intros <- m'. reflexivity. Qed.

(** The [forEach] over elements that can all be read is the assembly of
    the batch read; and it returns only when they can. *)
Lemma emit_elements_read (lib : NeonLib) (cs : list JsValue)
  (invs : list ContractInvocation) (sb : list ScriptOp) :
  mapR Rpc.invocation_of cs = Ok invs ->
  Rpc.emit_elements lib sb cs = emit_invocations lib sb invs.
Proof.
  revert invs sb. induction cs as [|c cs IH]; intros invs sb; simpl.
  - intros [= <-]. reflexivity.
  - destruct (Rpc.invocation_of c) as [ci|e]; [|discriminate].
    destruct (mapR Rpc.invocation_of cs) as [invs'|e]; [|discriminate].
    intros [= <-]. simpl. unfold rbind.
    destruct (convertParams (hash160 lib) (array lib) (ci_args ci)) as [args|e];
      [|reflexivity].
    destruct (sb_emitContractCall lib _ _ args) as [[]|e]; [|reflexivity].
    apply IH. reflexivity.
Qed.

Lemma emit_elements_ok (lib : NeonLib) (cs : list JsValue)
  (sb sb' : list ScriptOp) :
  Rpc.emit_elements lib sb cs = Ok sb' ->
  exists invs, mapR Rpc.invocation_of cs = Ok invs.
Proof.
  revert sb. induction cs as [|c cs IH]; intros sb; simpl.
  - intros _. eexists. reflexivity.
  - destruct (Rpc.invocation_of c) as [ci|e]; [|discriminate].
    simpl. unfold rbind at 1.
    destruct (rbind _ _) as [sb1|e]; [|discriminate].
    intros H. destruct (IH _ H) as [invs ->]. eexists. reflexivity.
Qed.

(** X9: without an account, a signMessage request throws No account
    before anything is done, and an invoke or a test invoke throws without
    a transaction or a script having been handed to the node. *)
Theorem rpcCall_without_account (lib : NeonLib) (rlib : Rpc.RpcLib)
  (casts : Rpc.Casts) (rpc : string) (entropy : nat -> Byte.byte)
  (request : Ctx.JsonRpcRequest) (hw : bool) (sf : option SigningFunction)
  (show : option (string -> JsValue)) (hide : bool)
  (t : list Rpc.RpcEffect) :
  (Ctx.method request = "signMessage" ->
   Rpc.rpcCall lib rlib casts rpc entropy None request hw sf show hide t
   = (Throw (Error "No account"), t))
  /\ (In (Ctx.method request)
        ["multiInvoke"; "invokeFunction"; "multiTestInvoke"; "testInvoke"] ->
      exists e,
        Rpc.rpcCall lib rlib casts rpc entropy None request hw sf show hide t
        = (Throw e, t)).
Proof.
  split.
  - intros Hm. unfold Rpc.rpcCall.
    rewrite !(method_is_eq request _ Hm). reflexivity.
  - intros Hin.
    assert (Hinv : exists e,
              Rpc.multiInvoke_any lib rpc None (Ctx.params request)
                hw sf show hide [] = (Throw e, [])).
    { unfold Rpc.multiInvoke_any, bind, liftR, throw.
      destruct (getversion_network lib rpc); [|eexists; reflexivity].
      destruct (Rpc.elements_of _); [|eexists; reflexivity].
      destruct (rbind _ _); [|eexists; reflexivity].
      destruct (Rpc.signers_of _); eexists; reflexivity. }
    assert (Htest : exists e,
              Rpc.multiTestInvoke_any lib rpc None (Ctx.params request) []
              = (Throw e, [])).
    { unfold Rpc.multiTestInvoke_any, bind, liftR, throw.
      destruct (Rpc.elements_of _); [|eexists; reflexivity].
      destruct (rbind _ _); [|eexists; reflexivity].
      destruct (Rpc.signers_of _); eexists; reflexivity. }
    destruct Hinv as [e1 Hinv], Htest as [e2 Htest].
    unfold Rpc.rpcCall, Rpc.in_facade. simpl in Hin.
    destruct Hin as [Hm|[Hm|[Hm|[Hm|[]]]]]; symmetry in Hm;
      rewrite !(method_is_eq request _ Hm); simpl;
      unfold bind, ret; rewrite ?Hinv, ?Htest; simpl; rewrite ?app_nil_r;
      eexists; reflexivity.
Qed.

Lemma rpcCall_without_account_witness :
  Rpc.rpcCall (sample_neon false) sample_rpc sample_casts "http://seed"
    (fun _ => Byte.x00) None
    (sample_method_request "signMessage" (JStr "hello"))
    false None None false []
  = (Throw (Error "No account"), []).
Proof.
  exact (proj1 (rpcCall_without_account (sample_neon false) sample_rpc
                  sample_casts "http://seed" (fun _ => Byte.x00)
                  (sample_method_request "signMessage" (JStr "hello"))
                  false None None false []) eq_refl).
Defined.

(** X10: whatever the method, a call of [rpcCall] that returns has
    returned an object with the id of the request, the version tag 2.0, a
    result, and an isMessage flag that is true exactly for the methods
    signMessage and verifyMessage. *)
Theorem rpcCall_response_shape (lib : NeonLib) (rlib : Rpc.RpcLib)
  (casts : Rpc.Casts) (rpc : string) (entropy : nat -> Byte.byte)
  (account : option Account) (request : Ctx.JsonRpcRequest) (hw : bool)
  (sf : option SigningFunction) (show : option (string -> JsValue))
  (hide : bool) (t t' : list Rpc.RpcEffect) (v : JsValue) :
  Rpc.rpcCall lib rlib casts rpc entropy account request hw sf show hide t
  = (Ok v, t') ->
  v = Rpc.response request (prop v "result")
  /\ prop v "id" = JNum (Ctx.id request)
  /\ prop v "jsonrpc" = JStr "2.0"
  /\ prop v "isMessage"
     = JBool (String.eqb (Ctx.method request) "signMessage"
              || String.eqb (Ctx.method request) "verifyMessage").
Proof.
  unfold Rpc.rpcCall. intros H.
  do 5 (apply bind_ok_inv in H; destruct H as (? & ? & _ & H)).
  injection H as <- _. repeat split.
Qed.

Lemma rpcCall_response_shape_witness :
  exists v,
    fst (Rpc.rpcCall (sample_neon false) sample_rpc sample_casts "http://seed"
           (fun _ => Byte.x00) (Some sample_account)
           (sample_method_request "signMessage" (JStr "hello"))
           false None None false []) = Ok v
    /\ prop v "id" = JNum 4 /\ prop v "isMessage" = JBool true.
Proof.
  eexists. split; [reflexivity|].
  match goal with
  | |- prop ?v _ = _ /\ _ =>
      destruct (rpcCall_response_shape (sample_neon false) sample_rpc
                  sample_casts "http://seed" (fun _ => Byte.x00)
                  (Some sample_account)
                  (sample_method_request "signMessage" (JStr "hello"))
                  false None None false [] [] v eq_refl) as (_ & Hid & _ & Hm)
  end.
  split; [exact Hid | exact Hm].
Defined.

(** With an account and params that can be read, an invoke inside
    [rpcCall] is [multiInvoke] on the batch read, and a test invoke is
    [multiTestInvoke] on it. *)
Lemma multiInvoke_any_read (lib : NeonLib) (rpc : string)
  (a : Account) (params : JsValue) (invs : list ContractInvocation)
  (sgs : option (list Signer)) (hw : bool) (sf : option SigningFunction)
  (show : option (string -> JsValue)) (hide : bool) (t : list Effect) :
  Rpc.batch_of params = Ok invs ->
  Rpc.signers_of params = Ok sgs ->
  Rpc.multiInvoke_any lib rpc (Some a) params hw sf show hide t
  = multiInvoke lib rpc a {| signers := sgs; invocations := invs |}
      hw sf show hide t.
Proof.
  unfold Rpc.batch_of. intros Hi Hs.
  destruct (Rpc.elements_of params) as [cs|e] eqn:Ecs; [|discriminate Hi].
  simpl in Hi.
  unfold Rpc.multiInvoke_any, multiInvoke, prepareTransaction, bind, liftR.
  rewrite Ecs, Hs, Hi, (emit_elements_read lib cs invs [] Hi).
  cbn [invocations signers]. unfold rbind.
  destruct (getversion_network lib rpc); [|reflexivity].
  destruct (emit_invocations lib [] invs); [|reflexivity].
  destruct (getBlockCount lib rpc); [|reflexivity].
  destruct (HexString_fromHex lib _); reflexivity.
Qed.

(** X11: a falsy result is not returned but replaced by the raw query of
    the request.  A verifyMessage request whose params are [null] or
    [undefined], or cannot be read as a signed message, throws and nothing
    is sent; one whose verification fails is sent to the node's generic
    executor; one whose verification succeeds is answered with true and
    nothing is sent.  An invoke whose submission returned a falsy value is
    sent to the generic executor too. *)
Theorem rpcCall_falsy_result_falls_through (lib : NeonLib)
  (rlib : Rpc.RpcLib) (casts : Rpc.Casts) (rpc : string)
  (entropy : nat -> Byte.byte) (account : option Account)
  (request : Ctx.JsonRpcRequest) (hw : bool) (sf : option SigningFunction)
  (show : option (string -> JsValue)) (hide : bool)
  (t : list Rpc.RpcEffect) :
  (Ctx.method request = "verifyMessage" ->
   Rpc.rpcCall lib rlib casts rpc entropy account request hw sf show hide t
   = match Rpc.signed_of casts (Ctx.params request) with
     | Throw e => (Throw e, t)
     | Ok verifyArgs =>
         if verifyMessage lib verifyArgs
         then (Ok (Rpc.response request (JBool true)), t)
         else raw_query rlib rpc request t
     end)
  /\ (Ctx.method request = "verifyMessage" ->
      is_nullish (Ctx.params request) = true ->
      exists msg,
        Rpc.rpcCall lib rlib casts rpc entropy account request hw sf show hide t
        = (Throw (TypeError msg), t))
  /\ (In (Ctx.method request) ["multiInvoke"; "invokeFunction"] ->
      forall a invs sgs v es,
        account = Some a ->
        Rpc.batch_of (Ctx.params request) = Ok invs ->
        Rpc.signers_of (Ctx.params request) = Ok sgs ->
        multiInvoke lib rpc a {| signers := sgs; invocations := invs |} hw sf
          show hide [] = (Ok v, es) ->
        Rpc.rpcCall lib rlib casts rpc entropy account request hw sf show hide t
        = if truthy v
          then (Ok (Rpc.response request v), t ++ map Rpc.FacadeEffect es)
          else raw_query rlib rpc request (t ++ map Rpc.FacadeEffect es)).
Proof.
  assert (Hverify : Ctx.method request = "verifyMessage" ->
    Rpc.rpcCall lib rlib casts rpc entropy account request hw sf show hide t
    = match Rpc.signed_of casts (Ctx.params request) with
      | Throw e => (Throw e, t)
      | Ok verifyArgs =>
          if verifyMessage lib verifyArgs
          then (Ok (Rpc.response request (JBool true)), t)
          else raw_query rlib rpc request t
      end).
  { intros Hm. unfold Rpc.rpcCall, raw_query.
    rewrite !(method_is_eq request _ Hm). simpl.
    unfold bind, ret, Rpc.rpc_effect, modify, liftR, rbind. simpl.
    destruct (Rpc.signed_of casts (Ctx.params request)) as [sm|e];
      [|reflexivity].
    destruct (verifyMessage lib sm); simpl; [reflexivity|].
    destruct (Rpc.execute rlib rpc _ _ _); reflexivity. }
  split; [exact Hverify|]. split.
  - intros Hm Hnull. rewrite (Hverify Hm).
    unfold Rpc.signed_of, Rpc.not_nullish.
    destruct (Ctx.params request); try discriminate Hnull;
      eexists; reflexivity.
  - intros Hin a invs sgs v es -> Hi Hs Hrun. simpl in Hin.
    unfold Rpc.rpcCall, raw_query, Rpc.in_facade.
    rewrite (multiInvoke_any_read lib rpc a _ invs sgs hw sf show hide
               [] Hi Hs), Hrun.
    destruct Hin as [Hm|[Hm|[]]]; symmetry in Hm;
      rewrite !(method_is_eq request _ Hm); simpl;
      unfold bind, ret, Rpc.rpc_effect, modify, liftR, rbind; simpl;
      (destruct (truthy v); simpl; [reflexivity|]);
      destruct (Rpc.execute rlib rpc _ _ _); reflexivity.
Qed.

Lemma rpcCall_falsy_result_falls_through_witness :
  Rpc.rpcCall sample_neon_verifying sample_rpc sample_casts "http://seed"
    (fun _ => Byte.x00) None
    (sample_method_request "verifyMessage" (sample_signed_params "bad"))
    false None None false []
  = (Ok (Rpc.response
           (sample_method_request "verifyMessage" (sample_signed_params "bad"))
           (JObj [("raw", JStr "verifyMessage")])),
     [Rpc.Execute 4 "verifyMessage" (sample_signed_params "bad")])
  /\ (exists msg,
       Rpc.rpcCall sample_neon_verifying sample_rpc sample_casts "http://seed"
         (fun _ => Byte.x00) None (sample_method_request "verifyMessage" JNull)
         false None None false []
       = (Throw (TypeError msg), []))
  /\ exists v es,
       Rpc.batch_of sample_params = Ok (invocations sample_cim)
       /\ Rpc.signers_of sample_params = Ok None
       /\ Rpc.rpcCall (sample_neon false) sample_rpc sample_casts "http://seed"
            (fun _ => Byte.x00) (Some sample_account)
            (sample_method_request "multiInvoke" sample_params)
            false None None false []
          = (Ok (Rpc.response
                   (sample_method_request "multiInvoke" sample_params) v),
             map Rpc.FacadeEffect es).
Proof.
  split; [|split].
  - exact (proj1 (rpcCall_falsy_result_falls_through sample_neon_verifying
                    sample_rpc sample_casts "http://seed" (fun _ => Byte.x00)
                    None
                    (sample_method_request "verifyMessage"
                       (sample_signed_params "bad"))
                    false None None false []) eq_refl).
  - exact (proj1 (proj2 (rpcCall_falsy_result_falls_through
                           sample_neon_verifying sample_rpc sample_casts
                           "http://seed" (fun _ => Byte.x00) None
                           (sample_method_request "verifyMessage" JNull)
                           false None None false [])) eq_refl eq_refl).
  - eexists. eexists. split; [reflexivity|]. split; [reflexivity|].
    refine (eq_trans
              (proj2 (proj2 (rpcCall_falsy_result_falls_through
                               (sample_neon false) sample_rpc sample_casts
                               "http://seed" (fun _ => Byte.x00)
                               (Some sample_account)
                               (sample_method_request "multiInvoke"
                                  sample_params)
                               false None None false []))
                 (or_introl eq_refl) sample_account (invocations sample_cim)
                 None _ _ eq_refl eq_refl eq_refl eq_refl) _).
    reflexivity.
Defined.

Lemma lookup_set_field (k : string) (v : JsValue) (fs : list (string * JsValue)) :
  lookup_field k (Ctx.set_field k v fs) = v.
Proof.
  induction fs as [|[k' v'] fs IH]; simpl.
  - now rewrite String.eqb_refl.
  - destruct (String.eqb k' k) eqn:E; simpl.
    + now rewrite String.eqb_refl.
    + now rewrite E.
Qed.

Lemma set_isTest_tagged (r r' : JsValue) :
  Rpc.set_isTest r = Ok r' ->
  truthy r' = true
  /\ (is_array r' = false -> prop r' "isTest" = JBool true).
Proof.
  destruct r; simpl; try discriminate; intros [= <-]; simpl.
  - split; [reflexivity | discriminate].
  - split; [reflexivity|]. intros _. apply lookup_set_field.
Qed.

(** X12: a test invoke through [rpcCall] hands no transaction to the node
    and makes no raw query: all it does is at most the one script
    invocation; and the result it returns, an object, carries isTest
    true. *)
Theorem rpcCall_test_invoke (lib : NeonLib) (rlib : Rpc.RpcLib)
  (casts : Rpc.Casts) (rpc : string) (entropy : nat -> Byte.byte)
  (account : option Account) (request : Ctx.JsonRpcRequest) (hw : bool)
  (sf : option SigningFunction) (show : option (string -> JsValue))
  (hide : bool) (t : list Rpc.RpcEffect) :
  In (Ctx.method request) ["multiTestInvoke"; "testInvoke"] ->
  let run :=
    Rpc.rpcCall lib rlib casts rpc entropy account request hw sf show hide t in
  (snd run = t
   \/ exists hex sgn, snd run = t ++ [Rpc.FacadeEffect (InvokeScript hex sgn)])
  /\ (forall v, fst run = Ok v ->
        is_array (prop v "result") = false ->
        prop (prop v "result") "isTest" = JBool true).
Proof.
  intros Hin. cbv zeta. simpl in Hin.
  assert (Hcases :
    (exists e, Rpc.multiTestInvoke_any lib rpc account
                 (Ctx.params request) [] = (Throw e, []))
    \/ (exists hex sgn,
          Rpc.multiTestInvoke_any lib rpc account (Ctx.params request) []
          = (invokeScript lib rpc hex sgn, [InvokeScript hex sgn]))).
  { unfold Rpc.multiTestInvoke_any, bind, liftR, throw.
    destruct (Rpc.elements_of _) as [cs|];
      [|left; eexists; reflexivity].
    destruct (rbind _ _) eqn:Epre; [|left; eexists; reflexivity].
    destruct (Rpc.signers_of _) as [sgs|];
      [|left; eexists; reflexivity].
    destruct account as [acc|]; [|left; eexists; reflexivity].
    unfold rbind in Epre.
    destruct (Rpc.emit_elements lib [] cs) as [sb|] eqn:Eemit;
      [|discriminate Epre].
    destruct (emit_elements_ok lib cs [] sb Eemit) as [invs Hinvs].
    rewrite Hinvs.
    rewrite (emit_elements_read lib cs invs [] Hinvs) in Eemit.
    unfold multiTestInvoke, bind, liftR, effect, modify.
    cbn [invocations signers]. unfold rbind.
    rewrite Eemit, Epre.
    destruct (buildMultipleSigner lib acc sgs); simpl;
      [right; eexists; eexists; reflexivity | left; eexists; reflexivity]. }
  unfold Rpc.rpcCall, Rpc.in_facade, bind, ret, liftR. cbv beta.
  destruct Hcases as [[e E]|[hex [sgn E]]]; rewrite E;
    (destruct Hin as [Hm|[Hm|[]]]; symmetry in Hm;
     rewrite !(method_is_eq request _ Hm); simpl).
  1, 2: rewrite app_nil_r; split; [left; reflexivity | discriminate].
  all: (destruct (invokeScript lib rpc hex sgn) as [r|e]; simpl;
        [|split; [right; eexists; eexists; reflexivity | discriminate]]);
    (destruct (Rpc.set_isTest r) as [r'|e] eqn:Et; simpl;
     [|split; [right; eexists; eexists; reflexivity | discriminate]]);
    destruct (set_isTest_tagged _ _ Et) as [Htr Htag]; rewrite Htr; simpl;
    (split; [right; eexists; eexists; reflexivity|]);
    intros v [= <-]; simpl; exact Htag.
Qed.

Lemma rpcCall_test_invoke_witness :
  Rpc.rpcCall (sample_neon false) sample_rpc sample_casts "http://seed"
    (fun _ => Byte.x00) (Some sample_account)
    (sample_method_request "testInvoke" sample_params) false None None false []
  = (Ok (Rpc.response (sample_method_request "testInvoke" sample_params)
           (JObj [("state", JStr "HALT"); ("isTest", JBool true)])),
     [Rpc.FacadeEffect (InvokeScript "c1" [bare_signer sample_account])])
  /\ prop (JObj [("state", JStr "HALT"); ("isTest", JBool true)]) "isTest"
     = JBool true.
Proof.
  split; [reflexivity|].
  refine (proj2 (rpcCall_test_invoke (sample_neon false) sample_rpc sample_casts
                   "http://seed" (fun _ => Byte.x00) (Some sample_account)
                   (sample_method_request "testInvoke" sample_params) false
                   None None false [] _)
            (Rpc.response (sample_method_request "testInvoke" sample_params)
               (JObj [("state", JStr "HALT"); ("isTest", JBool true)]))
            eq_refl eq_refl).
  right. left. reflexivity.
Defined.

(** X13: a request for a method that [rpcCall] does not serve itself is
    passed to the node's generic executor, once, with its id, method and
    params, whoever the account is, and the executor's result is the
    result of the response; a getapplicationlog request goes to the
    dedicated call with the first of its params and never to the generic
    executor. *)
Theorem rpcCall_passthrough (lib : NeonLib) (rlib : Rpc.RpcLib)
  (casts : Rpc.Casts) (rpc : string) (entropy : nat -> Byte.byte)
  (account : option Account) (request : Ctx.JsonRpcRequest) (hw : bool)
  (sf : option SigningFunction) (show : option (string -> JsValue))
  (hide : bool) (t : list Rpc.RpcEffect) :
  (~ In (Ctx.method request) served_methods ->
   Rpc.rpcCall lib rlib casts rpc entropy account request hw sf show hide t
   = raw_query rlib rpc request t)
  /\ (Ctx.method request = "getapplicationlog" ->
      Rpc.rpcCall lib rlib casts rpc entropy account request hw sf show hide t
      = match Rpc.params_0 (Ctx.params request) with
        | Throw e => (Throw e, t)
        | Ok arg =>
            (rbind (Rpc.getApplicationLog rlib rpc arg)
               (fun r => Ok (Rpc.response request r)),
             t ++ [Rpc.GetApplicationLog arg])
        end).
Proof.
  split.
  - intros Hnot. unfold served_methods in Hnot.
    assert (Hf : forall m, In m served_methods -> Rpc.method_is request m = false).
    { intros m Hm. unfold Rpc.method_is. apply String.eqb_neq.
      intros Heq. apply Hnot. rewrite Heq. exact Hm. }
    unfold Rpc.rpcCall, raw_query.
    rewrite !Hf by (unfold served_methods; simpl; tauto).
    simpl. unfold bind, ret, Rpc.rpc_effect, modify, liftR, rbind. simpl.
    destruct (Rpc.execute rlib rpc _ _ _); reflexivity.
  - intros Hm. unfold Rpc.rpcCall.
    rewrite !(method_is_eq request _ Hm). simpl.
    unfold bind, ret, Rpc.rpc_effect, modify, liftR, rbind. simpl.
    destruct (Rpc.params_0 (Ctx.params request)) as [arg|e]; [|reflexivity].
    destruct (Rpc.getApplicationLog rlib rpc arg); reflexivity.
Qed.

Lemma rpcCall_passthrough_witness :
  Rpc.rpcCall (sample_neon false) sample_rpc sample_casts "http://seed"
    (fun _ => Byte.x00) None
    (sample_method_request "getblockcount" (JArr [])) false None None false []
  = (Ok (Rpc.response (sample_method_request "getblockcount" (JArr []))
           (JObj [("raw", JStr "getblockcount")])),
     [Rpc.Execute 4 "getblockcount" (JArr [])])
  /\ Rpc.rpcCall (sample_neon false) sample_rpc sample_casts "http://seed"
       (fun _ => Byte.x00) None
       (sample_method_request "getapplicationlog" (JArr [JStr "0xab"]))
       false None None false []
     = (Ok (Rpc.response
              (sample_method_request "getapplicationlog" (JArr [JStr "0xab"]))
              (JObj [("txid", JStr "0xab")])),
        [Rpc.GetApplicationLog (JStr "0xab")]).
Proof.
  split.
  - refine (proj1 (rpcCall_passthrough (sample_neon false) sample_rpc
                     sample_casts "http://seed" (fun _ => Byte.x00) None
                     (sample_method_request "getblockcount" (JArr [])) false
                     None None false []) _).
    simpl. intros H.
    repeat (destruct H as [H|H]; [discriminate H|]). exact H.
  - exact (proj2 (rpcCall_passthrough (sample_neon false) sample_rpc
                    sample_casts "http://seed" (fun _ => Byte.x00) None
                    (sample_method_request "getapplicationlog"
                       (JArr [JStr "0xab"])) false None None false [])
             eq_refl).
Defined.

(* ===================================================================== *)
(** * Further properties of the provider *)
(* ===================================================================== *)

(** ** makeRequest *)

(** X14: [makeRequest] throws, without calling the request callback, when
    no account is registered (a TypeError) or when it holds no callback
    (There is no onRequestCallback), and the state is left as it was.  The
    callback it holds is the one of the render in which the accounts last
    changed: a listener registered since then is not seen, and is seen
    once an account is added.  When the callback's promise rejects, the
    rejection is logged and the error cell is set to the unknown-error
    message, and [makeRequest] throws all the same, a TypeError, because it
    then reads the result of [undefined]. *)
Theorem makeRequest_failures (arg : Ctx.RequestArg) (s : Ctx.State) :
  (Ctx.accounts s = [] -> exists e, Ctx.makeRequest arg s = (Throw e, s))
  /\ (Ctx.accounts s <> [] -> Ctx.captured_onRequestCallback s = None ->
      Ctx.makeRequest arg s
      = (Throw (Error "There is no onRequestCallback"), s)
      /\ (forall listener,
            let s1 := snd (Pairing.onRequestListener listener s) in
            Ctx.onRequestCallback s1 = listener
            /\ Ctx.makeRequest arg s1
               = (Throw (Error "There is no onRequestCallback"), s1)
            /\ forall address chain,
                 Ctx.captured_onRequestCallback
                   (snd (Ctx.addAccountAndChain address chain s1))
                 = listener))
  /\ (forall a0 rest f e,
        Ctx.accounts s = a0 :: rest ->
        Ctx.captured_onRequestCallback s = Some f ->
        f (fst (Ctx.address_and_chain a0)) (snd (Ctx.address_and_chain a0)) arg
        = Throw e ->
        Ctx.makeRequest arg s
        = (Throw (TypeError "Cannot read properties of undefined"),
           Ctx.set_error Ctx.unknown_error
             (Ctx.set_trace
                (Ctx.trace s
                   ++ [Ctx.OnRequest (fst (Ctx.address_and_chain a0))
                         (snd (Ctx.address_and_chain a0)) arg;
                       Ctx.ConsoleError e]) s))).
Proof.
  split; [|split].
  - intros Ha. unfold Ctx.makeRequest. run. rewrite Ha. eexists. reflexivity.
  - intros Ha Hf. split.
    + unfold Ctx.makeRequest. run.
      destruct (Ctx.accounts s) as [|a0 rest]; [congruence|].
      now rewrite Hf.
    + intros listener. cbv zeta. split; [reflexivity|]. split; [|reflexivity].
      unfold Pairing.onRequestListener, modify. cbn [snd].
      unfold Ctx.makeRequest. run.
      destruct (Ctx.accounts s) as [|a0 rest]; [congruence|].
      cbn [Ctx.captured_onRequestCallback Ctx.set_onRequestCallback].
      now rewrite Hf.
  - intros a0 rest f e Ha Hf He. unfold Ctx.makeRequest. run.
    rewrite Ha, Hf. simpl. simpl in He. rewrite He. simpl.
    rewrite <- app_assoc. reflexivity.
Qed.

Lemma makeRequest_failures_witness :
  exists s',
    Ctx.makeRequest (Ctx.OfRequest sample_request) sample_state_failing
    = (Throw (TypeError "Cannot read properties of undefined"), s')
    /\ Ctx.error s' = Ctx.unknown_error
    /\ (exists e,
          Ctx.makeRequest (Ctx.OfRequest sample_request)
            (Ctx.initial_state sample_options)
          = (Throw e, Ctx.initial_state sample_options))
    /\ Ctx.makeRequest (Ctx.OfRequest sample_request)
         (snd (Pairing.onRequestListener (Ctx.onRequestCallback sample_state)
                 sample_state_unheard))
       = (Throw (Error "There is no onRequestCallback"),
          snd (Pairing.onRequestListener (Ctx.onRequestCallback sample_state)
                 sample_state_unheard)).
Proof.
  destruct (makeRequest_failures (Ctx.OfRequest sample_request)
              sample_state_failing) as (_ & _ & Hrej).
  destruct (makeRequest_failures (Ctx.OfRequest sample_request)
              (Ctx.initial_state sample_options)) as (Hnone & _).
  destruct (makeRequest_failures (Ctx.OfRequest sample_request)
              sample_state_unheard) as (_ & Hlate & _).
  eexists. split; [|split; [|split]].
  - exact (Hrej "neo3:testnet:NX8Gre" [] _ (Error "Signing failed")
             eq_refl eq_refl eq_refl).
  - reflexivity.
  - exact (Hnone eq_refl).
  - refine (proj1 (proj2 (proj2 (Hlate _ eq_refl)
                            (Ctx.onRequestCallback sample_state)))).
    discriminate.
Defined.

(** X15: when the callback that [makeRequest] holds resolves with a value
    that is not [undefined] or [null], [makeRequest] returns that value as
    it is, having called the callback once.  The result becomes the
    transaction hash only if it is truthy, carries no error and no isTest
    tag, and the response is no message response; with isMessage it
    becomes the message verification (with the request's method added); in
    every other case, also for a test result, the hash is left alone and
    the error cell is set, to the result's error or to the unknown-error
    message. *)
Theorem makeRequest_outcome (arg : Ctx.RequestArg) (s : Ctx.State)
  (a0 : string) (rest : list string) (f : Ctx.OnRequestCallback)
  (res : JsValue) :
  Ctx.accounts s = a0 :: rest ->
  Ctx.captured_onRequestCallback s = Some f ->
  f (fst (Ctx.address_and_chain a0)) (snd (Ctx.address_and_chain a0)) arg
  = Ok res ->
  is_nullish res = false ->
  exists s',
    Ctx.makeRequest arg s = (Ok res, s')
    /\ Ctx.trace s'
       = Ctx.trace s
           ++ [Ctx.OnRequest (fst (Ctx.address_and_chain a0))
                 (snd (Ctx.address_and_chain a0)) arg]
    /\ Ctx.txHash s'
       = (if Ctx.is_plain_result res && negb (truthy (prop res "isMessage"))
          then prop res "result" else Ctx.txHash s)
    /\ Ctx.messageVerification s'
       = (if Ctx.is_plain_result res && truthy (prop res "isMessage")
          then Ctx.spread_with res "method" (Ctx.arg_method arg)
          else Ctx.messageVerification s)
    /\ Ctx.error s'
       = (if Ctx.is_plain_result res then Ctx.error s
          else if truthy (prop res "result")
               then prop (prop res "result") "error"
               else Ctx.unknown_error).
Proof.
  intros Ha Hf Hres Hnn. unfold Ctx.makeRequest. run.
  rewrite Ha, Hf. simpl. simpl in Hres. rewrite Hres. simpl.
  assert (Hg : get_prop res "result" = Ok (prop res "result"))
    by (destruct res; try discriminate Hnn; reflexivity).
  rewrite Hg.
  destruct (Ctx.is_plain_result res) eqn:Hp; simpl.
  - destruct (truthy (prop res "isMessage")); simpl;
      eexists; (split; [reflexivity|]); repeat split.
  - eexists. split; [reflexivity|]. repeat split.
Qed.

Lemma makeRequest_outcome_witness :
  exists s',
    Ctx.makeRequest (Ctx.OfRequest sample_request) sample_state
    = (Ok (JObj [("result", JStr "0xtxid")]), s')
    /\ Ctx.txHash s' = JStr "0xtxid".
Proof.
  destruct (makeRequest_outcome (Ctx.OfRequest sample_request) sample_state
              "neo3:testnet:NX8Gre" [] _ (JObj [("result", JStr "0xtxid")])
              eq_refl eq_refl eq_refl eq_refl)
    as (s' & Hrun & _ & Hhash & _).
  exists s'. split; [exact Hrun | exact Hhash].
Defined.

(** ** The session.request handler *)

(** X16: a request that is not in the approval cache is decided by the
    auto-accept callback alone.  Without a callback it is queued and
    nothing else happens; with a callback that returns a falsy value it is
    queued after that one call; with a callback that throws it is answered
    with the error made of the exception's message and is not queued.  In
    none of these cases is the request callback called. *)
Theorem onSessionRequest_policy (lib : Ctx.WcLib) (ev : Ctx.RequestEvent)
  (s : Ctx.State) (m : gmap string JsValue) :
  Ctx.storage s = Some m ->
  (forall v, m !! Ctx.cache_key lib (Ctx.request ev) = Some v -> truthy v = false) ->
  let logged :=
    Ctx.set_trace
      (Ctx.trace s
         ++ [Ctx.AutoAccept (fst (policy_args s)) (snd (policy_args s))
               (Ctx.request ev)]) s in
  (Ctx.autoAcceptCallback s = None ->
   Ctx.onSessionRequest lib ev s
   = (Ok tt, Ctx.set_requests (enqueued ev (Ctx.requests s)) s))
  /\ (forall g v,
        Ctx.autoAcceptCallback s = Some g ->
        g (fst (policy_args s)) (snd (policy_args s)) (Ctx.request ev) = Ok v ->
        truthy v = false ->
        Ctx.onSessionRequest lib ev s
        = (Ok tt, Ctx.set_requests (enqueued ev (Ctx.requests s)) logged))
  /\ (forall g e,
        Ctx.autoAcceptCallback s = Some g ->
        g (fst (policy_args s)) (snd (policy_args s)) (Ctx.request ev) = Throw e ->
        Ctx.onSessionRequest lib ev s
        = Ctx.respondRequest lib (Ctx.topic ev)
            (Ctx.formatJsonRpcError lib (Ctx.id (Ctx.request ev)) (message e))
            logged).
Proof.
  intros Hm Hmiss. cbv zeta.
  assert (Hcheck : truthy (match m !! Ctx.cache_key lib (Ctx.request ev) with
                           | Some v => v
                           | None => JUndefined
                           end) = false).
  { destruct (m !! Ctx.cache_key lib (Ctx.request ev)) as [v|];
      [apply Hmiss | ]; reflexivity. }
  unfold policy_args, enqueued.
  split; [|split].
  - intros Hcb.
    unfold Ctx.onSessionRequest, Ctx.checkApprovedRequest, Ctx.askApproval.
    run. rewrite Hm. simpl. rewrite Hcheck, Hcb. reflexivity.
  - intros g v Hcb Hg Hv.
    unfold Ctx.onSessionRequest, Ctx.checkApprovedRequest, Ctx.askApproval.
    run. rewrite Hm. simpl. rewrite Hcheck, Hcb.
    destruct (Ctx.accounts s) as [|a0 rest]; simpl in *;
      rewrite Hg; simpl; rewrite Hv; reflexivity.
  - intros g e Hcb Hg.
    unfold Ctx.onSessionRequest, Ctx.checkApprovedRequest, Ctx.reject.
    run. rewrite Hm. simpl. rewrite Hcheck, Hcb.
    destruct (Ctx.accounts s) as [|a0 rest]; simpl in *;
      rewrite Hg; reflexivity.
Qed.

Lemma onSessionRequest_policy_witness :
  Ctx.onSessionRequest (sample_wc true) sample_event_8 sample_state
  = (Ok tt,
     Ctx.set_requests [sample_event; sample_event_8]
       (Ctx.set_trace
          [Ctx.AutoAccept (JStr "NX8Gre") (JStr "neo3:testnet")
             (Ctx.request sample_event_8)] sample_state)).
Proof.
  refine (proj1 (proj2 (onSessionRequest_policy (sample_wc true) sample_event_8
                          sample_state ∅ eq_refl _))
            _ (JBool false) eq_refl eq_refl eq_refl).
  intros v Hv. rewrite lookup_empty in Hv. discriminate Hv.
Defined.

Section Answers.

Variable lib : Ctx.WcLib.
Variable ev : Ctx.RequestEvent.

(** The client accepts every response on the topic of the event. *)
Variable reliable :
  forall c0 r, exists c1, Ctx.wc_respond lib c0 (Ctx.topic ev) r = Ok c1.

Lemma respondRequest_answers (r : JsValue) (s : Ctx.State) (c : Ctx.Client) :
  Ctx.wcClient s = Some c ->
  exists c1,
    Ctx.respondRequest lib (Ctx.topic ev) r s
    = (Ok tt, Ctx.set_trace (Ctx.trace s ++ [Ctx.Respond (Ctx.topic ev) r])
                (Ctx.set_wcClient (Some c1) s)).
Proof using reliable.
  intros Hc. destruct (reliable c r) as [c1 Hr]. exists c1.
  unfold Ctx.respondRequest, bind, gets. rewrite Hc.
  apply (client_respond_ok lib _ _ _ c c1 Hc Hr).
Qed.

Lemma approve_outcomes (s s1 : Ctx.State) (c : Ctx.Client) (res : Result unit) :
  Ctx.wcClient s = Some c ->
  Ctx.approve lib ev s = (res, s1) ->
  Ctx.requests s1 = Ctx.requests s
  /\ ((res = Ok tt
       /\ exists r, responses (Ctx.trace s1)
                    = responses (Ctx.trace s) ++ [(Ctx.topic ev, r)])
      \/ ((exists e, res = Throw e)
          /\ responses (Ctx.trace s1) = responses (Ctx.trace s)
          /\ Ctx.wcClient s1 = Some c)).
Proof using reliable.
  intros Hc H. unfold Ctx.approve, bind in H.
  destruct (Ctx.makeRequest (Ctx.OfRequest (Ctx.request ev)) s)
    as [[resp|e] s2] eqn:E;
    destruct (makeRequest_silent _ _ _ _ E) as (Hc2 & _ & Hq2 & _ & _ & _ & Hr2 & _).
  - rewrite Hc in Hc2.
    destruct (respondRequest_answers resp s2 c Hc2) as [c1 Hrun].
    rewrite Hrun in H. injection H as <- <-. simpl.
    split; [exact Hq2|]. left. split; [reflexivity|].
    exists resp. now rewrite responses_snoc, Hr2.
  - injection H as <- <-. split; [exact Hq2|]. right.
    split; [eexists; reflexivity|]. split; [exact Hr2 | congruence].
Qed.

Lemma approve_or_reject_answers (s s' : Ctx.State) (c : Ctx.Client)
  (res : Result unit) :
  Ctx.wcClient s = Some c ->
  match Ctx.approve lib ev s with
  | (Ok a, s1) => (Ok a, s1)
  | (Throw e, s1) => Ctx.reject lib ev (message e) s1
  end = (res, s') ->
  res = Ok tt
  /\ Ctx.requests s' = Ctx.requests s
  /\ exists r, responses (Ctx.trace s')
               = responses (Ctx.trace s) ++ [(Ctx.topic ev, r)].
Proof using reliable.
  intros Hc H.
  destruct (Ctx.approve lib ev s) as [[[]|e] s1] eqn:E;
    destruct (approve_outcomes _ _ _ _ Hc E)
      as [Hq [[Hres [r Hr]]|[[e' He'] [Hr Hc1]]]]; try discriminate.
  - injection H as <- <-. split; [reflexivity|]. split; [exact Hq|].
    exists r. exact Hr.
  - unfold Ctx.reject in H.
    destruct (respondRequest_answers
                (Ctx.formatJsonRpcError lib (Ctx.id (Ctx.request ev)) (message e))
                s1 c Hc1) as [c1 Hrun].
    rewrite Hrun in H. injection H as <- <-. simpl.
    split; [reflexivity|]. split; [exact Hq|].
    eexists. now rewrite responses_snoc, Hr.
Qed.

(** X17: with an initialised client that accepts responses on the topic,
    the handler of a session request always completes, and it does exactly
    one of two things with the request: it answers it, with exactly one
    response on the topic and the pending collection left as it was, or it
    queues it for manual approval and sends nothing. *)
Theorem onSessionRequest_answers_or_queues (s : Ctx.State) (c : Ctx.Client) :
  Ctx.wcClient s = Some c ->
  exists s',
    Ctx.onSessionRequest lib ev s = (Ok tt, s')
    /\ ((Ctx.requests s' = Ctx.requests s
         /\ exists r, responses (Ctx.trace s')
                      = responses (Ctx.trace s) ++ [(Ctx.topic ev, r)])
        \/ (Ctx.requests s' = enqueued ev (Ctx.requests s)
            /\ responses (Ctx.trace s') = responses (Ctx.trace s))).
Proof using reliable.
  intros Hc.
  destruct (Ctx.onSessionRequest lib ev s) as [res s'] eqn:H.
  unfold Ctx.onSessionRequest, Ctx.checkApprovedRequest in H.
  unfold try_catch, bind, gets, ret, throw, liftR, Ctx.log, modify in H.
  assert (Hgoal : res = Ok tt
    /\ ((Ctx.requests s' = Ctx.requests s
         /\ exists r, responses (Ctx.trace s')
                      = responses (Ctx.trace s) ++ [(Ctx.topic ev, r)])
        \/ (Ctx.requests s' = enqueued ev (Ctx.requests s)
            /\ responses (Ctx.trace s') = responses (Ctx.trace s)))).
  { destruct (Ctx.storage s) as [m|].
    - destruct (truthy _).
      + destruct (approve_or_reject_answers _ _ _ _ Hc H) as (Hres & Hq & Hr).
        split; [exact Hres | left; split; assumption].
      + destruct (Ctx.autoAcceptCallback s) as [g|].
        * assert (Htail : forall address chainId,
            (let s1 := Ctx.set_trace
                         (Ctx.trace s
                            ++ [Ctx.AutoAccept address chainId (Ctx.request ev)]) s in
             match
               match g address chainId (Ctx.request ev) with
               | Ok a =>
                   (if truthy a then Ctx.approve lib ev
                    else Ctx.askApproval ev) s1
               | Throw e => (Throw e, s1)
               end
             with
             | (Ok a, s2) => (Ok a, s2)
             | (Throw e, s2) => Ctx.reject lib ev (message e) s2
             end = (res, s')) ->
            res = Ok tt
            /\ ((Ctx.requests s' = Ctx.requests s
                 /\ exists r, responses (Ctx.trace s')
                              = responses (Ctx.trace s) ++ [(Ctx.topic ev, r)])
                \/ (Ctx.requests s' = enqueued ev (Ctx.requests s)
                    /\ responses (Ctx.trace s') = responses (Ctx.trace s)))).
          { intros address chainId. cbv zeta.
            set (s1 := Ctx.set_trace _ s).
            assert (Hc1 : Ctx.wcClient s1 = Some c) by exact Hc.
            assert (Hr1 : responses (Ctx.trace s1) = responses (Ctx.trace s)).
            { subst s1. simpl. rewrite responses_snoc. simpl.
              now rewrite app_nil_r. }
            assert (Hq1 : Ctx.requests s1 = Ctx.requests s) by reflexivity.
            clearbody s1. intros H1.
            destruct (g address chainId (Ctx.request ev)) as [v|e].
            - destruct (truthy v).
              + destruct (approve_or_reject_answers _ _ _ _ Hc1 H1)
                  as (Hres & Hq & [r Hr]).
                split; [exact Hres|]. left. split; [congruence|].
                exists r. now rewrite Hr, Hr1.
              + unfold Ctx.askApproval, modify in H1.
                injection H1 as <- <-. split; [reflexivity|]. right.
                simpl. unfold enqueued. rewrite Hq1. split; [reflexivity|].
                exact Hr1.
            - unfold Ctx.reject in H1.
              destruct (respondRequest_answers
                          (Ctx.formatJsonRpcError lib (Ctx.id (Ctx.request ev))
                             (message e)) s1 c Hc1) as [c1 Hrun].
              rewrite Hrun in H1. injection H1 as <- <-. simpl.
              split; [reflexivity|]. left. split; [exact Hq1|].
              eexists. now rewrite responses_snoc, Hr1. }
          destruct (Ctx.accounts s) as [|a0 rest];
            [|destruct (Ctx.address_and_chain a0)];
            eapply Htail; exact H.
        * unfold Ctx.askApproval, modify in H.
          injection H as <- <-. split; [reflexivity|]. right.
          split; reflexivity.
    - unfold Ctx.reject in H.
      match type of H with
      | Ctx.respondRequest lib _ ?r s = _ =>
          destruct (respondRequest_answers r s c Hc) as [c1 Hrun]
      end.
      rewrite Hrun in H. injection H as <- <-. simpl.
      split; [reflexivity|]. left. split; [reflexivity|].
      eexists. now rewrite responses_snoc. }
  destruct Hgoal as [-> Hrest]. exists s'. split; [reflexivity | exact Hrest].
Qed.

End Answers.

Lemma onSessionRequest_answers_or_queues_witness :
  exists s',
    Ctx.onSessionRequest (sample_wc true) sample_event_8 sample_state
    = (Ok tt, s')
    /\ ((Ctx.requests s' = Ctx.requests sample_state
         /\ exists r, responses (Ctx.trace s') = [] ++ [("t1", r)])
        \/ (Ctx.requests s' = [sample_event; sample_event_8]
            /\ responses (Ctx.trace s') = [])).
Proof.
  refine (onSessionRequest_answers_or_queues (sample_wc true) sample_event_8 _
            sample_state _ eq_refl).
  intros c0 r. exists c0. reflexivity.
Defined.

(* ===================================================================== *)
(** * The account strings *)
(* ===================================================================== *)

Lemma append_assoc_str (a b c : string) : (a +:+ b) +:+ c = a +:+ (b +:+ c).
Proof.
  induction a as [|x a IH]; [reflexivity|].
  change (String x ((a +:+ b) +:+ c) = String x (a +:+ (b +:+ c))).
  now rewrite IH.
Qed.

Lemma split_colon_head (a rest : string) :
  no_colon a = true ->
  Ctx.split_colon (a +:+ ":" +:+ rest) = a :: Ctx.split_colon rest.
Proof.
  unfold no_colon. induction a as [|x a IH]; simpl; intros H.
  - reflexivity.
  - apply andb_true_iff in H. destruct H as [Hx Ha].
    apply negb_true_iff in Hx. rewrite Hx, (IH Ha). reflexivity.
Qed.

Lemma split_colon_single (a : string) :
  no_colon a = true -> Ctx.split_colon a = [a].
Proof.
  unfold no_colon. induction a as [|x a IH]; simpl; intros H.
  - reflexivity.
  - apply andb_true_iff in H. destruct H as [Hx Ha].
    apply negb_true_iff in Hx. rewrite Hx, (IH Ha). reflexivity.
Qed.

Lemma address_and_chain_joined (namespace reference address : string) :
  no_colon namespace = true -> no_colon reference = true ->
  no_colon address = true ->
  Ctx.address_and_chain ((namespace +:+ ":" +:+ reference) +:+ ":" +:+ address)
  = (JStr address, namespace +:+ ":" +:+ reference).
Proof.
  intros Hn Hr Ha. unfold Ctx.address_and_chain.
  rewrite !append_assoc_str.
  rewrite (split_colon_head _ _ Hn).
  change (":" +:+ reference +:+ ":" +:+ address)
    with (String ":" (reference +:+ ":" +:+ address)).
  rewrite (split_colon_head _ _ Hr), (split_colon_single _ Ha).
  reflexivity.
Qed.

(** X18: an account added with [addAccountAndChain] is read back as it was
    given.  When neither the two parts of the chain id nor the address
    holds a colon, the account goes to the end of the collection, the code
    that splits an account string gets the address and the chain id back
    from it, and so a first account added to an empty collection is the one
    whose address and chain the policy callback is given. *)
Theorem added_account_is_read_back (namespace reference address : string)
  (s : Ctx.State) :
  no_colon namespace = true -> no_colon reference = true ->
  no_colon address = true ->
  let chain := namespace +:+ ":" +:+ reference in
  exists account s',
    Ctx.addAccountAndChain address chain s = (Ok tt, s')
    /\ Ctx.accounts s' = Ctx.accounts s ++ [account]
    /\ Ctx.address_and_chain account = (JStr address, chain)
    /\ (Ctx.accounts s = [] -> policy_args s' = (JStr address, JStr chain)).
Proof.
  intros Hn Hr Ha chain.
  pose proof (address_and_chain_joined _ _ _ Hn Hr Ha) as Hread.
  fold chain in Hread.
  exists (chain +:+ ":" +:+ address).
  exists (Ctx.setAccounts (Ctx.accounts s ++ [chain +:+ ":" +:+ address]) s).
  split; [reflexivity|]. split; [reflexivity|]. split; [exact Hread|].
  intros Hs. unfold policy_args.
  replace (Ctx.accounts
             (Ctx.setAccounts (Ctx.accounts s ++ [chain +:+ ":" +:+ address]) s))
    with [chain +:+ ":" +:+ address] by (simpl; now rewrite Hs).
  now rewrite Hread.
Qed.

Lemma added_account_is_read_back_witness :
  exists account s',
    Ctx.addAccountAndChain "NX8GreRFGFK5wpGMWetpX93HmtrezGogzk" "neo3:testnet"
      (Ctx.initial_state sample_options) = (Ok tt, s')
    /\ Ctx.accounts s' = [] ++ [account]
    /\ Ctx.address_and_chain account
       = (JStr "NX8GreRFGFK5wpGMWetpX93HmtrezGogzk", "neo3:testnet")
    /\ (@nil string = [] ->
        policy_args s'
        = (JStr "NX8GreRFGFK5wpGMWetpX93HmtrezGogzk", JStr "neo3:testnet")).
Proof.
  exact (added_account_is_read_back "neo3" "testnet"
           "NX8GreRFGFK5wpGMWetpX93HmtrezGogzk"
           (Ctx.initial_state sample_options) eq_refl eq_refl eq_refl).
Defined.




(* ===================================================================== *)
(** * Guards and frames of the provider *)
(* ===================================================================== *)

(** One step of a frame proof, by the shape of the computation. *)
Ltac frame_step :=
  lazymatch goal with
  | |- preserves _ (bind _ _) =>
      apply preserves_bind; [exact _ | | intros ?]
  | |- preserves _ (try_catch _ _) =>
      apply preserves_try_catch; [exact _ | | intros ?]
  | |- preserves _ (ret _) => apply preserves_ret; exact _
  | |- preserves _ (throw _) => apply preserves_throw; exact _
  | |- preserves _ (gets _) => apply preserves_gets; exact _
  | |- preserves _ (liftR _) => apply preserves_liftR; exact _
  | |- preserves _ (Ctx.log _) => unfold Ctx.log
  | |- preserves _ (modify _) => apply preserves_modify; intros ?
  | |- preserves _ (match ?x with _ => _ end) => destruct x
  end.

Lemma disconnect_each_preserves (lib : Ctx.WcLib)
  (R : Ctx.State -> Ctx.State -> Prop) (HR : PreOrder R) :
  (forall s c c' t,
     Ctx.wcClient s = Some c ->
     R s (Ctx.set_trace t (Ctx.set_wcClient (Some c') s))) ->
  forall ss failed, preserves R (Ctx.disconnect_each lib ss failed).
Proof.
  intros Hstep ss. induction ss as [|x ss IH]; intros failed; simpl.
  - apply preserves_ret; exact _.
  - intros s r s' H.
    destruct (Ctx.wcClient s) as [c|] eqn:Hc; [|eapply IH; exact H].
    destruct (Ctx.wc_disconnect lib c (Ctx.session_topic x)
                (Ctx.USER_DISCONNECTED lib)) as [c'|e]; [|eapply IH; exact H].
    etransitivity; [|eapply IH; exact H].
    eapply Hstep. exact Hc.
Qed.

(** X22: the functions that start with the test of the client (the reload
    of the persisted state, the handlers of a proposal and of a change of
    sessions, the sending of a response, the approval and the rejection of
    a request and of a session, the disconnection of a topic, the peer of
    a request, and the pairing with a non-empty URI) throw "Client is not
    initialized" when there is no client, and then change nothing and send
    nothing; [onURI] returns at once, client or not, when its data is no
    string or an empty one. *)
Theorem no_client_guard (lib : Ctx.WcLib) (plib : Pairing.PairLib)
  (options : Ctx.CtxOptions) (s : Ctx.State) :
  Ctx.wcClient s = None ->
  Ctx.checkPersistedState s = refused s
  /\ (forall p, Ctx.onSessionProposal options p s = refused s)
  /\ Pairing.onSessionsChanged s = refused s
  /\ (forall tp r, Ctx.respondRequest lib tp r s = refused s)
  /\ (forall ev, Ctx.approveRequest lib ev s = refused s)
  /\ (forall ev, Ctx.rejectRequest lib ev s = refused s)
  /\ (forall p, Pairing.approveSession plib options p s = refused s)
  /\ (forall p, Pairing.rejectSession plib p s = refused s)
  /\ (forall tp, Pairing.disconnect lib tp s = refused s)
  /\ (forall ev, Pairing.getPeerOfRequest plib ev s = refused s)
  /\ (forall data, Pairing.uri_of data <> "" ->
        Pairing.onURI plib data s = refused s)
  /\ (forall data s0, Pairing.uri_of data = "" ->
        Pairing.onURI plib data s0 = (Ok tt, s0)).
Proof.
  intros Hc. unfold refused.
  repeat match goal with |- _ /\ _ => split end; intros;
    try (unfold Ctx.checkPersistedState, Ctx.onSessionProposal,
           Pairing.onSessionsChanged, Ctx.respondRequest, Ctx.approveRequest,
           Ctx.rejectRequest, Pairing.approveSession, Pairing.rejectSession,
           Pairing.disconnect, Pairing.getPeerOfRequest, bind, gets;
         rewrite Hc; reflexivity).
  - unfold Pairing.onURI.
    destruct (String.eqb_spec (Pairing.uri_of data) "") as [Heq|_];
      [contradiction|].
    unfold bind, gets. rewrite Hc. reflexivity.
  - unfold Pairing.onURI.
    match goal with H : Pairing.uri_of _ = "" |- _ => rewrite H end.
    reflexivity.
Qed.

Lemma no_client_guard_witness :
  Ctx.approveRequest (sample_wc true) sample_event
    (Ctx.initial_state sample_options)
  = (Throw (Error "Client is not initialized"),
     Ctx.initial_state sample_options).
Proof.
  destruct (no_client_guard (sample_wc true) sample_pair sample_options
              (Ctx.initial_state sample_options) eq_refl)
    as (_ & _ & _ & _ & Happrove & _).
  exact (Happrove sample_event).
Defined.

(** X23: a manual rejection leaves the approval cache as it is and calls
    neither callback: whatever the client does with the response, the
    cache cell and the two callbacks are the same after it, the trace grew
    by plain events only, and the cache answers every request as before,
    so that the same request is asked again when it comes back. *)
Theorem rejectRequest_keeps_cache (lib : Ctx.WcLib) (ev : Ctx.RequestEvent)
  (s : Ctx.State) :
  let s' := snd (Ctx.rejectRequest lib ev s) in
  Ctx.storage s' = Ctx.storage s
  /\ Ctx.onRequestCallback s' = Ctx.onRequestCallback s
  /\ Ctx.autoAcceptCallback s' = Ctx.autoAcceptCallback s
  /\ appends s s'
  /\ forall r,
       fst (Ctx.checkApprovedRequest lib r s')
       = fst (Ctx.checkApprovedRequest lib r s).
Proof.
  cbv zeta.
  destruct (Ctx.rejectRequest lib ev s) as [res s'] eqn:H. simpl.
  assert (Hk : Ctx.storage s' = Ctx.storage s
               /\ Ctx.onRequestCallback s' = Ctx.onRequestCallback s
               /\ Ctx.autoAcceptCallback s' = Ctx.autoAcceptCallback s
               /\ appends s s').
  { unfold Ctx.rejectRequest, bind, gets in H.
    destruct (Ctx.wcClient s) as [c|].
    - destruct (Ctx.client_respond lib (Ctx.topic ev)
                  (Ctx.failed_or_rejected lib ev) s) as [r1 s1] eqn:E.
      pose proof (client_respond_appends lib _ _ _ _ _ E) as Happ.
      destruct (client_respond_cases lib _ _ _ _ _ E)
        as [[c' [-> ->]]|[e [-> ->]]].
      + unfold Ctx.removeFromPending, modify in H. injection H as <- <-.
        repeat split. exact Happ.
      + injection H as <- <-. repeat split. reflexivity.
    - injection H as <- <-. repeat split. reflexivity. }
  destruct Hk as (Hst & Hcb & Hac & Happ).
  repeat split; try assumption.
  intros r. unfold Ctx.checkApprovedRequest, bind, gets. rewrite Hst.
  destruct (Ctx.storage s); reflexivity.
Qed.

#[local] Instance config_kept_preorder : PreOrder config_kept.
Proof.
  split.
  - intros s. repeat split.
  - intros s1 s2 s3 H12 H23. unfold config_kept in *.
    destruct H12 as (?&?&?&?&?&?&?&?), H23 as (?&?&?&?&?&?&?&?).
    repeat split; congruence.
Qed.

Lemma filter_kept_cleared (ls : list (string * string)) :
  List.filter (fun kv => negb (is_wc (fst kv))) (cleared_storage ls)
  = List.filter (fun kv => negb (is_wc (fst kv))) ls.
Proof.
  rewrite cleared_storage_eq, filter_filter.
  apply List.filter_ext. intros kv. now destruct (negb _).
Qed.

Lemma resetApp_config_kept (lib : Ctx.WcLib) :
  preserves config_kept (Ctx.resetApp lib).
Proof.
  unfold Ctx.resetApp, Ctx.clearStorage, Ctx.disconnect_all.
  repeat first
    [ apply disconnect_each_preserves;
      [exact _ | intros; repeat split]
    | frame_step ];
    try (repeat split; fail).
  unfold config_kept. simpl. repeat split.
  apply filter_kept_cleared.
Qed.

(** X24: [resetApp], whether its disconnections succeed or not, leaves
    alone the cell of the approval cache, the chains, the two callbacks
    and the cells that [makeRequest] reports in, and it neither removes
    nor reorders an entry of the browser storage whose key does not start
    with wc. *)
Theorem resetApp_keeps_configuration (lib : Ctx.WcLib) (s : Ctx.State) :
  config_kept s (snd (Ctx.resetApp lib s)).
Proof.
  destruct (Ctx.resetApp lib s) as [r s'] eqn:E. simpl.
  eapply resetApp_config_kept. exact E.
Qed.

(** X25: the two loops of [clearStorage] (the keys that start with wc are
    collected first, then removed one by one) remove exactly the entries
    of the browser storage whose key starts with wc: what is left is the
    other entries, in their order; no other cell changes and nothing is
    thrown. *)
Theorem clearStorage_removes_wc_keys (s : Ctx.State) :
  Ctx.clearStorage s
  = (Ok tt,
     Ctx.set_localStorage
       (List.filter (fun kv => negb (is_wc (fst kv))) (Ctx.localStorage s)) s).
Proof.
  unfold Ctx.clearStorage, modify.
  rewrite <- cleared_storage_eq. reflexivity.
Qed.

(* ===================================================================== *)
(** * Sessions *)
(* ===================================================================== *)

(** X26: the decision on a session proposal is all or nothing.  With a
    client, [approveSession] hands the client the accounts whose chain the
    proposal asks for; when the client throws, so does the function, and
    the state is as before, the proposal still pending; when the client
    returns a session, the session list becomes that one session, no
    pending proposal is the decided one any more, and the accounts, the
    pending requests and the trace stay.  [rejectSession] does the same
    with the client's rejection, and keeps the session list. *)
Theorem session_decision_all_or_nothing (plib : Pairing.PairLib)
  (options : Ctx.CtxOptions) (p : Ctx.Proposal) (s : Ctx.State)
  (c : Ctx.Client) :
  Ctx.wcClient s = Some c ->
  let left :=
    List.filter (fun i => negb (Pairing.same_proposal plib i p))
      (Ctx.sessionProposals s) in
  match Pairing.wc_approve plib c p
          (Pairing.accounts_of_proposal (Ctx.accounts s) p)
          (Ctx.appMetadata options) with
  | Throw e => Pairing.approveSession plib options p s = (Throw e, s)
  | Ok (c', session) =>
      Pairing.approveSession plib options p s
      = (Ok tt,
         Ctx.set_sessions [session]
           (Ctx.set_sessionProposals left (Ctx.set_wcClient (Some c') s)))
  end
  /\ match Pairing.wc_reject plib c p with
     | Throw e => Pairing.rejectSession plib p s = (Throw e, s)
     | Ok c' =>
         Pairing.rejectSession plib p s
         = (Ok tt,
            Ctx.set_sessionProposals left
              (Ctx.set_trace (Ctx.trace s ++ [Ctx.RejectProposal p])
                 (Ctx.set_wcClient (Some c') s)))
     end
  /\ forallb (fun i => negb (Pairing.same_proposal plib i p)) left = true.
Proof.
  intros Hc left. split; [|split].
  - unfold Pairing.approveSession, bind, gets, liftR, modify. rewrite Hc.
    destruct (Pairing.wc_approve plib c p _ _) as [[c' session]|e];
      reflexivity.
  - unfold Pairing.rejectSession, bind, gets, liftR, modify, Ctx.log, modify.
    rewrite Hc.
    destruct (Pairing.wc_reject plib c p) as [c'|e]; reflexivity.
  - apply forallb_forall. intros i Hi. subst left.
    apply List.filter_In in Hi. apply Hi.
Qed.

Lemma session_decision_all_or_nothing_witness :
  Pairing.approveSession sample_pair sample_options sample_proposal sample_state
  = (Ok tt,
     Ctx.set_sessions [ {| Ctx.session_topic := "p1" |} ]
       (Ctx.set_sessionProposals []
          (Ctx.set_wcClient
             (Some {| Ctx.session_values :=
                        [ {| Ctx.session_topic := "t1" |};
                          {| Ctx.session_topic := "p1" |} ];
                      Ctx.history_pending := [] |})
             sample_state))).
Proof.
  exact (proj1 (session_decision_all_or_nothing sample_pair sample_options
                  sample_proposal sample_state _ eq_refl)).
Defined.

Lemma filter_nil_all {A} (f : A -> bool) (l : list A) :
  List.filter f l = [] -> forall x, In x l -> f x = false.
Proof.
  intros Hnil x Hin. destruct (f x) eqn:Hf; [|reflexivity].
  assert (Hx : In x (List.filter f l)) by (apply List.filter_In; now split).
  rewrite Hnil in Hx. destruct Hx.
Qed.

Lemma includes_In (xs : list string) (x : string) :
  Ctx.includes xs x = true <-> In x xs.
Proof.
  unfold Ctx.includes. rewrite existsb_exists. split.
  - intros [y [Hy Heq]]. apply String.eqb_eq in Heq. now subst y.
  - intros Hin. exists x. split; [exact Hin | apply String.eqb_refl].
Qed.

(** X27: a proposal that the proposal handler queues asks only for chains
    of the provider and for methods of the options; so when it is approved
    later, every account that [approveSession] shares with the peer is an
    account of the wallet on a chain of the provider. *)
Theorem queued_proposal_shares_supported_chains (options : Ctx.CtxOptions)
  (p : Ctx.Proposal) (s s1 : Ctx.State) :
  Ctx.onSessionProposal options p s = (Ok Ctx.ReturnNull, s1) ->
  (forall chainId, In chainId (Ctx.permissions_chains p) ->
                   In chainId (Ctx.chains s))
  /\ (forall m, In m (Ctx.permissions_methods p) -> In m (Ctx.methods options))
  /\ (forall accs account,
        In account (Pairing.accounts_of_proposal accs p) ->
        In account accs
        /\ In (snd (Ctx.address_and_chain account)) (Ctx.chains s)).
Proof.
  intros H. unfold Ctx.onSessionProposal in H. run_in H.
  destruct (Ctx.wcClient s) as [c|]; [|discriminate H].
  destruct (List.filter (fun chainId => negb (Ctx.includes (Ctx.chains s) chainId))
              (Ctx.permissions_chains p)) as [|x xs] eqn:Hch;
    [|discriminate H].
  destruct (List.filter (fun m => negb (Ctx.includes (Ctx.methods options) m))
              (Ctx.permissions_methods p)) as [|y ys] eqn:Hm;
    [|discriminate H].
  assert (Hchains : forall chainId, In chainId (Ctx.permissions_chains p) ->
                                    In chainId (Ctx.chains s)).
  { intros chainId Hin. apply includes_In.
    pose proof (filter_nil_all _ _ Hch chainId Hin) as Hf.
    now apply negb_false_iff in Hf. }
  split; [exact Hchains|]. split.
  - intros m Hin. apply includes_In.
    pose proof (filter_nil_all _ _ Hm m Hin) as Hf.
    now apply negb_false_iff in Hf.
  - intros accs account Hin. unfold Pairing.accounts_of_proposal in Hin.
    apply List.filter_In in Hin. destruct Hin as [Hacc Hinc].
    split; [exact Hacc|]. apply Hchains. now apply includes_In.
Qed.

Lemma queued_proposal_shares_supported_chains_witness :
  In "neo3:testnet:NX8Gre" ["neo3:testnet:NX8Gre"; "neo3:mainnet:NX8Gre"]
  /\ In (snd (Ctx.address_and_chain "neo3:testnet:NX8Gre")) ["neo3:testnet"].
Proof.
  refine (proj2 (proj2 (queued_proposal_shares_supported_chains sample_options
                          sample_proposal sample_state _ eq_refl))
            ["neo3:testnet:NX8Gre"; "neo3:mainnet:NX8Gre"]
            "neo3:testnet:NX8Gre" _).
  vm_compute. left. reflexivity.
Defined.

(** X28: [init] is idempotent.  A call that returns leaves a client, and a
    second call then changes nothing, makes no second client and no second
    storage; a call that finds a client returns at once with the state as
    it is.  A call whose client could not be made throws what the client
    library threw, and leaves the new storage without a client. *)
Theorem init_idempotent (plib : Pairing.PairLib) (options : Ctx.CtxOptions)
  (s s1 : Ctx.State) (r : Result unit) :
  Pairing.init plib options s = (r, s1) ->
  match r with
  | Ok _ =>
      Ctx.wcClient s1 <> None
      /\ Pairing.init plib options s1 = (Ok tt, s1)
      /\ (Ctx.wcClient s <> None -> s1 = s)
  | Throw e =>
      Pairing.Client_init plib (Ctx.relayServer options)
        (Pairing.KeyValueStorage_new plib) = Throw e
      /\ s1 = Ctx.set_storage (Some (Pairing.KeyValueStorage_new plib)) s
      /\ Ctx.wcClient s1 = None
  end.
Proof.
  intros H. unfold Pairing.init in H. run_in H.
  destruct (Ctx.wcClient s) as [c|] eqn:Hc.
  - injection H as <- <-. split; [congruence|]. split; [|reflexivity].
    unfold Pairing.init, bind, gets. rewrite Hc. reflexivity.
  - destruct (Pairing.Client_init plib _ _) as [cl|e] eqn:E;
      injection H as <- <-.
    + split; [discriminate|]. split; [reflexivity|].
      intros Hn. now contradiction Hn.
    + split; [reflexivity|]. split; [reflexivity | exact Hc].
Qed.

Lemma init_idempotent_witness :
  Ctx.wcClient
    (snd (Pairing.init sample_pair sample_options
            (Ctx.initial_state sample_options))) <> None
  /\ Pairing.init sample_pair sample_options
       (snd (Pairing.init sample_pair sample_options
               (Ctx.initial_state sample_options)))
     = (Ok tt,
        snd (Pairing.init sample_pair sample_options
               (Ctx.initial_state sample_options))).
Proof.
  pose proof (init_idempotent sample_pair sample_options
                (Ctx.initial_state sample_options) _ (Ok tt) eq_refl) as H.
  split; [exact (proj1 H) | exact (proj1 (proj2 H))].
Defined.
